(** * RAE health check: the polling and classification pipeline

    A shallow embedding of [RAEAutomation.main] and of the HTTP wrappers
    of [welldataAPI] it calls ([getApiCall], [postApiCall], [getJobs],
    [getReports], [historical_data_time]), with [getToken], the keyword
    filters and the paging loop of [getJobs], and [getJobsbyWellName] as
    functions of their own.

    Decoded JSON documents are trees of type [json]; a Python subscript
    [x[k]] is a lookup that may raise.  The network is an oracle: every
    request of one loop iteration receives an [HttpResult] chosen by the
    environment.  The lists of [main] that outlive an iteration
    ([RAEJobs], [ZeroReportList], [processedJobList], ...) are the fields
    of a [Globals] record threaded through the per-job loop, together
    with a log of the wrapper calls.

    Left out of [main]: the configuration file and the token request
    that precede the job listing, and the time range and interval of the
    request body of the historical call, which come from the
    configuration ([datetime.fromisoformat], [HistoricalTimeRequest]).
    Of what follows the loop, the two [df.columns[0]] that can raise are
    modelled; sorting, writing and styling the workbook and mailing it
    are taken to succeed. *)

From Stdlib Require Import ZArith List String Ascii Bool Lia Permutation.
From Stdlib Require Import Floats.SpecFloat DecimalString.
Import ListNotations.

Set Warnings "-register-all".
Local Open Scope string_scope.
Local Open Scope Z_scope.

(* ================================================================= *)
(** ** Python values *)

(** What [r.json()] yields: [None], [bool], [int], [float], [str],
    [list] and [dict] with string keys (insertion ordered). *)
Inductive json : Type :=
| JNone
| JBool (b : bool)
| JInt (z : Z)
| JFloat (f : spec_float)
| JStr (s : string)
| JList (l : list json)
| JDict (d : list (string * json)).

Inductive exn : Type :=
| IndexError
| KeyError (k : json)
| TypeError
| ValidationError.

Inductive res (A : Type) : Type :=
| Ok (a : A)
| Raise (e : exn).
Arguments Ok {A} a.
Arguments Raise {A} e.

Definition bind {A B : Type} (m : res A) (k : A -> res B) : res B :=
  match m with
  | Ok a => k a
  | Raise e => Raise e
  end.

Declare Scope py_scope.
Delimit Scope py_scope with py.
Notation "x <- m ;; k" := (bind m (fun x => k))
  (at level 61, m at next level, right associativity) : py_scope.
Local Open Scope py_scope.

(** [needle in hay] on two [str]. *)
Fixpoint str_in (needle hay : string) : bool :=
  if String.prefix needle hay then true
  else match hay with
       | EmptyString => false
       | String _ rest => str_in needle rest
       end.

Fixpoint assoc (k : string) (d : list (string * json)) : option json :=
  match d with
  | [] => None
  | (k', v) :: rest => if String.eqb k k' then Some v else assoc k rest
  end.

(** [x[i]] with an index [i >= 0]. *)
Definition item (x : json) (i : nat) : res json :=
  match x with
  | JList l => match nth_error l i with
               | Some v => Ok v
               | None => Raise IndexError
               end
  | JStr s => match String.get i s with
              | Some c => Ok (JStr (String c EmptyString))
              | None => Raise IndexError
              end
  | JDict _ => Raise (KeyError (JInt (Z.of_nat i)))
  | _ => Raise TypeError
  end.

(** [x['k']] with a string literal. *)
Definition field (x : json) (k : string) : res json :=
  match x with
  | JDict d => match assoc k d with
               | Some v => Ok v
               | None => Raise (KeyError (JStr k))
               end
  | _ => Raise TypeError
  end.

(** ['k' in x] with a string literal. *)
Definition has (k : string) (x : json) : res bool :=
  match x with
  | JDict d => Ok (match assoc k d with Some _ => true | None => false end)
  | JStr s => Ok (str_in k s)
  | JList l => Ok (existsb (fun v => match v with
                                     | JStr s => String.eqb s k
                                     | _ => false
                                     end) l)
  | _ => Raise TypeError
  end.

(** [len(x)]. *)
Definition len (x : json) : res nat :=
  match x with
  | JList l => Ok (List.length l)
  | JDict d => Ok (List.length d)
  | JStr s => Ok (String.length s)
  | _ => Raise TypeError
  end.

(** The elements a [for] loop over [x] visits. *)
Definition iter (x : json) : res (list json) :=
  match x with
  | JList l => Ok l
  | JDict d => Ok (map (fun kv => JStr (fst kv)) d)
  | JStr s => Ok (map (fun c => JStr (String c EmptyString)) (list_ascii_of_string s))
  | _ => Raise TypeError
  end.

(** Exact value of a finite float compared with an integer. *)
Definition float_is (f : spec_float) (n : Z) : bool :=
  match f with
  | S754_zero _ => n =? 0
  | S754_finite s m e =>
      let mag := if s then - Z.pos m else Z.pos m in
      if 0 <=? e then mag * 2 ^ e =? n else mag =? n * 2 ^ (- e)
  | _ => false
  end.

(** [x == n] for an integer literal [n]; [bool] is a subclass of [int]. *)
Definition eq_int (x : json) (n : Z) : bool :=
  match x with
  | JInt z => z =? n
  | JBool b => (if b then 1 else 0) =? n
  | JFloat f => float_is f n
  | _ => false
  end.

(** [x > 0], used only under an [isinstance] guard. *)
Definition gt_zero (x : json) : bool :=
  match x with
  | JInt z => 0 <? z
  | JBool b => b
  | JFloat (S754_finite false _ _) => true
  | JFloat (S754_infinity false) => true
  | _ => false
  end.

(** [x == 's'] for a string literal. *)
Definition eq_str (x : json) (s : string) : bool :=
  match x with
  | JStr t => String.eqb t s
  | _ => false
  end.

Definition isinstance_int (x : json) : bool :=
  match x with
  | JInt _ | JBool _ => true
  | _ => false
  end.

Definition isinstance_float (x : json) : bool :=
  match x with
  | JFloat _ => true
  | _ => false
  end.

(* ================================================================= *)
(** ** welldataAPI: the retry conditions *)

(** The objects that occur in the [elif] conditions of the wrappers. *)
Inductive pyobj : Type :=
| PyBool (b : bool)
| PyInt (z : Z)
| PyRange (start stop step : Z).

Definition range_len (start stop step : Z) : Z :=
  if 0 <? step then
    (if start <? stop then (stop - start - 1) / step + 1 else 0)
  else if step <? 0 then
    (if stop <? start then (start - stop - 1) / (- step) + 1 else 0)
  else 0.

Definition truthy (o : pyobj) : bool :=
  match o with
  | PyBool b => b
  | PyInt z => negb (z =? 0)
  | PyRange a b s => 0 <? range_len a b s
  end.

(** [a == b]: an [int] never equals a [range] object. *)
Definition py_eq (a b : pyobj) : bool :=
  match a, b with
  | PyInt x, PyInt y => x =? y
  | PyBool x, PyBool y => Bool.eqb x y
  | PyInt x, PyBool y | PyBool y, PyInt x => x =? (if y then 1 else 0)
  | PyRange a1 b1 s1, PyRange a2 b2 s2 =>
      let n1 := range_len a1 b1 s1 in
      (n1 =? range_len a2 b2 s2) &&
      ((n1 =? 0) || ((a1 =? a2) && ((n1 =? 1) || (s1 =? s2))))
  | _, _ => false
  end.

Definition py_ne (a b : pyobj) : bool := negb (py_eq a b).

(** [a and b], [a or b]: the value is one of the operands. *)
Definition py_and (a b : pyobj) : pyobj := if truthy a then b else a.
Definition py_or (a b : pyobj) : pyobj := if truthy a then a else b.

(** [r.status_code != 200 and r.status_code == range(500, 599, 1) or 400]
    ([getApiCall], [getJobs] listing, [getReports]). *)
Definition retry_cond_or_400 (lo hi : Z) (status_code : Z) : pyobj :=
  py_or (py_and (PyBool (py_ne (PyInt status_code) (PyInt 200)))
                (PyBool (py_eq (PyInt status_code) (PyRange lo hi 1))))
        (PyInt 400).

(** [r.status_code != 200 and
     (r.status_code == range(500, 599, 1) or range(400, 410, 1))]
    ([postApiCall], [getJobs] by id). *)
Definition retry_cond_or_range (status_code : Z) : pyobj :=
  py_and (PyBool (py_ne (PyInt status_code) (PyInt 200)))
         (py_or (PyBool (py_eq (PyInt status_code) (PyRange 500 599 1)))
                (PyRange 400 410 1)).

(* ================================================================= *)
(** ** welldataAPI: the wrappers *)

(** Outcome of one [requests.get]/[requests.post]: a response with its
    status code and decoded body ([None] when [r.json()] raises), or an
    exception of the transport. *)
Inductive HttpResult : Type :=
| Response (status_code : Z) (body : option json)
| ConnectionError.

(** What a wrapper does besides returning. *)
Inductive effect : Type :=
| Request
| Sleep (seconds : Z).

(** The common shape of the wrappers: one request; on status 200 the
    body is decoded and [collect]ed into [wells]; otherwise, when the
    [elif] condition is truthy, [time.sleep(delay)] and one more request.
    Every exception is caught and leaves [wells] as it is; the outer
    handler sleeps [retries = 1] second. *)
Definition call_once_more (cond : Z -> pyobj) (delay : Z)
    (collect : json -> res (list json)) (attempts : HttpResult * HttpResult)
  : list json * list effect :=
  let '(first, second) := attempts in
  match first with
  | ConnectionError => ([], [Request; Sleep 1])
  | Response status_code body =>
      if status_code =? 200 then
        match body with
        | Some values =>
            match collect values with
            | Ok wells => (wells, [Request])
            | Raise _ => ([], [Request; Sleep 1])
            end
        | None => ([], [Request; Sleep 1])
        end
      else if truthy (cond status_code) then
        match second with
        | ConnectionError => ([], [Request; Sleep delay; Request])
        | Response status_code2 body2 =>
            if status_code2 =? 200 then
              match body2 with
              | Some values =>
                  match collect values with
                  | Ok wells => (wells, [Request; Sleep delay; Request])
                  | Raise _ => ([], [Request; Sleep delay; Request])
                  end
              | None => ([], [Request; Sleep delay; Request])
              end
            else ([], [Request; Sleep delay; Request])
        end
      else ([], [Request])
  end.

(** [wells.append(values)]. *)
Definition append_values (values : json) : res (list json) := Ok [values].

Definition getApiCall (attempts : HttpResult * HttpResult)
  : list json * list effect :=
  call_once_more (retry_cond_or_400 500 599) 20 append_values attempts.

Definition postApiCall (attempts : HttpResult * HttpResult)
  : list json * list effect :=
  call_once_more retry_cond_or_range 20 append_values attempts.

(** [getJobs] with [jobId] given: the URL has no ['includeCapabilities']. *)
Definition getJobs_by_id (attempts : HttpResult * HttpResult)
  : list json * list effect :=
  call_once_more retry_cond_or_range 20 append_values attempts.

(** [getJobs] for the listing, [take=1000]: the [while] loop runs once;
    no contractor, operator or rig filter is passed, so every element of
    [values['jobs']] is appended. *)
Definition getJobs (attempts : HttpResult * HttpResult)
  : list json * list effect :=
  call_once_more (retry_cond_or_400 500 599) 20
    (fun values => jobs <- field values "jobs" ;; iter jobs) attempts.

(** [getReports]: without [reportId] (the keyword is absent, or its
    value is [None]) the list of the available reports; with a
    [reportId] the content of that report. *)
Definition getReports (reportId : json) (attempts : HttpResult * HttpResult)
  : list json * list effect :=
  match reportId with
  | JNone =>
      call_once_more (retry_cond_or_400 400 599) 10
        (fun values => ids <- field values "availableReports" ;; iter ids)
        attempts
  | _ => call_once_more (retry_cond_or_400 500 599) 20 append_values attempts
  end.

(** [historical_data_time] under [@retry(stop_after_attempt(3))]: an
    attempt succeeds when the request and [r.json()] do not raise, whatever
    the status code; when all attempts raise, the [retry_error_callback]
    value ([None]) is returned. *)
Fixpoint historical_data_time (attempts : list HttpResult) (budget : nat)
  : json :=
  match budget with
  | O => JNone
  | S budget' =>
      match attempts with
      | [] => JNone
      | Response _ (Some values) :: _ => values
      | _ :: rest => historical_data_time rest budget'
      end
  end.

(* ================================================================= *)
(** ** RAEAutomation.main: the variables of one loop iteration *)

Definition emoji_check : Z := 3.
Definition emoji_exclamation : Z := 2.
Definition emoji_x : Z := 0.

(** The variables that [main] resets at the top of every iteration and
    that reach the row.  The [*_val] copies of the channel values,
    [realTime] and [reportStatus] are written but never read again, and
    are left out. *)
Record Locals : Type := mkLocals {
  HookLoadbool : Z;
  PumpPressurebool : Z;
  BlockHeightbool : Z;
  PumpSpmbool : Z;
  PumpSpm2bool : Z;
  PumpSpm3bool : Z;
  RotaryTorquebool : Z;
  BitPositionbool : Z;
  BitStatusbool : json;
  SlipStatusbool : json;
  tpDriveRPM : Z;
  comment : json;
  comment24 : json;
  reportDate : json;
  reportID : json;
  tpDriveTorq : Z;
  weightonBit : Z;
  RP_Fast : Z;
  tHookLoad : Z;
  Iadc_Rig_val : json;
  Iadc2_Rig_val : json;
  Iadc3_Rig_val : json
}.

Definition set_HookLoadbool (x : Z) (lv : Locals) : Locals :=
  mkLocals x lv.(PumpPressurebool) lv.(BlockHeightbool) lv.(PumpSpmbool)
    lv.(PumpSpm2bool) lv.(PumpSpm3bool) lv.(RotaryTorquebool)
    lv.(BitPositionbool) lv.(BitStatusbool) lv.(SlipStatusbool)
    lv.(tpDriveRPM) lv.(comment) lv.(comment24) lv.(reportDate)
    lv.(reportID) lv.(tpDriveTorq) lv.(weightonBit) lv.(RP_Fast)
    lv.(tHookLoad) lv.(Iadc_Rig_val) lv.(Iadc2_Rig_val) lv.(Iadc3_Rig_val).

Definition set_PumpPressurebool (x : Z) (lv : Locals) : Locals :=
  mkLocals lv.(HookLoadbool) x lv.(BlockHeightbool) lv.(PumpSpmbool)
    lv.(PumpSpm2bool) lv.(PumpSpm3bool) lv.(RotaryTorquebool)
    lv.(BitPositionbool) lv.(BitStatusbool) lv.(SlipStatusbool)
    lv.(tpDriveRPM) lv.(comment) lv.(comment24) lv.(reportDate)
    lv.(reportID) lv.(tpDriveTorq) lv.(weightonBit) lv.(RP_Fast)
    lv.(tHookLoad) lv.(Iadc_Rig_val) lv.(Iadc2_Rig_val) lv.(Iadc3_Rig_val).

Definition set_BlockHeightbool (x : Z) (lv : Locals) : Locals :=
  mkLocals lv.(HookLoadbool) lv.(PumpPressurebool) x lv.(PumpSpmbool)
    lv.(PumpSpm2bool) lv.(PumpSpm3bool) lv.(RotaryTorquebool)
    lv.(BitPositionbool) lv.(BitStatusbool) lv.(SlipStatusbool)
    lv.(tpDriveRPM) lv.(comment) lv.(comment24) lv.(reportDate)
    lv.(reportID) lv.(tpDriveTorq) lv.(weightonBit) lv.(RP_Fast)
    lv.(tHookLoad) lv.(Iadc_Rig_val) lv.(Iadc2_Rig_val) lv.(Iadc3_Rig_val).

Definition set_PumpSpmbool (x : Z) (lv : Locals) : Locals :=
  mkLocals lv.(HookLoadbool) lv.(PumpPressurebool) lv.(BlockHeightbool) x
    lv.(PumpSpm2bool) lv.(PumpSpm3bool) lv.(RotaryTorquebool)
    lv.(BitPositionbool) lv.(BitStatusbool) lv.(SlipStatusbool)
    lv.(tpDriveRPM) lv.(comment) lv.(comment24) lv.(reportDate)
    lv.(reportID) lv.(tpDriveTorq) lv.(weightonBit) lv.(RP_Fast)
    lv.(tHookLoad) lv.(Iadc_Rig_val) lv.(Iadc2_Rig_val) lv.(Iadc3_Rig_val).

Definition set_PumpSpm2bool (x : Z) (lv : Locals) : Locals :=
  mkLocals lv.(HookLoadbool) lv.(PumpPressurebool) lv.(BlockHeightbool)
    lv.(PumpSpmbool) x lv.(PumpSpm3bool) lv.(RotaryTorquebool)
    lv.(BitPositionbool) lv.(BitStatusbool) lv.(SlipStatusbool)
    lv.(tpDriveRPM) lv.(comment) lv.(comment24) lv.(reportDate)
    lv.(reportID) lv.(tpDriveTorq) lv.(weightonBit) lv.(RP_Fast)
    lv.(tHookLoad) lv.(Iadc_Rig_val) lv.(Iadc2_Rig_val) lv.(Iadc3_Rig_val).

Definition set_PumpSpm3bool (x : Z) (lv : Locals) : Locals :=
  mkLocals lv.(HookLoadbool) lv.(PumpPressurebool) lv.(BlockHeightbool)
    lv.(PumpSpmbool) lv.(PumpSpm2bool) x lv.(RotaryTorquebool)
    lv.(BitPositionbool) lv.(BitStatusbool) lv.(SlipStatusbool)
    lv.(tpDriveRPM) lv.(comment) lv.(comment24) lv.(reportDate)
    lv.(reportID) lv.(tpDriveTorq) lv.(weightonBit) lv.(RP_Fast)
    lv.(tHookLoad) lv.(Iadc_Rig_val) lv.(Iadc2_Rig_val) lv.(Iadc3_Rig_val).

Definition set_RotaryTorquebool (x : Z) (lv : Locals) : Locals :=
  mkLocals lv.(HookLoadbool) lv.(PumpPressurebool) lv.(BlockHeightbool)
    lv.(PumpSpmbool) lv.(PumpSpm2bool) lv.(PumpSpm3bool) x
    lv.(BitPositionbool) lv.(BitStatusbool) lv.(SlipStatusbool)
    lv.(tpDriveRPM) lv.(comment) lv.(comment24) lv.(reportDate)
    lv.(reportID) lv.(tpDriveTorq) lv.(weightonBit) lv.(RP_Fast)
    lv.(tHookLoad) lv.(Iadc_Rig_val) lv.(Iadc2_Rig_val) lv.(Iadc3_Rig_val).

Definition set_BitPositionbool (x : Z) (lv : Locals) : Locals :=
  mkLocals lv.(HookLoadbool) lv.(PumpPressurebool) lv.(BlockHeightbool)
    lv.(PumpSpmbool) lv.(PumpSpm2bool) lv.(PumpSpm3bool)
    lv.(RotaryTorquebool) x lv.(BitStatusbool) lv.(SlipStatusbool)
    lv.(tpDriveRPM) lv.(comment) lv.(comment24) lv.(reportDate)
    lv.(reportID) lv.(tpDriveTorq) lv.(weightonBit) lv.(RP_Fast)
    lv.(tHookLoad) lv.(Iadc_Rig_val) lv.(Iadc2_Rig_val) lv.(Iadc3_Rig_val).

Definition set_BitStatusbool (x : json) (lv : Locals) : Locals :=
  mkLocals lv.(HookLoadbool) lv.(PumpPressurebool) lv.(BlockHeightbool)
    lv.(PumpSpmbool) lv.(PumpSpm2bool) lv.(PumpSpm3bool)
    lv.(RotaryTorquebool) lv.(BitPositionbool) x lv.(SlipStatusbool)
    lv.(tpDriveRPM) lv.(comment) lv.(comment24) lv.(reportDate)
    lv.(reportID) lv.(tpDriveTorq) lv.(weightonBit) lv.(RP_Fast)
    lv.(tHookLoad) lv.(Iadc_Rig_val) lv.(Iadc2_Rig_val) lv.(Iadc3_Rig_val).

Definition set_SlipStatusbool (x : json) (lv : Locals) : Locals :=
  mkLocals lv.(HookLoadbool) lv.(PumpPressurebool) lv.(BlockHeightbool)
    lv.(PumpSpmbool) lv.(PumpSpm2bool) lv.(PumpSpm3bool)
    lv.(RotaryTorquebool) lv.(BitPositionbool) lv.(BitStatusbool) x
    lv.(tpDriveRPM) lv.(comment) lv.(comment24) lv.(reportDate)
    lv.(reportID) lv.(tpDriveTorq) lv.(weightonBit) lv.(RP_Fast)
    lv.(tHookLoad) lv.(Iadc_Rig_val) lv.(Iadc2_Rig_val) lv.(Iadc3_Rig_val).

Definition set_tpDriveRPM (x : Z) (lv : Locals) : Locals :=
  mkLocals lv.(HookLoadbool) lv.(PumpPressurebool) lv.(BlockHeightbool)
    lv.(PumpSpmbool) lv.(PumpSpm2bool) lv.(PumpSpm3bool)
    lv.(RotaryTorquebool) lv.(BitPositionbool) lv.(BitStatusbool)
    lv.(SlipStatusbool) x lv.(comment) lv.(comment24) lv.(reportDate)
    lv.(reportID) lv.(tpDriveTorq) lv.(weightonBit) lv.(RP_Fast)
    lv.(tHookLoad) lv.(Iadc_Rig_val) lv.(Iadc2_Rig_val) lv.(Iadc3_Rig_val).

Definition set_comment (x : json) (lv : Locals) : Locals :=
  mkLocals lv.(HookLoadbool) lv.(PumpPressurebool) lv.(BlockHeightbool)
    lv.(PumpSpmbool) lv.(PumpSpm2bool) lv.(PumpSpm3bool)
    lv.(RotaryTorquebool) lv.(BitPositionbool) lv.(BitStatusbool)
    lv.(SlipStatusbool) lv.(tpDriveRPM) x lv.(comment24) lv.(reportDate)
    lv.(reportID) lv.(tpDriveTorq) lv.(weightonBit) lv.(RP_Fast)
    lv.(tHookLoad) lv.(Iadc_Rig_val) lv.(Iadc2_Rig_val) lv.(Iadc3_Rig_val).

Definition set_comment24 (x : json) (lv : Locals) : Locals :=
  mkLocals lv.(HookLoadbool) lv.(PumpPressurebool) lv.(BlockHeightbool)
    lv.(PumpSpmbool) lv.(PumpSpm2bool) lv.(PumpSpm3bool)
    lv.(RotaryTorquebool) lv.(BitPositionbool) lv.(BitStatusbool)
    lv.(SlipStatusbool) lv.(tpDriveRPM) lv.(comment) x lv.(reportDate)
    lv.(reportID) lv.(tpDriveTorq) lv.(weightonBit) lv.(RP_Fast)
    lv.(tHookLoad) lv.(Iadc_Rig_val) lv.(Iadc2_Rig_val) lv.(Iadc3_Rig_val).

Definition set_reportDate (x : json) (lv : Locals) : Locals :=
  mkLocals lv.(HookLoadbool) lv.(PumpPressurebool) lv.(BlockHeightbool)
    lv.(PumpSpmbool) lv.(PumpSpm2bool) lv.(PumpSpm3bool)
    lv.(RotaryTorquebool) lv.(BitPositionbool) lv.(BitStatusbool)
    lv.(SlipStatusbool) lv.(tpDriveRPM) lv.(comment) lv.(comment24) x
    lv.(reportID) lv.(tpDriveTorq) lv.(weightonBit) lv.(RP_Fast)
    lv.(tHookLoad) lv.(Iadc_Rig_val) lv.(Iadc2_Rig_val) lv.(Iadc3_Rig_val).

Definition set_reportID (x : json) (lv : Locals) : Locals :=
  mkLocals lv.(HookLoadbool) lv.(PumpPressurebool) lv.(BlockHeightbool)
    lv.(PumpSpmbool) lv.(PumpSpm2bool) lv.(PumpSpm3bool)
    lv.(RotaryTorquebool) lv.(BitPositionbool) lv.(BitStatusbool)
    lv.(SlipStatusbool) lv.(tpDriveRPM) lv.(comment) lv.(comment24)
    lv.(reportDate) x lv.(tpDriveTorq) lv.(weightonBit) lv.(RP_Fast)
    lv.(tHookLoad) lv.(Iadc_Rig_val) lv.(Iadc2_Rig_val) lv.(Iadc3_Rig_val).

Definition set_tpDriveTorq (x : Z) (lv : Locals) : Locals :=
  mkLocals lv.(HookLoadbool) lv.(PumpPressurebool) lv.(BlockHeightbool)
    lv.(PumpSpmbool) lv.(PumpSpm2bool) lv.(PumpSpm3bool)
    lv.(RotaryTorquebool) lv.(BitPositionbool) lv.(BitStatusbool)
    lv.(SlipStatusbool) lv.(tpDriveRPM) lv.(comment) lv.(comment24)
    lv.(reportDate) lv.(reportID) x lv.(weightonBit) lv.(RP_Fast)
    lv.(tHookLoad) lv.(Iadc_Rig_val) lv.(Iadc2_Rig_val) lv.(Iadc3_Rig_val).

Definition set_weightonBit (x : Z) (lv : Locals) : Locals :=
  mkLocals lv.(HookLoadbool) lv.(PumpPressurebool) lv.(BlockHeightbool)
    lv.(PumpSpmbool) lv.(PumpSpm2bool) lv.(PumpSpm3bool)
    lv.(RotaryTorquebool) lv.(BitPositionbool) lv.(BitStatusbool)
    lv.(SlipStatusbool) lv.(tpDriveRPM) lv.(comment) lv.(comment24)
    lv.(reportDate) lv.(reportID) lv.(tpDriveTorq) x lv.(RP_Fast)
    lv.(tHookLoad) lv.(Iadc_Rig_val) lv.(Iadc2_Rig_val) lv.(Iadc3_Rig_val).

Definition set_RP_Fast (x : Z) (lv : Locals) : Locals :=
  mkLocals lv.(HookLoadbool) lv.(PumpPressurebool) lv.(BlockHeightbool)
    lv.(PumpSpmbool) lv.(PumpSpm2bool) lv.(PumpSpm3bool)
    lv.(RotaryTorquebool) lv.(BitPositionbool) lv.(BitStatusbool)
    lv.(SlipStatusbool) lv.(tpDriveRPM) lv.(comment) lv.(comment24)
    lv.(reportDate) lv.(reportID) lv.(tpDriveTorq) lv.(weightonBit) x
    lv.(tHookLoad) lv.(Iadc_Rig_val) lv.(Iadc2_Rig_val) lv.(Iadc3_Rig_val).

Definition set_tHookLoad (x : Z) (lv : Locals) : Locals :=
  mkLocals lv.(HookLoadbool) lv.(PumpPressurebool) lv.(BlockHeightbool)
    lv.(PumpSpmbool) lv.(PumpSpm2bool) lv.(PumpSpm3bool)
    lv.(RotaryTorquebool) lv.(BitPositionbool) lv.(BitStatusbool)
    lv.(SlipStatusbool) lv.(tpDriveRPM) lv.(comment) lv.(comment24)
    lv.(reportDate) lv.(reportID) lv.(tpDriveTorq) lv.(weightonBit)
    lv.(RP_Fast) x lv.(Iadc_Rig_val) lv.(Iadc2_Rig_val) lv.(Iadc3_Rig_val).

Definition set_Iadc_Rig_val (x : json) (lv : Locals) : Locals :=
  mkLocals lv.(HookLoadbool) lv.(PumpPressurebool) lv.(BlockHeightbool)
    lv.(PumpSpmbool) lv.(PumpSpm2bool) lv.(PumpSpm3bool)
    lv.(RotaryTorquebool) lv.(BitPositionbool) lv.(BitStatusbool)
    lv.(SlipStatusbool) lv.(tpDriveRPM) lv.(comment) lv.(comment24)
    lv.(reportDate) lv.(reportID) lv.(tpDriveTorq) lv.(weightonBit)
    lv.(RP_Fast) lv.(tHookLoad) x lv.(Iadc2_Rig_val) lv.(Iadc3_Rig_val).

Definition set_Iadc2_Rig_val (x : json) (lv : Locals) : Locals :=
  mkLocals lv.(HookLoadbool) lv.(PumpPressurebool) lv.(BlockHeightbool)
    lv.(PumpSpmbool) lv.(PumpSpm2bool) lv.(PumpSpm3bool)
    lv.(RotaryTorquebool) lv.(BitPositionbool) lv.(BitStatusbool)
    lv.(SlipStatusbool) lv.(tpDriveRPM) lv.(comment) lv.(comment24)
    lv.(reportDate) lv.(reportID) lv.(tpDriveTorq) lv.(weightonBit)
    lv.(RP_Fast) lv.(tHookLoad) lv.(Iadc_Rig_val) x lv.(Iadc3_Rig_val).

Definition set_Iadc3_Rig_val (x : json) (lv : Locals) : Locals :=
  mkLocals lv.(HookLoadbool) lv.(PumpPressurebool) lv.(BlockHeightbool)
    lv.(PumpSpmbool) lv.(PumpSpm2bool) lv.(PumpSpm3bool)
    lv.(RotaryTorquebool) lv.(BitPositionbool) lv.(BitStatusbool)
    lv.(SlipStatusbool) lv.(tpDriveRPM) lv.(comment) lv.(comment24)
    lv.(reportDate) lv.(reportID) lv.(tpDriveTorq) lv.(weightonBit)
    lv.(RP_Fast) lv.(tHookLoad) lv.(Iadc_Rig_val) lv.(Iadc2_Rig_val) x.

Definition fresh_locals : Locals :=
  {| HookLoadbool := emoji_x; PumpPressurebool := emoji_x;
     BlockHeightbool := emoji_x; PumpSpmbool := emoji_x;
     PumpSpm2bool := emoji_x; PumpSpm3bool := emoji_x;
     RotaryTorquebool := emoji_x; BitPositionbool := emoji_x;
     BitStatusbool := JInt emoji_x; SlipStatusbool := JInt emoji_x;
     tpDriveRPM := emoji_x;
     comment := JStr "NA"; comment24 := JStr "NA";
     reportDate := JStr ""; reportID := JStr "";
     tpDriveTorq := emoji_x; weightonBit := emoji_x; RP_Fast := emoji_x;
     tHookLoad := emoji_x;
     Iadc_Rig_val := JStr ""; Iadc2_Rig_val := JStr "";
     Iadc3_Rig_val := JStr "" |}.

(* ================================================================= *)
(** ** RAEAutomation.main: the channel classifier (lines 445-686) *)

(** [if isinstance(v, float) or isinstance(v, int):
       if v == 0: ! elif v > 0: check else: x]
    The variable keeps its value when the guard fails. *)
Definition float_or_int_zero_first (v : json) (old : Z) : Z :=
  if isinstance_float v || isinstance_int v then
    if eq_int v 0 then emoji_exclamation
    else if gt_zero v then emoji_check
    else emoji_x
  else old.

(** The same guard with the tests in the other order ([TrigHkld]). *)
Definition float_or_int_positive_first (v : json) (old : Z) : Z :=
  if isinstance_float v || isinstance_int v then
    if gt_zero v then emoji_check
    else if eq_int v 0 then emoji_exclamation
    else emoji_x
  else old.

(** [if isinstance(RotaryTorque_val, int): ...]: no [float] here. *)
Definition int_positive_first (v : json) (old : Z) : Z :=
  if isinstance_int v then
    if gt_zero v then emoji_check
    else if eq_int v 0 then emoji_exclamation
    else emoji_x
  else old.

Definition bit_status (v : json) : json :=
  if eq_int v 0 then JStr "On"
  else if eq_int v 1 then JStr "Off"
  else JInt emoji_x.

Definition slip_status (v : json) : json :=
  if eq_int v 0 then JStr "Resetting"
  else if eq_int v 1 then JStr "in"
  else if eq_int v 2 then JStr "out"
  else JInt emoji_x.

(** [if key == 'name': body], one of the consecutive [if]s of the loop. *)
Definition when_key (key name : string) (body : Locals -> Locals)
    (lv : Locals) : Locals :=
  if String.eqb key name then body lv else lv.

(** The body of [for key, value in attribute_mapping.items()]. *)
Definition classify_item (lv : Locals) (kv : string * json) : Locals :=
  let '(key, value) := kv in
  let lv := when_key key "HookLoad" (fun lv =>
    set_HookLoadbool (float_or_int_zero_first value lv.(HookLoadbool)) lv) lv in
  let lv := when_key key "PumpPressure" (fun lv =>
    set_PumpPressurebool
      (float_or_int_zero_first value lv.(PumpPressurebool)) lv) lv in
  let lv := when_key key "BlockHeight" (fun lv =>
    set_BlockHeightbool
      (float_or_int_zero_first value lv.(BlockHeightbool)) lv) lv in
  let lv := when_key key "PumpSpm" (fun lv =>
    set_PumpSpmbool (float_or_int_zero_first value lv.(PumpSpmbool)) lv) lv in
  let lv := when_key key "PumpSpm2" (fun lv =>
    set_PumpSpm2bool (float_or_int_zero_first value lv.(PumpSpm2bool)) lv) lv in
  let lv := when_key key "PumpSpm3" (fun lv =>
    set_PumpSpm3bool (float_or_int_zero_first value lv.(PumpSpm3bool)) lv) lv in
  let lv := when_key key "RotaryTorque" (fun lv =>
    set_RotaryTorquebool
      (int_positive_first value lv.(RotaryTorquebool)) lv) lv in
  let lv := when_key key "TopDrvRpm" (fun lv =>
    set_tpDriveRPM (float_or_int_zero_first value lv.(tpDriveRPM)) lv) lv in
  let lv := when_key key "TopDrvTorque" (fun lv =>
    set_tpDriveTorq (float_or_int_zero_first value lv.(tpDriveTorq)) lv) lv in
  let lv := when_key key "BitWeightQualified" (fun lv =>
    set_weightonBit (float_or_int_zero_first value lv.(weightonBit)) lv) lv in
  let lv := when_key key "BitPosition" (fun lv =>
    set_BitPositionbool
      (float_or_int_zero_first value lv.(BitPositionbool)) lv) lv in
  let lv := when_key key "BitStatus" (fun lv =>
    set_BitStatusbool (bit_status value) lv) lv in
  let lv := when_key key "FastRopFtHr" (fun lv =>
    set_RP_Fast (float_or_int_zero_first value lv.(RP_Fast)) lv) lv in
  let lv := when_key key "SlipStatus" (fun lv =>
    set_SlipStatusbool (slip_status value) lv) lv in
  let lv := when_key key "TrigHkld" (fun lv =>
    set_tHookLoad (float_or_int_positive_first value lv.(tHookLoad)) lv) lv in
  let lv := when_key key "IadcRigActivity" (set_Iadc_Rig_val value) lv in
  let lv := when_key key "IadcRigActivity2" (set_Iadc2_Rig_val value) lv in
  let lv := when_key key "RigActivity" (set_Iadc3_Rig_val value) lv in
  lv.

(** [attribute_mapping[k] = v] on an insertion-ordered [dict]: an
    existing key keeps its place and takes the new value. *)
Fixpoint dict_set (k : string) (v : json) (d : list (string * json))
  : list (string * json) :=
  match d with
  | [] => [(k, v)]
  | (k', v') :: rest =>
      if String.eqb k k' then (k', v) :: rest
      else (k', v') :: dict_set k v rest
  end.

Definition classify (attribute_mapping : list (string * json)) (lv : Locals)
  : Locals :=
  fold_left classify_item attribute_mapping lv.

(* ================================================================= *)
(** ** RAEAutomation.main: state of a run *)

(** [a == b] on decoded values: numbers compare by value across [bool],
    [int] and [float]; a [dict] compares as a mapping. *)
Fixpoint json_eq (a b : json) {struct a} : bool :=
  match a, b with
  | JNone, JNone => true
  | JStr s, JStr t => String.eqb s t
  | JInt x, _ => eq_int b x
  | JBool x, _ => eq_int b (if x then 1 else 0)
  | JFloat f, JFloat g => SFeqb f g
  | JFloat f, JInt y => float_is f y
  | JFloat f, JBool y => float_is f (if y then 1 else 0)
  | JList l1, JList l2 =>
      (fix all2 (l1 l2 : list json) : bool :=
         match l1, l2 with
         | [], [] => true
         | x :: xs, y :: ys => json_eq x y && all2 xs ys
         | _, _ => false
         end) l1 l2
  | JDict d1, JDict d2 =>
      Nat.eqb (List.length d1) (List.length d2) &&
      (fix sub (d : list (string * json)) : bool :=
         match d with
         | [] => true
         | (k, v) :: rest =>
             match assoc k d2 with
             | Some v2 => json_eq v v2
             | None => false
             end && sub rest
         end) d1
  | _, _ => false
  end.

(** [x in l] on a [list]. *)
Definition py_in (x : json) (l : list json) : bool :=
  existsb (json_eq x) l.

(** One cell of a row: a value taken over as it is, [int(...)] of a
    status code, or [str(...)] of a value. *)
Inductive cell : Type :=
| CVal (v : json)
| CInt (z : Z)
| CStr (s : string).

(** The requests [main] issues inside the loop, by endpoint. *)
Inductive call : Type :=
| GetCapabilities (jobId : json)
| GetAttributes (jobId : json)
| PostHistorical (jobId : json) (attributes : list json)
| GetReportList (jobId : json)
| GetReportContent (jobId reportId : json)
| GetJob (jobId : json).

(** The lists and variables of [main] that outlive an iteration, and
    the sequence of wrapper calls made so far. *)
Record Globals : Type := mkGlobals {
  RAEJobs : list (list cell);
  MR_Report_Ids : list (json * list json);
  MR_Report_Comments : list (list json);
  processedJobList : list (json * string);
  ZeroReportList : list json;
  jobsTimeBased : list (json * json);
  well : json;
  report : json;
  calls : list call
}.

Definition initial_globals : Globals :=
  {| RAEJobs := []; MR_Report_Ids := []; MR_Report_Comments := [];
     processedJobList := []; ZeroReportList := []; jobsTimeBased := [];
     well := JStr ""; report := JStr ""; calls := [] |}.

Definition RAEJobs_append (holder : list cell) (g : Globals) : Globals :=
  mkGlobals (g.(RAEJobs) ++ [holder]) g.(MR_Report_Ids)
    g.(MR_Report_Comments) g.(processedJobList) g.(ZeroReportList)
    g.(jobsTimeBased) g.(well) g.(report) g.(calls).

Definition MR_Report_Ids_append (x : json * list json) (g : Globals)
  : Globals :=
  mkGlobals g.(RAEJobs) (g.(MR_Report_Ids) ++ [x]) g.(MR_Report_Comments)
    g.(processedJobList) g.(ZeroReportList) g.(jobsTimeBased) g.(well)
    g.(report) g.(calls).

Definition MR_Report_Comments_append (x : list json) (g : Globals)
  : Globals :=
  mkGlobals g.(RAEJobs) g.(MR_Report_Ids) (g.(MR_Report_Comments) ++ [x])
    g.(processedJobList) g.(ZeroReportList) g.(jobsTimeBased) g.(well)
    g.(report) g.(calls).

Definition processedJobList_append (x : json * string) (g : Globals)
  : Globals :=
  mkGlobals g.(RAEJobs) g.(MR_Report_Ids) g.(MR_Report_Comments)
    (g.(processedJobList) ++ [x]) g.(ZeroReportList) g.(jobsTimeBased)
    g.(well) g.(report) g.(calls).

Definition ZeroReportList_append (x : json) (g : Globals) : Globals :=
  mkGlobals g.(RAEJobs) g.(MR_Report_Ids) g.(MR_Report_Comments)
    g.(processedJobList) (g.(ZeroReportList) ++ [x]) g.(jobsTimeBased)
    g.(well) g.(report) g.(calls).

Definition jobsTimeBased_append (x : json * json) (g : Globals) : Globals :=
  mkGlobals g.(RAEJobs) g.(MR_Report_Ids) g.(MR_Report_Comments)
    g.(processedJobList) g.(ZeroReportList) (g.(jobsTimeBased) ++ [x])
    g.(well) g.(report) g.(calls).

Definition set_well (x : json) (g : Globals) : Globals :=
  mkGlobals g.(RAEJobs) g.(MR_Report_Ids) g.(MR_Report_Comments)
    g.(processedJobList) g.(ZeroReportList) g.(jobsTimeBased) x
    g.(report) g.(calls).

Definition set_report (x : json) (g : Globals) : Globals :=
  mkGlobals g.(RAEJobs) g.(MR_Report_Ids) g.(MR_Report_Comments)
    g.(processedJobList) g.(ZeroReportList) g.(jobsTimeBased) g.(well) x
    g.(calls).

Definition record_call (c : call) (g : Globals) : Globals :=
  mkGlobals g.(RAEJobs) g.(MR_Report_Ids) g.(MR_Report_Comments)
    g.(processedJobList) g.(ZeroReportList) g.(jobsTimeBased) g.(well)
    g.(report) (g.(calls) ++ [c]).

(** Statements of the loop body: they read and write [Globals] and may
    raise; what was written before a raise stays written. *)
Definition M (A : Type) : Type := Globals -> res A * Globals.

Definition ret {A : Type} (a : A) : M A := fun g => (Ok a, g).

Definition mbind {A B : Type} (m : M A) (k : A -> M B) : M B :=
  fun g => match m g with
           | (Ok a, g') => k a g'
           | (Raise e, g') => (Raise e, g')
           end.

Definition lift {A : Type} (r : res A) : M A := fun g => (r, g).

Definition modify (f : Globals -> Globals) : M unit := fun g => (Ok tt, f g).

Definition gets {A : Type} (f : Globals -> A) : M A := fun g => (Ok (f g), g).

Notation "x <~ m ;; k" := (mbind m (fun x => k))
  (at level 61, m at next level, right associativity) : py_scope.
Notation "m ;;; k" := (mbind m (fun _ => k))
  (at level 61, right associativity) : py_scope.

(** The responses the network gives to the requests of one iteration:
    first and second attempt of each wrapper call, and the attempts of
    the historical-data call. *)
Record Responses : Type := mkResponses {
  capabilities_http : HttpResult * HttpResult;
  attributes_http : HttpResult * HttpResult;
  historical_http : list HttpResult;
  report_list_http : HttpResult * HttpResult;
  report_content_http : HttpResult * HttpResult;
  job_http : HttpResult * HttpResult
}.

(* ================================================================= *)
(** ** RAEAutomation.main: report schema dispatch (lines 713-792) *)

Inductive schema : Type :=
| GenericAmericanMorningReportDW
| HandPMorningReport
| ScanMorningReport
| RapadMorningReport
| PattersonMorningReportRevB
| Unrecognized.



(** The [if]/[elif] chain over ['<marker>' in str(report)]. *)
Definition dispatch (text : string) : schema :=
  if str_in "GenericAmericanMorningReportDW" text
  then GenericAmericanMorningReportDW
  else if str_in "HandPMorningReport" text then HandPMorningReport
  else if str_in "ScanMorningReport" text then ScanMorningReport
  else if str_in "RapadMorningReport" text then RapadMorningReport
  else if str_in "PattersonMorningReportRevB" text
  then PattersonMorningReportRevB
  else Unrecognized.

(** [report[0]['Reports'][0]]. *)
Definition first_report (report : json) : res json :=
  report0 <- item report 0 ;;
  reports <- field report0 "Reports" ;;
  item reports 0.

(** [x[a][b]]. *)
Definition field2 (x : json) (a b : string) : res json :=
  y <- field x a ;; field y b.

(** The activity loops of the first four schemas:
    [for rep in items: if present in rep:
       MR_Report_Comments.append(
         [well, r[0]['id'], r[0]['date'], rep[code], rep[details]])]. *)
Fixpoint activity_rows (well r : json) (present code details : string)
    (items : list json) : M unit :=
  match items with
  | [] => ret tt
  | rep :: rest =>
      p <~ lift (has present rep) ;;
      (if (p : bool) then
         row <~ lift (r0 <- item r 0 ;;
                      id <- field r0 "id" ;;
                      r0' <- item r 0 ;;
                      date <- field r0' "date" ;;
                      c <- field rep code ;;
                      d <- field rep details ;;
                      Ok [well; id; date; c; d]) ;;
         modify (MR_Report_Comments_append row)
       else ret tt) ;;;
      activity_rows well r present code details rest
  end.

(** The activity loop of [PattersonMorningReportRevB]: rows are kept on
    ['details']; a missing ['code'] becomes the empty string. *)
Fixpoint activity_rows_patterson (well r : json) (items : list json)
  : M unit :=
  match items with
  | [] => ret tt
  | rep :: rest =>
      p <~ lift (has "details" rep) ;;
      (if (p : bool) then
         row <~ lift (hc <- has "code" rep ;;
                      code <- (if (hc : bool) then field rep "code"
                               else Ok (JStr "")) ;;
                      r0 <- item r 0 ;;
                      id <- field r0 "id" ;;
                      r0' <- item r 0 ;;
                      date <- field r0' "date" ;;
                      d <- field rep "details" ;;
                      Ok [well; id; date; code; d]) ;;
         modify (MR_Report_Comments_append row)
       else ret tt) ;;;
      activity_rows_patterson well r rest
  end.

Section Main.

(** [str(x)] and the f-string rendering of a decoded value.  Python's
    text for floats and its quoting of nested strings are not spelled
    out; the program only searches this text for fixed substrings and
    stores it in cells. *)
Variable py_str : json -> string.

(** The branch of one schema: the report fields, then the activity rows. *)
Definition extract (s : schema) (well r report : json) (lv : Locals)
  : M Locals :=
  match s with
  | GenericAmericanMorningReportDW =>
      doc <~ lift (d <- first_report report ;;
                   field d "GenericAmericanMorningReportDW") ;;
      reportDate <~ lift (field2 doc "Header" "Date") ;;
      comment <~ lift (field2 doc "Header" "OpsAtReportTime") ;;
      comment24 <~ (if str_in "OpsNext24" (py_str report)
                    then lift (field2 doc "Header" "OpsNext24")
                    else ret lv.(comment24)) ;;
      reportID <~ lift (field2 doc "ReportAttributes" "ReportID") ;;
      reportStatus <~ lift (field2 doc "ReportAttributes" "ReportStatus") ;;
      items <~ lift (x <- field2 doc "ActivityDetails" "Items" ;; iter x) ;;
      activity_rows well r "ActCode" "ActCode" "DescriptionOfWork" items ;;;
      ret (set_reportID reportID (set_comment24 comment24
             (set_comment comment (set_reportDate reportDate lv))))
  | HandPMorningReport =>
      doc <~ lift (d <- first_report report ;; field d "HandPMorningReport") ;;
      reportDate <~ lift (field2 doc "Header" "Date") ;;
      comment <~ lift (field2 doc "Operations" "PresentOp") ;;
      reportID <~ lift (field2 doc "ReportAttributes" "ReportID") ;;
      reportStatus <~ lift (field2 doc "ReportAttributes" "ReportStatus") ;;
      items <~ lift (x <- field2 doc "TimeSummary" "Items" ;; iter x) ;;
      activity_rows well r "ActivityCode" "ActivityCode" "ActivityDetails"
        items ;;;
      ret (set_reportID reportID (set_comment24 (JStr "")
             (set_comment comment (set_reportDate reportDate lv))))
  | ScanMorningReport =>
      doc <~ lift (d <- first_report report ;; field d "ScanMorningReport") ;;
      reportDate <~ lift (field2 doc "Header" "Date") ;;
      reportID <~ lift (field2 doc "ReportAttributes" "ReportID") ;;
      reportStatus <~ lift (field2 doc "ReportAttributes" "ReportStatus") ;;
      comment <~ lift (field2 doc "Header" "PresentOp") ;;
      items <~ lift (x <- field2 doc "TimeBreakDown" "Items" ;; iter x) ;;
      activity_rows well r "ActivityCode" "ActivityCode" "ActivityDetails"
        items ;;;
      ret (set_comment comment (set_reportID reportID
             (set_reportDate reportDate lv)))
  | RapadMorningReport =>
      doc <~ lift (d <- first_report report ;; field d "RapadMorningReport") ;;
      reportDate <~ lift (field2 doc "Header" "ReportDate") ;;
      comment <~ lift (field2 doc "Header" "OperationsActivityCurrent") ;;
      comment24 <~
        lift (field2 doc "Header" "OperationsActivityNext24Hours") ;;
      reportID <~ lift (field2 doc "ReportAttributes" "ReportID") ;;
      reportStatus <~ lift (field2 doc "ReportAttributes" "ReportStatus") ;;
      items <~ lift (x <- field2 doc "ActivityDetails" "Items" ;; iter x) ;;
      activity_rows well r "OperationsActivityCode" "OperationsActivityCode"
        "OperationsActivityDescription" items ;;;
      ret (set_reportID reportID (set_comment24 comment24
             (set_comment comment (set_reportDate reportDate lv))))
  | PattersonMorningReportRevB =>
      doc <~ lift (d <- first_report report ;;
                   field d "PattersonMorningReportRevB") ;;
      reportDate <~ lift (field2 doc "Header" "ReportDate") ;;
      comment <~ lift (field2 doc "OperationsCasingDetails"
                         "operations_at_report_time") ;;
      comment24 <~
        lift (ocd <- field doc "OperationsCasingDetails" ;;
              h <- has "operations_next_24_hours" ocd ;;
              if (h : bool) then field ocd "operations_next_24_hours"
              else Ok lv.(comment24)) ;;
      reportID <~ lift (field2 doc "ReportAttributes" "ReportID") ;;
      reportStatus <~ lift (field2 doc "ReportAttributes" "ReportStatus") ;;
      items <~ lift (x <- field2 doc "ActivityDetails" "Items" ;; iter x) ;;
      activity_rows_patterson well r items ;;;
      ret (set_reportID reportID (set_comment24 comment24
             (set_comment comment (set_reportDate reportDate lv))))
  | Unrecognized => ret lv
  end.

(** The fixed set of mnemonics of lines 274-342. *)
Definition mnemonics : list string :=
  ["HOOKLOAD_MAX"; "STP_PRS_1"; "BLOCK_POS"; "MP1_SPM"; "MP2_SPM"; "MP3_SPM";
   "ROT_TORQUE"; "TD_SPEED"; "TD_TORQUE"; "WOB"; "BIT_DEPTH"; "BIT_ON_BTM";
   "FAST_ROP_FT_HR"; "SLIPS_STAT"; "Trigger Hkld"; "IADC_RIG_ACTIVITY";
   "IADC_RIG_ACTIVITY2"; "IADC_RIG_ACTIVITY3"].

(** [Attribute(id=c['id'], mode='Last')] (lines 53-55): the model
    declares [id: str].  A [str] is kept, a number is turned into its
    text, and [None], a list or a dict is refused with [ValidationError].
    The object is kept as its id (the mode is always 'Last'). *)
Definition Attribute (id : json) : res json :=
  match id with
  | JStr _ => Ok id
  | JBool _ | JInt _ | JFloat _ => Ok (JStr (py_str id))
  | JNone | JList _ | JDict _ => Raise ValidationError
  end.

(** The body of [for c in q[0]['attributes']]: eighteen consecutive
    [if c['hasData'] == True and c['alias']['witsml_mnemonic'] == m:
       attsLst.append(Attribute(id=c['id'], mode='Last'))],
    one per mnemonic; the mnemonics are distinct, so at most one fires. *)
Definition select_attribute (c : json) : res (list json) :=
  n <- len c ;;
  hasData <- field c "hasData" ;;
  if eq_int hasData 1 then
    mnemonic <- field2 c "alias" "witsml_mnemonic" ;;
    if existsb (eq_str mnemonic) mnemonics then
      id <- field c "id" ;;
      attr <- Attribute id ;;
      Ok [attr]
    else Ok []
  else Ok [].

Fixpoint select_attributes (cs : list json) : res (list json) :=
  match cs with
  | [] => Ok []
  | c :: rest =>
      now <- select_attribute c ;;
      later <- select_attributes rest ;;
      Ok (now ++ later)%list
  end.

(** [attribute_mapping[attribute_id] = attribute_value].  A [list] or
    [dict] is unhashable.  A key that is not a [str] can equal none of
    the channel names the classifier compares with, and is dropped. *)
Definition mapping_store (attribute_id attribute_value : json)
    (attribute_mapping : list (string * json))
  : res (list (string * json)) :=
  match attribute_id with
  | JStr k => Ok (dict_set k attribute_value attribute_mapping)
  | JList _ | JDict _ => Raise TypeError
  | _ => Ok attribute_mapping
  end.

(** [for i, attribute in enumerate(hist['attributes'])] (lines 437-440). *)
Fixpoint map_attributes (attributes : list json) (values_timestamp_0 : json)
    (i : nat) (attribute_mapping : list (string * json))
  : res (list (string * json)) :=
  match attributes with
  | [] => Ok attribute_mapping
  | attribute :: rest =>
      attribute_id <- field attribute "id" ;;
      pair <- item values_timestamp_0 i ;;
      attribute_value <- item pair 1 ;;
      m <- mapping_store attribute_id attribute_value attribute_mapping ;;
      map_attributes rest values_timestamp_0 (S i) m
  end.

(** The twenty-six [holder.append] of lines 348-376, 399-427 and
    798-826 (the three copies are the same text). *)
Definition make_holder (job : json) (lv : Locals) : res (list cell) :=
  job0 <- item job 0 ;;
  asset <- (a <- field job0 "assetInfoList" ;; item a 0) ;;
  owner <- field asset "owner" ;;
  name <- field asset "name" ;;
  operator <- (x <- field job0 "siteInfoList" ;; y <- item x 0 ;;
               field y "owner") ;;
  job_name <- field job0 "name" ;;
  Ok [ CVal owner; CVal name; CVal operator; CVal job_name;
       CStr (py_str lv.(Iadc_Rig_val));
       CStr (py_str lv.(Iadc2_Rig_val));
       CStr (py_str lv.(Iadc3_Rig_val));
       CInt lv.(HookLoadbool);
       CInt lv.(PumpPressurebool);
       CInt lv.(BlockHeightbool);
       CInt lv.(PumpSpmbool);
       CInt lv.(PumpSpm2bool);
       CInt lv.(PumpSpm3bool);
       CInt lv.(RotaryTorquebool);
       CInt lv.(tpDriveRPM);
       CInt lv.(tpDriveTorq);
       CInt lv.(weightonBit);
       CInt lv.(RP_Fast);
       CInt lv.(tHookLoad);
       CInt lv.(BitPositionbool);
       CStr (py_str lv.(BitStatusbool));
       CStr (py_str lv.(SlipStatusbool));
       CVal lv.(comment);
       CVal lv.(comment24);
       CVal lv.(reportID);
       CVal lv.(reportDate) ].

(** [job = getJobs(getJobsId, jobId=well)], the appends to [holder],
    [RAEJobs.append(holder)]. *)
Definition append_row (well : json) (net : Responses) (lv : Locals)
  : M unit :=
  modify (record_call (GetJob well)) ;;;
  holder <~ lift (make_holder (JList (fst (getJobs_by_id net.(job_http)))) lv) ;;
  modify (RAEJobs_append holder).

(** How an iteration that does not raise ends: after
    [RAEJobs.append(holder)] (lines 381, 432, 831), at the [continue] of
    line 697, or at the [continue] of line 792. *)
Inductive exit : Type :=
| Row_appended
| In_ZeroReportList
| Schema_not_found.

(** Lines 693-792: the report of the job.  [inl] is a [continue]. *)
Definition daily_report (well : json) (net : Responses) (lv : Locals)
  : M (exit + Locals) :=
  modify (record_call (GetReportList well)) ;;;
  let r := fst (getReports JNone net.(report_list_http)) in
  modify (MR_Report_Ids_append (well, r)) ;;;
  zero <~ gets ZeroReportList ;;
  if py_in well zero then ret (inl In_ZeroReportList)
  else if Nat.eqb (List.length r) 0 then
    modify (ZeroReportList_append well) ;;;
    ret (inr (set_comment (JStr "no morning report") lv))
  else
    reportId <~ lift (r0 <- item (JList r) 0 ;; field r0 "id") ;;
    modify (record_call (GetReportContent well reportId)) ;;;
    let report :=
      JList (fst (getReports reportId net.(report_content_http))) in
    modify (set_report report) ;;;
    n <~ lift (len report) ;;
    lv <~ (if Nat.eqb n 0 then
             modify (ZeroReportList_append well) ;;;
             ret (set_comment (JStr "no morning report") lv)
           else ret lv) ;;
    match dispatch (py_str report) with
    | Unrecognized =>
        doc <~ lift (first_report report) ;;
        modify (processedJobList_append (well, py_str doc)) ;;;
        ret (inl Schema_not_found)
    | s =>
        lv <~ extract s well (JList r) report lv ;;
        ret (inr lv)
    end.

(** The body of [for w in tmpAllJobs] (lines 201-831). *)
Definition process_job (w : json) (net : Responses) : M exit :=
  well <~ lift (field w "id") ;;
  modify (set_well well) ;;;
  modify (record_call (GetCapabilities well)) ;;;
  let rTime := JList (fst (getApiCall net.(capabilities_http))) in
  (if str_in "realTime" (py_str rTime)
   then lift (x <- item rTime 0 ;; field x "realTime")
   else ret JNone) ;;;
  modify (record_call (GetAttributes well)) ;;;
  let q := JList (fst (getApiCall net.(attributes_http))) in
  attsLst <~ lift (q0 <- item q 0 ;;
                   attributes <- field q0 "attributes" ;;
                   cs <- iter attributes ;;
                   select_attributes cs) ;;
  if Nat.eqb (List.length attsLst) 0 then
    append_row well net fresh_locals ;;; ret Row_appended
  else
    modify (record_call (PostHistorical well attsLst)) ;;;
    let hist := historical_data_time net.(historical_http) 3 in
    modify (jobsTimeBased_append (well, hist)) ;;;
    n <~ lift (timeRecords <- field hist "timeRecords" ;; len timeRecords) ;;
    if Nat.eqb n 0 then
      append_row well net fresh_locals ;;; ret Row_appended
    else
      attribute_mapping <~
        lift (timeRecords <- field hist "timeRecords" ;;
              record0 <- item timeRecords 0 ;;
              values_timestamp_0 <- field record0 "values" ;;
              attributes <- field hist "attributes" ;;
              ids <- iter attributes ;;
              map_attributes ids values_timestamp_0 0 []) ;;
      let lv := classify attribute_mapping fresh_locals in
      next <~ daily_report well net lv ;;
      match next with
      | inl x => ret x
      | inr lv => append_row well net lv ;;; ret Row_appended
      end.

(** [try: for w in tmpAllJobs: ... except Exception] (lines 198-841):
    the exits of the iterations that completed, the exception that
    stopped the loop if one was raised, and the state it leaves. *)
Fixpoint for_each_job (jobs : list json) (net : nat -> Responses) (i : nat)
    (g : Globals) : list exit * option exn * Globals :=
  match jobs with
  | [] => ([], None, g)
  | w :: rest =>
      match process_job w (net i) g with
      | (Ok x, g') =>
          let '(xs, ex, g'') := for_each_job rest net (S i) g' in
          (x :: xs, ex, g'')
      | (Raise ex, g') => ([], Some ex, g')
      end
  end.

(** Lines 176-181: the lookup table keyed by ["{owner} {name}"]. *)
Fixpoint build_lookup_table (jobs : list json)
    (lookup_table : list (string * json)) : res (list (string * json)) :=
  match jobs with
  | [] => Ok lookup_table
  | w :: rest =>
      owner <- (a <- field w "assetInfoList" ;; a0 <- item a 0 ;;
                field a0 "owner") ;;
      name <- (a <- field w "assetInfoList" ;; a0 <- item a 0 ;;
               field a0 "name") ;;
      value <- field w "id" ;;
      build_lookup_table rest
        (dict_set (py_str owner ++ " " ++ py_str name) value lookup_table)
  end.

(** Lines 190-193: [for w in RAE_Rigs: for key, value in lookup_table.items():
    if w in key: tmpJobs.append(value)]. *)
Definition select_jobs (RAE_Rigs : list string)
    (lookup_table : list (string * json)) : list json :=
  flat_map (fun w => map snd (filter (fun kv => str_in w (fst kv)) lookup_table))
    RAE_Rigs.

(** What the loop of [main] leaves behind at the end of the handler
    (line 841): the printed allow-list selection, the jobs the loop went
    through, [wellList], and the six lists from which the frames of the
    sheets are made (lines 848-870), sheet by sheet. *)
Record Run : Type := mkRun {
  tmpAllJobs : list json;
  tmpJobs : list json;
  exits : list exit;
  raised : option exn;
  wellList : list json;
  final : Globals;
  sheet_Jobs_Processed : list json;
  sheet_RAE_Report : list (list cell);
  sheet_Report_Comment : list (list json);
  sheet_Jobs_not_found : list (json * string);
  sheet_No_Report_List : list json;
  sheet_Time_Based_Pull : list (json * json)
}.

(** The 26 column titles of the 'RAE Report' sheet (lines 845-846). *)
Definition header : list string :=
  ["Contractor"; "Rig Number"; "Operator"; "Well name"; "IADC"; "IADC 2";
   "IADC3"; "HookLoad"; "PumpPressure"; "BlockHeight"; "PumpSpm"; "PumpSpm2";
   "PumpSpm3"; "RotaryTorque"; "TopDrive RPM"; "TopDrive Torque"; "WOB";
   "ROP-F"; "T-HL"; "BitPosition"; "BitStatus"; "SlipStatus"; "Comments";
   "Next 24 Hr Comments"; "Report Id"; "Report Date"].

(** [main] from the job listing (line 175) to the end of the handler
    (line 841).  [Raise] is an exception outside the [try]: the process
    dies. *)
Definition main_loop (RAE_Rigs : list string)
    (jobs_http : HttpResult * HttpResult) (net : nat -> Responses)
  : res Run :=
  let tmpAllJobs := fst (getJobs jobs_http) in
  lookup_table <- build_lookup_table tmpAllJobs [] ;;
  let tmpJobs := select_jobs RAE_Rigs lookup_table in
  let '(xs, ex, g) := for_each_job tmpAllJobs net 0 initial_globals in
  let wellList := match ex with Some _ => [g.(well)] | None => [] end in
  Ok {| tmpAllJobs := tmpAllJobs; tmpJobs := tmpJobs; exits := xs;
        raised := ex; wellList := wellList; final := g;
        sheet_Jobs_Processed := tmpAllJobs;
        sheet_RAE_Report := g.(RAEJobs);
        sheet_Report_Comment := g.(MR_Report_Comments);
        sheet_Jobs_not_found := g.(processedJobList);
        sheet_No_Report_List := g.(ZeroReportList);
        sheet_Time_Based_Pull := g.(jobsTimeBased) |}.

(** [df = pd.DataFrame(rows); df.columns[0]]: the frame has as many
    columns as its longest row; without a column, [df.columns[0]] raises
    [IndexError]. *)
Definition first_column {A : Type} (rows : list (list A)) : res unit :=
  if existsb (fun row => negb (Nat.eqb (List.length row) 0)) rows
  then Ok tt
  else Raise IndexError.

(** Lines 843-871, after the handler and outside the [try]: the frames
    of 'RAE Report' (lines 851-853) and of 'Report_Comment' (lines
    860-862) are sorted with [df.sort_values(by=df.columns[0])] before
    they are written; the four other frames are written as they are.
    Sorting and writing a frame that has a column ([pandas],
    [openpyxl]), closing the workbook and mailing it ([smtplib]) are
    outside this development and taken to succeed: [Ok] stands for the
    workbook written from the six lists, the rows of the two sorted
    sheets in the order of their first column, and mailed to every
    recipient. *)
Definition write_sheets (run : Run) : res Run :=
  sorted <- first_column run.(sheet_RAE_Report) ;;
  sorted' <- first_column run.(sheet_Report_Comment) ;;
  Ok run.

(** [main] from the job listing (line 175) to the mail (line 920).
    [Raise] is an exception outside the [try]: the process dies, and no
    workbook is written or mailed. *)
Definition main (RAE_Rigs : list string)
    (jobs_http : HttpResult * HttpResult) (net : nat -> Responses)
  : res Run :=
  run <- main_loop RAE_Rigs jobs_http net ;;
  write_sheets run.

End Main.

(* ================================================================= *)
(** ** A renderer to run the model on examples *)

(** [str] of the values met in the examples below: [None], booleans,
    integers, floats with an integral value, strings without quotes or
    escapes, and lists and dictionaries of these.  Other floats print as
    a placeholder. *)
Definition str_of_Z (z : Z) : string :=
  NilZero.string_of_int (Z.to_int z).

Definition str_of_float (f : spec_float) : string :=
  match f with
  | S754_zero s => if s then "-0.0" else "0.0"
  | S754_infinity s => if s then "-inf" else "inf"
  | S754_nan => "nan"
  | S754_finite s m e =>
      let n := Z.pos m * 2 ^ e in
      if (0 <=? e) && (n <? 10 ^ 16)
      then (if s then "-" else "") ++ str_of_Z n ++ ".0"
      else if (e <? 0) && (Z.pos m mod 2 ^ (- e) =? 0)
              && (Z.pos m / 2 ^ (- e) <? 10 ^ 16)
      then (if s then "-" else "") ++ str_of_Z (Z.pos m / 2 ^ (- e)) ++ ".0"
      else "<float>"
  end.

Fixpoint join (sep : string) (l : list string) : string :=
  match l with
  | [] => ""
  | [x] => x
  | x :: rest => x ++ sep ++ join sep rest
  end.

Fixpoint repr (x : json) : string :=
  match x with
  | JNone => "None"
  | JBool b => if b then "True" else "False"
  | JInt z => str_of_Z z
  | JFloat f => str_of_float f
  | JStr s => "'" ++ s ++ "'"
  | JList l => "[" ++ join ", " (map repr l) ++ "]"
  | JDict d =>
      "{" ++ join ", " (map (fun kv => "'" ++ fst kv ++ "': " ++ repr (snd kv)) d)
          ++ "}"
  end.

Definition str (x : json) : string :=
  match x with
  | JStr s => s
  | _ => repr x
  end.

(* ================================================================= *)
(** ** welldataAPI: the token, and the jobs of a well name *)

(** How a call that can end the process comes back: with a value, or
    not at all because of [os._exit(code)]. *)
Inductive outcome : Type :=
| Returned (value : json)
| Exited (code : Z).

(** [getToken] under [@retry(stop_after_attempt(4))] (lines 323-349):
    a reached answer whose status is not 200 ends the process with
    [os._exit(1)]; an attempt that raises (the request, [r.json()] or
    [values['token']]) is followed by the next one; when all attempts
    raised, the value of the [retry_error_callback] is returned, which is
    the [None] of [print].  Attempts beyond the list raise. *)
Fixpoint getToken (attempts : list HttpResult) (budget : nat) : outcome :=
  match budget with
  | O => Returned JNone
  | S budget' =>
      match attempts with
      | [] => Returned JNone
      | ConnectionError :: rest => getToken rest budget'
      | Response status_code body :: rest =>
          if negb (status_code =? 200) then Exited 1
          else match body with
               | Some values =>
                   match field values "token" with
                   | Ok token => Returned token
                   | Raise _ => getToken rest budget'
                   end
               | None => getToken rest budget'
               end
      end
  end.

(** How [getJobsbyWellName] ends: its handler formats [parsedPath], a
    name that is bound neither in the function nor in the module, so
    every exception caught by the handler is replaced by a [NameError]
    that leaves the function. *)
Inductive name_result : Type :=
| Job_id (jobid : json)
| NameError.

(** [for w in values['jobs']: if wellname == w['name']: jobid = w['id']]. *)
Fixpoint last_named (wellname : string) (jobs : list json) (jobid : json)
  : res json :=
  match jobs with
  | [] => Ok jobid
  | w :: rest =>
      name <- field w "name" ;;
      if eq_str name wellname then
        id <- field w "id" ;; last_named wellname rest id
      else last_named wellname rest jobid
  end.

(** [getJobsbyWellName] (lines 4220-4248): one request, no retry. *)
Definition getJobsbyWellName (wellname : string) (attempt : HttpResult)
  : name_result :=
  match attempt with
  | ConnectionError => NameError
  | Response status_code body =>
      if status_code =? 200 then
        match body with
        | Some values =>
            match (jobs <- field values "jobs" ;;
                   ws <- iter jobs ;;
                   last_named wellname ws (JStr "")) with
            | Ok jobid => Job_id jobid
            | Raise _ => NameError
            end
        | None => NameError
        end
      else Job_id (JStr "")
  end.

(* ================================================================= *)
(** ** welldataAPI.getJobs: the listing with its keyword filters *)

(** The keywords [contractor], [operator] and [rigNumber]; [None] when
    the keyword is not passed. *)
Record JobFilter : Type := mkJobFilter {
  contractor : option json;
  operator : option json;
  rigNumber : option json
}.

(** The tests of lines 653-668 that guard [wells.append(w)]. *)
Definition job_passes (f : JobFilter) (w : json) : res bool :=
  match f.(contractor), f.(operator) with
  | Some _, Some _ => Ok true
  | Some c, None =>
      owner <- (a <- field w "assetInfoList" ;; a0 <- item a 0 ;;
                field a0 "owner") ;;
      Ok (json_eq owner c)
  | None, Some o =>
      owner <- (a <- field w "siteInfoList" ;; a0 <- item a 0 ;;
                field a0 "owner") ;;
      Ok (json_eq owner o)
  | None, None =>
      match f.(rigNumber) with
      | Some n =>
          name <- (a <- field w "assetInfoList" ;; a0 <- item a 0 ;;
                   field a0 "name") ;;
          Ok (json_eq name n)
      | None => Ok true
      end
  end.

(** [for w in values['jobs']: ... wells.append(w)]: the list is extended
    in place, so what was appended before a raise stays in it.  The flag
    tells whether the loop raised. *)
Fixpoint append_jobs (f : JobFilter) (jobs : list json) (wells : list json)
  : list json * bool :=
  match jobs with
  | [] => (wells, false)
  | w :: rest =>
      match job_passes f w with
      | Ok true => append_jobs f rest (wells ++ [w])
      | Ok false => append_jobs f rest wells
      | Raise _ => (wells, true)
      end
  end.

(** The statements under [if r.status_code == 200] with [total=False]. *)
Definition read_jobs (f : JobFilter) (body : option json)
    (wells : list json) : list json * bool :=
  match body with
  | None => (wells, true)
  | Some values =>
      match (jobs <- field values "jobs" ;; iter jobs) with
      | Ok ws => append_jobs f ws wells
      | Raise _ => (wells, true)
      end
  end.

(** One pass through the body of [while currTake <= take] (lines
    643-708), from [wells] and [retries] as the passes before left them. *)
Definition getJobs_page (f : JobFilter) (attempts : HttpResult * HttpResult)
    (wells : list json) (retries : Z) : list json * Z * list effect :=
  let '(first, second) := attempts in
  match first with
  | ConnectionError => (wells, retries + 1, [Request; Sleep (retries + 1)])
  | Response status_code body =>
      if status_code =? 200 then
        match read_jobs f body wells with
        | (wells', false) => (wells', retries, [Request])
        | (wells', true) =>
            (wells', retries + 1, [Request; Sleep (retries + 1)])
        end
      else if truthy (retry_cond_or_400 500 599 status_code) then
        match second with
        | ConnectionError =>
            (wells, retries + 1, [Request; Sleep 20; Request])
        | Response status_code2 body2 =>
            if status_code2 =? 200 then
              match read_jobs f body2 wells with
              | (wells', false) => (wells', retries, [Request; Sleep 20; Request])
              | (wells', true) =>
                  (wells', retries + 1, [Request; Sleep 20; Request])
              end
            else (wells, retries, [Request; Sleep 20; Request])
        end
      else (wells, retries, [Request])
  end.

(** [while currTake <= take: ...; currTake = currTake + take]: each
    pass takes the answers of the next entry of [pages]. *)
Fixpoint getJobs_pages (f : JobFilter) (take : Z)
    (pages : list (HttpResult * HttpResult)) (currTake : Z)
    (wells : list json) (retries : Z) : list json * list effect :=
  match pages with
  | [] => (wells, [])
  | attempts :: rest =>
      if currTake <=? take then
        let '(wells', retries', effects) :=
          getJobs_page f attempts wells retries in
        let '(wells'', more) :=
          getJobs_pages f take rest (currTake + take) wells' retries' in
        (wells'', (effects ++ more)%list)
      else (wells, [])
  end.

(** [getJobs] on a URL with ['includeCapabilities'], [total=False]. *)
Definition getJobs_listing (f : JobFilter) (take : Z)
    (pages : list (HttpResult * HttpResult)) : list json * list effect :=
  getJobs_pages f take pages 1 [] 0.

Definition no_filter : JobFilter :=
  {| contractor := None; operator := None; rigNumber := None |}.

(* ================================================================= *)
(** * Vocabulary of the statements *)

Definition second_attempt : list effect := [Request; Sleep 20; Request].

(** The lists a claim speaks about are untouched. *)
Definition same_lists (g g' : Globals) : Prop :=
  RAEJobs g' = RAEJobs g /\
  ZeroReportList g' = ZeroReportList g /\
  processedJobList g' = processedJobList g /\
  calls g' = calls g /\
  well g' = well g.

Inductive kind : Type := Any | Text | Code.

Definition cell_kind (c : cell) : kind :=
  match c with
  | CVal _ => Any
  | CStr _ => Text
  | CInt _ => Code
  end.

(** Four identity fields, three IADC texts, thirteen status codes,
    [BitStatus] and [SlipStatus] as text, then comment, next-24h
    comment, report id and report date. *)
Definition columns : list kind :=
  (repeat Any 4 ++ repeat Text 3 ++ repeat Code 13 ++ repeat Text 2
     ++ repeat Any 4)%list.

(** Which variable of the iteration stands under which column title. *)
Definition under_header (py_str : json -> string)
    (owner name operator job_name : json) (lv : Locals)
  : list (string * cell) :=
  [ ("Contractor", CVal owner); ("Rig Number", CVal name);
    ("Operator", CVal operator); ("Well name", CVal job_name);
    ("IADC", CStr (py_str lv.(Iadc_Rig_val)));
    ("IADC 2", CStr (py_str lv.(Iadc2_Rig_val)));
    ("IADC3", CStr (py_str lv.(Iadc3_Rig_val)));
    ("HookLoad", CInt lv.(HookLoadbool));
    ("PumpPressure", CInt lv.(PumpPressurebool));
    ("BlockHeight", CInt lv.(BlockHeightbool));
    ("PumpSpm", CInt lv.(PumpSpmbool));
    ("PumpSpm2", CInt lv.(PumpSpm2bool));
    ("PumpSpm3", CInt lv.(PumpSpm3bool));
    ("RotaryTorque", CInt lv.(RotaryTorquebool));
    ("TopDrive RPM", CInt lv.(tpDriveRPM));
    ("TopDrive Torque", CInt lv.(tpDriveTorq));
    ("WOB", CInt lv.(weightonBit));
    ("ROP-F", CInt lv.(RP_Fast));
    ("T-HL", CInt lv.(tHookLoad));
    ("BitPosition", CInt lv.(BitPositionbool));
    ("BitStatus", CStr (py_str lv.(BitStatusbool)));
    ("SlipStatus", CStr (py_str lv.(SlipStatusbool)));
    ("Comments", CVal lv.(comment));
    ("Next 24 Hr Comments", CVal lv.(comment24));
    ("Report Id", CVal lv.(reportID));
    ("Report Date", CVal lv.(reportDate)) ].

(** The cell of a row under a column title. *)
Fixpoint lookup_cell (title : string) (cells : list (string * cell))
  : option cell :=
  match cells with
  | [] => None
  | (t, c) :: rest =>
      if String.eqb title t then Some c else lookup_cell title rest
  end.

Definition assoc_cell (title : string) (holder : list cell) : option cell :=
  lookup_cell title (combine header holder).

Definition well_row (py_str : json -> string) (holder : list cell) : Prop :=
  List.length holder = 26%nat /\
  List.length holder = List.length header /\
  map cell_kind holder = columns /\
  exists owner name operator job_name lv,
    combine header holder = under_header py_str owner name operator job_name lv.

Definition entered_by (c : call) : list json :=
  match c with
  | GetCapabilities id => [id]
  | _ => []
  end.

(** The job ids for which the loop body was started: the capabilities
    request is the first statement after [well = w['id']]. *)
Definition entered (g : Globals) : list json :=
  flat_map entered_by (calls g).

(** What the rows of an iteration look like, by its exit. *)
Definition rows_of_exit (py_str : json -> string) (x : exit)
    (rows : list (list cell)) : Prop :=
  match x with
  | Row_appended => exists holder, rows = [holder] /\ well_row py_str holder
  | In_ZeroReportList | Schema_not_found => rows = []
  end.

(** No element of the list equals ([==]) an earlier one. *)
Definition no_repeat (l : list json) : Prop :=
  forall i j x y,
    (i < j)%nat -> nth_error l i = Some x -> nth_error l j = Some y ->
    json_eq y x = false.

Definition job_has_id (w id : json) : Prop := field w "id" = Ok id.


Definition is_Row_appended (x : exit) : bool :=
  match x with
  | Row_appended => true
  | _ => false
  end.

(* ================================================================= *)
(** ** Concrete runs *)

(** A job of the listing, with its owner and rig. *)
Definition job (id owner rig : string) : json :=
  JDict [ ("id", JStr id);
          ("name", JStr ("Well of " ++ id));
          ("assetInfoList",
           JList [JDict [("owner", JStr owner); ("name", JStr rig)]]);
          ("siteInfoList", JList [JDict [("owner", JStr "Coterra")]]) ].

(** A 200 answer on the first attempt. *)
Definition answers (values : json) : HttpResult * HttpResult :=
  (Response 200 (Some values), ConnectionError).

(** A 500 answer on both attempts. *)
Definition server_error : HttpResult * HttpResult :=
  (Response 500 None, Response 500 None).

Definition attribute (id mnemonic : string) : json :=
  JDict [ ("id", JStr id); ("hasData", JBool true);
          ("alias", JDict [("witsml_mnemonic", JStr mnemonic)]) ].

(** The binary64 number 5.0. *)
Definition five : spec_float := S754_finite false 5629499534213120 (-50).

(** The historical answer with one time record holding [value] for the
    channel [id]. *)
Definition snapshot (id : string) (value : json) : json :=
  JDict [ ("attributes", JList [JDict [("id", JStr id)]]);
          ("timeRecords",
           JList [JDict [("values",
                          JList [JList [JStr "2024-01-10T06:06:17"; value]])]])
        ].

(** The network seen by a job with a hook-load channel at 5.0, given
    the answers to the two report requests. *)
Definition hookload_job (id : string)
    (report_list report_content : HttpResult * HttpResult) : Responses :=
  {| capabilities_http := answers (JDict [("realTime", JStr "Supported")]);
     attributes_http :=
       answers (JDict [("attributes",
                        JList [attribute "HookLoad" "HOOKLOAD_MAX"])]);
     historical_http := [Response 200 (Some (snapshot "HookLoad" (JFloat five)))];
     report_list_http := report_list;
     report_content_http := report_content;
     job_http := answers (job id "Acme" "Rig 9") |}.

Definition no_reports : HttpResult * HttpResult :=
  answers (JDict [("availableReports", JList [])]).

Definition one_report : HttpResult * HttpResult :=
  answers (JDict [("availableReports",
                   JList [JDict [("id", JInt 7); ("date", JStr "2024-01-10")]])]).


Definition listing (jobs : list json) : HttpResult * HttpResult :=
  answers (JDict [("jobs", JList jobs)]).

Definition empty_run : Run :=
  {| tmpAllJobs := []; tmpJobs := []; exits := []; raised := None;
     wellList := []; final := initial_globals; sheet_Jobs_Processed := [];
     sheet_RAE_Report := []; sheet_Report_Comment := [];
     sheet_Jobs_not_found := []; sheet_No_Report_List := [];
     sheet_Time_Based_Pull := [] |}.

Definition the_run (r : res Run) : Run :=
  match r with
  | Ok run => run
  | Raise _ => empty_run
  end.



(** The same job listed twice, without report. *)
Definition run_listed_twice : Run :=
  Eval vm_compute in
    the_run (main_loop str ["Rig 9"]
               (listing [job "net_1" "Acme" "Rig 9"; job "net_1" "Acme" "Rig 9"])
               (fun _ => hookload_job "net_1" no_reports server_error)).

(** The attribute request of the second job is answered 500 twice. *)
Definition attributes_down (i : nat) : Responses :=
  match i with
  | O => hookload_job "net_1" no_reports server_error
  | S _ =>
      {| capabilities_http := answers (JDict [("realTime", JStr "Supported")]);
         attributes_http := server_error;
         historical_http := [];
         report_list_http := no_reports;
         report_content_http := server_error;
         job_http := answers (job "net_2" "Acme" "Rig 12") |}
  end.

Definition three_jobs : list json :=
  [job "net_1" "Acme" "Rig 9"; job "net_2" "Acme" "Rig 12";
   job "net_3" "Acme" "Rig 15"].

Definition run_attributes_down : Run :=
  Eval vm_compute in
    the_run (main_loop str ["Rig"] (listing three_jobs) attributes_down).

(** One job whose rotary torque reads 5.0 and whose hook load reads 5.0. *)
Definition torque_job : Responses :=
  {| capabilities_http := answers (JDict [("realTime", JStr "Supported")]);
     attributes_http :=
       answers (JDict [("attributes",
                        JList [attribute "RotaryTorque" "ROT_TORQUE";
                               attribute "HookLoad" "HOOKLOAD_MAX"])]);
     historical_http :=
       [Response 200 (Some (JDict [
          ("attributes", JList [JDict [("id", JStr "RotaryTorque")];
                                JDict [("id", JStr "HookLoad")]]);
          ("timeRecords",
           JList [JDict [("values",
                          JList [JList [JStr "2024-01-10T06:06:17";
                                        JFloat five];
                                 JList [JStr "2024-01-10T06:06:17";
                                        JFloat five]])]])]))];
     report_list_http := no_reports;
     report_content_http := server_error;
     job_http := answers (job "net_1" "Acme" "Rig 9") |}.

Definition run_torque : Run :=
  Eval vm_compute in
    the_run (main_loop str ["Rig 9"] (listing [job "net_1" "Acme" "Rig 9"])
               (fun _ => torque_job)).

(** One job whose report is listed but whose content cannot be fetched. *)
Definition run_content_down : Run :=
  Eval vm_compute in
    the_run (main_loop str ["Rig 9"] (listing [job "net_1" "Acme" "Rig 9"])
               (fun _ => hookload_job "net_1" one_report server_error)).

(** The status the claim gives to a value. *)
Definition presence (v : json) : Z :=
  if (isinstance_float v || isinstance_int v) && gt_zero v then emoji_check
  else if (isinstance_float v || isinstance_int v) && eq_int v 0
       then emoji_exclamation
  else emoji_x.

(** The twelve channels whose guard admits [float] and [int], with the
    variable that holds their status. *)
Definition float_or_int_channels : list (string * (Locals -> Z)) :=
  [ ("HookLoad", HookLoadbool); ("PumpPressure", PumpPressurebool);
    ("BlockHeight", BlockHeightbool); ("PumpSpm", PumpSpmbool);
    ("PumpSpm2", PumpSpm2bool); ("PumpSpm3", PumpSpm3bool);
    ("TopDrvRpm", tpDriveRPM); ("TopDrvTorque", tpDriveTorq);
    ("BitWeightQualified", weightonBit); ("BitPosition", BitPositionbool);
    ("FastRopFtHr", RP_Fast); ("TrigHkld", tHookLoad) ].

Definition is_GetReportList (c : call) : bool :=
  match c with
  | GetReportList _ => true
  | _ => false
  end.

(** The thirteen status variables with the key that sets them. *)
Definition status_channels : list (string * (Locals -> Z)) :=
  ("RotaryTorque", RotaryTorquebool) :: float_or_int_channels.

(** The variables that hold a text or a value, with their key and the
    value they start from. *)
Definition value_channels : list (string * (Locals -> json) * json) :=
  [ ("BitStatus", BitStatusbool, JInt emoji_x);
    ("SlipStatus", SlipStatusbool, JInt emoji_x);
    ("IadcRigActivity", Iadc_Rig_val, JStr "");
    ("IadcRigActivity2", Iadc2_Rig_val, JStr "");
    ("RigActivity", Iadc3_Rig_val, JStr "") ].

(* ================================================================= *)
(** ** Vocabulary of the further properties *)




(** The three expressions [process_job] evaluates on the answers of an
    iteration: the selection of lines 263-342, the number of time
    records of line 395, the dictionary of lines 434-440. *)
Definition selection (py_str : json -> string) (net : Responses)
  : res (list json) :=
  q0 <- item (JList (fst (getApiCall net.(attributes_http)))) 0 ;;
  attributes <- field q0 "attributes" ;;
  cs <- iter attributes ;;
  select_attributes py_str cs.

Definition time_records (net : Responses) : res nat :=
  timeRecords <- field (historical_data_time net.(historical_http) 3)
                   "timeRecords" ;;
  len timeRecords.

Definition mapping (net : Responses) : res (list (string * json)) :=
  timeRecords <- field (historical_data_time net.(historical_http) 3)
                   "timeRecords" ;;
  record0 <- item timeRecords 0 ;;
  values_timestamp_0 <- field record0 "values" ;;
  attributes <- field (historical_data_time net.(historical_http) 3)
                  "attributes" ;;
  ids <- iter attributes ;;
  map_attributes ids values_timestamp_0 0 [].

(** Two states of the variables with the same channel columns. *)
Definition same_channels (a b : Locals) : Prop :=
  (forall c, In c status_channels -> snd c a = snd c b) /\
  (forall c, In c value_channels -> snd (fst c) a = snd (fst c) b).

(** [holder] is the row of the answer [job] to the job lookup and of the
    variables [lv]: it has one cell per title of the header, and under
    each title stands the value that [under_header] names, the four
    identity values being read from [job]. *)
Definition row_of (py_str : json -> string) (job : json) (lv : Locals)
    (holder : list cell) : Prop :=
  exists owner name operator job_name,
    (job0 <- item job 0 ;; a <- field job0 "assetInfoList" ;;
     a0 <- item a 0 ;; field a0 "owner") = Ok owner /\
    (job0 <- item job 0 ;; a <- field job0 "assetInfoList" ;;
     a0 <- item a 0 ;; field a0 "name") = Ok name /\
    (job0 <- item job 0 ;; x <- field job0 "siteInfoList" ;;
     y <- item x 0 ;; field y "owner") = Ok operator /\
    (job0 <- item job 0 ;; field job0 "name") = Ok job_name /\
    List.length holder = List.length header /\
    combine header holder
    = under_header py_str owner name operator job_name lv.

(** The variables an iteration builds its row from: as they were reset
    at the top of the iteration when the selection is empty or the
    historical answer has no time record; otherwise as the report stage
    returned them from the result of the classifier. *)
Definition variables_of (py_str : json -> string) (w : json)
    (net : Responses) (lv : Locals) : Prop :=
  (lv = fresh_locals /\
   (selection py_str net = Ok [] \/ time_records net = Ok 0%nat)) \/
  (exists id m g g',
      field w "id" = Ok id /\ mapping net = Ok m /\
      daily_report py_str id net (classify m fresh_locals) g
      = (Ok (inr lv), g')).

(** [holder] is the row of one of the iterations of the loop over
    [jobs], whose first iteration has the number [i0]. *)
Definition row_of_an_iteration (py_str : json -> string) (jobs : list json)
    (net : nat -> Responses) (i0 : nat) (holder : list cell) : Prop :=
  exists k w lv,
    nth_error jobs k = Some w /\
    row_of py_str (JList (fst (getJobs_by_id (job_http (net (i0 + k)%nat)))))
      lv holder /\
    variables_of py_str w (net (i0 + k)%nat) lv /\
    map cell_kind holder = columns.

(** The thirteen status columns and the five text columns, by title,
    with the variable whose value stands under the title. *)
Definition status_columns : list (string * (Locals -> Z)) :=
  [ ("HookLoad", HookLoadbool); ("PumpPressure", PumpPressurebool);
    ("BlockHeight", BlockHeightbool); ("PumpSpm", PumpSpmbool);
    ("PumpSpm2", PumpSpm2bool); ("PumpSpm3", PumpSpm3bool);
    ("RotaryTorque", RotaryTorquebool); ("TopDrive RPM", tpDriveRPM);
    ("TopDrive Torque", tpDriveTorq); ("WOB", weightonBit);
    ("ROP-F", RP_Fast); ("T-HL", tHookLoad);
    ("BitPosition", BitPositionbool) ].

Definition text_columns : list (string * (Locals -> json)) :=
  [ ("IADC", Iadc_Rig_val); ("IADC 2", Iadc2_Rig_val);
    ("IADC3", Iadc3_Rig_val); ("BitStatus", BitStatusbool);
    ("SlipStatus", SlipStatusbool) ].

(** An attempt of the historical call that yields a value. *)
Definition decoded (a : HttpResult) : bool :=
  match a with
  | Response _ (Some _) => true
  | _ => false
  end.

(** The network seen by a job whose only attribute holds no data. *)
Definition idle_job (id : string) : Responses :=
  {| capabilities_http := answers (JDict [("realTime", JStr "Supported")]);
     attributes_http :=
       answers (JDict [("attributes",
                        JList [JDict [("id", JStr "HookLoad");
                                      ("hasData", JBool false);
                                      ("alias",
                                       JDict [("witsml_mnemonic",
                                               JStr "HOOKLOAD_MAX")])]])]);
     historical_http := [];
     report_list_http := server_error;
     report_content_http := server_error;
     job_http := answers (job id "Acme" "Rig 9") |}.

Definition iteration_idle : res exit * Globals :=
  Eval vm_compute in
    process_job str (job "net_1" "Acme" "Rig 9") (idle_job "net_1")
      initial_globals.

(** The same job when the lookup of the job itself is answered 500. *)
Definition lookup_down : Responses :=
  {| capabilities_http := capabilities_http (idle_job "net_1");
     attributes_http := attributes_http (idle_job "net_1");
     historical_http := [];
     report_list_http := server_error;
     report_content_http := server_error;
     job_http := server_error |}.

Definition iteration_lookup_down : res exit * Globals :=
  Eval vm_compute in
    process_job str (job "net_1" "Acme" "Rig 9") lookup_down initial_globals.

(** A job with a hook-load channel whose historical request fails
    three times and would succeed at the fourth attempt. *)
Definition snapshot_down : Responses :=
  {| capabilities_http := answers (JDict [("realTime", JStr "Supported")]);
     attributes_http :=
       answers (JDict [("attributes",
                        JList [attribute "HookLoad" "HOOKLOAD_MAX"])]);
     historical_http :=
       [ConnectionError; Response 200 None; ConnectionError;
        Response 200 (Some (snapshot "HookLoad" (JFloat five)))];
     report_list_http := no_reports;
     report_content_http := server_error;
     job_http := answers (job "net_1" "Acme" "Rig 9") |}.

Definition iteration_snapshot_down : res exit * Globals :=
  Eval vm_compute in
    process_job str (job "net_1" "Acme" "Rig 9") snapshot_down
      initial_globals.

(** A job with the IADC rig activity 2 and a Scan morning report. *)
Definition iadc_job : Responses :=
  {| capabilities_http := answers (JDict [("realTime", JStr "Supported")]);
     attributes_http :=
       answers (JDict [("attributes",
                        JList [attribute "IadcRigActivity"
                                 "IADC_RIG_ACTIVITY"])]);
     historical_http :=
       [Response 200 (Some (snapshot "IadcRigActivity" (JInt 2)))];
     report_list_http :=
       answers (JDict [("availableReports", JList [JDict [("id", JInt 7)]])]);
     report_content_http :=
       answers (JDict [("Reports",
          JList [JDict [("ScanMorningReport",
             JDict [("Header",
                     JDict [("Date", JStr "2024-01-10");
                            ("PresentOp", JStr "Drilling")]);
                    ("ReportAttributes",
                     JDict [("ReportID", JInt 7);
                            ("ReportStatus", JStr "Final")]);
                    ("TimeBreakDown", JDict [("Items", JList [])])])]])]);
     job_http := answers (job "net_1" "Acme" "Rig 9") |}.

Definition iteration_iadc : res exit * Globals :=
  Eval vm_compute in
    process_job str (job "net_1" "Acme" "Rig 9") iadc_job initial_globals.

(** The key of a job in the lookup table (line 178). *)
Definition lookup_key (py_str : json -> string) (w : json) : res string :=
  owner <- (a <- field w "assetInfoList" ;; a0 <- item a 0 ;;
            field a0 "owner") ;;
  name <- (a <- field w "assetInfoList" ;; a0 <- item a 0 ;;
           field a0 "name") ;;
  Ok (py_str owner ++ " " ++ py_str name).

(** Two jobs of the same rig, and a third one. *)
Definition same_rig_twice : list json :=
  [job "net_1" "Acme" "Rig 9"; job "net_2" "Apex" "Rig 5";
   job "net_3" "Acme" "Rig 9"].

(** A listing whose second job has no ['id']. *)
Definition listing_without_id : HttpResult * HttpResult :=
  listing [job "net_1" "Acme" "Rig 9";
           JDict [("name", JStr "Well of net_2");
                  ("assetInfoList",
                   JList [JDict [("owner", JStr "Acme");
                                 ("name", JStr "Rig 5")]])]].

(** [present in rep] holds. *)
Definition holds (present : string) (rep : json) : bool :=
  match has present rep with
  | Ok true => true
  | _ => false
  end.

(** The row an activity item gives. *)
Definition activity_row (well r : json) (code details : string)
    (rep : json) (row : list json) : Prop :=
  exists id date c d,
    (r0 <- item r 0 ;; field r0 "id") = Ok id /\
    (r0 <- item r 0 ;; field r0 "date") = Ok date /\
    field rep code = Ok c /\
    field rep details = Ok d /\
    row = [well; id; date; c; d].

(** Three activity items; the second has no code. *)
Definition three_items : list json :=
  [ JDict [("ActCode", JStr "2"); ("DescriptionOfWork", JStr "Drill")];
    JDict [("DescriptionOfWork", JStr "Remark")];
    JDict [("ActCode", JStr "6"); ("DescriptionOfWork", JStr "Trip")] ].

Definition listed_report : json :=
  JList [JDict [("id", JInt 7); ("date", JStr "2024-01-10")]].

Definition is_Request (e : effect) : bool :=
  match e with
  | Request => true
  | Sleep _ => false
  end.

(** An attempt of [getToken] that raises and is followed by the next. *)
Definition token_attempt_raises (a : HttpResult) : bool :=
  match a with
  | ConnectionError => true
  | Response status_code None => status_code =? 200
  | Response status_code (Some values) =>
      (status_code =? 200) &&
      match field values "token" with
      | Ok _ => false
      | Raise _ => true
      end
  end.

(** [wellname == w['name']] holds. *)
Definition named (wellname : string) (w : json) : bool :=
  match field w "name" with
  | Ok name => eq_str name wellname
  | Raise _ => false
  end.

(** [jobid] is the id of the last of [jobs] with the name, or the
    empty string when there is none. *)
Definition id_of_the_last_named (wellname : string) (jobs : list json)
    (jobid : json) : Prop :=
  match find (named wellname) (rev jobs) with
  | Some w => field w "id" = Ok jobid
  | None => jobid = JStr ""
  end.

(** The test of [job_passes] holds. *)
Definition passes (f : JobFilter) (w : json) : bool :=
  match job_passes f w with
  | Ok b => b
  | Raise _ => false
  end.

(** Two jobs: the first with a Scan morning report, the second with
    no attribute that holds data. *)
Definition iadc_then_idle (i : nat) : Responses :=
  match i with
  | O => iadc_job
  | S _ => idle_job "net_2"
  end.

Definition run_iadc_and_idle : Run :=
  Eval vm_compute in
    the_run (main_loop str ["Rig"]
               (listing [job "net_1" "Acme" "Rig 9";
                         job "net_2" "Acme" "Rig 12"])
               iadc_then_idle).

(** A job whose capabilities answer holds 'realTime' one level down. *)
Definition nested_capabilities : Responses :=
  {| capabilities_http :=
       answers (JDict [("capabilities",
                        JDict [("realTime", JStr "Supported")])]);
     attributes_http :=
       answers (JDict [("attributes",
                        JList [attribute "HookLoad" "HOOKLOAD_MAX"])]);
     historical_http :=
       [Response 200 (Some (snapshot "HookLoad" (JFloat five)))];
     report_list_http := no_reports;
     report_content_http := server_error;
     job_http := answers (job "net_1" "Acme" "Rig 9") |}.

Definition iteration_nested_capabilities : res exit * Globals :=
  Eval vm_compute in
    process_job str (job "net_1" "Acme" "Rig 9") nested_capabilities
      initial_globals.

(* ================================================================= *)
(** * Properties *)

Arguments extract : simpl never.
Arguments getReports : simpl never.
Arguments getApiCall : simpl never.
Arguments getJobs_by_id : simpl never.
Arguments historical_data_time : simpl never.
Arguments classify : simpl never.
Arguments dispatch : simpl never.

(** ** The retry conditions of the wrappers *)

Lemma int_never_equals_range (n start stop step : Z) :
  py_eq (PyInt n) (PyRange start stop step) = false.
Proof. reflexivity. Qed.

(** [... or 400]: the value of the condition is [400] whatever the
    status code. *)
Lemma retry_cond_or_400_value (lo hi status_code : Z) :
  retry_cond_or_400 lo hi status_code = PyInt 400.
Proof.
  unfold retry_cond_or_400, py_or, py_and.
  rewrite int_never_equals_range.
  destruct (py_ne (PyInt status_code) (PyInt 200)); reflexivity.
Qed.

(** [... and (... or range(400, 410, 1))]: a non-empty range is truthy,
    so the condition is the test [status_code != 200]. *)
Lemma retry_cond_or_range_truthy (status_code : Z) :
  truthy (retry_cond_or_range status_code) = negb (status_code =? 200).
Proof.
  unfold retry_cond_or_range, py_and, py_or, py_ne.
  rewrite int_never_equals_range. simpl.
  destruct (status_code =? 200); reflexivity.
Qed.

Lemma call_once_more_effects (cond : Z -> pyobj) (delay : Z)
    (collect : json -> res (list json)) (status_code : Z)
    (body : option json) (second : HttpResult) :
  (status_code <> 200 -> truthy (cond status_code) = true) ->
  snd (call_once_more cond delay collect (Response status_code body, second))
  = [Request; Sleep delay; Request]
  <-> status_code <> 200.
Proof.
  intros Hc. unfold call_once_more.
  destruct (status_code =? 200) eqn:E.
  - apply Z.eqb_eq in E. split; [| intros H; contradiction].
    destruct body as [values|]; [destruct (collect values)|]; discriminate.
  - apply Z.eqb_neq in E. rewrite (Hc E).
    split; [intros _; exact E | intros _].
    destruct second as [s2 [v2|]|]; try reflexivity;
      destruct (s2 =? 200); try reflexivity.
    destruct (collect v2); reflexivity.
Qed.

(** C5 (as stated, refuted): on a 500 answer [getApiCall] and
    [postApiCall] do enter the branch that sleeps 20 seconds and sends
    the request once more, and return the body of that second answer. *)
Lemma retry_branch_entered_on_500 :
  getApiCall (Response 500 None, Response 200 (Some (JStr "ok")))
    = ([JStr "ok"], second_attempt) /\
  postApiCall (Response 500 None, Response 200 (Some (JStr "ok")))
    = ([JStr "ok"], second_attempt).
Proof. split; reflexivity. Qed.

(** C5 (amended): the comparison [status_code == range(...)] is false for
    every status code, but the whole [elif] condition is truthy for every
    status code other than 200 (through [or 400] in [getApiCall], through
    [or range(400, 410, 1)] in [postApiCall]); so the branch that sleeps
    20 seconds and repeats the request is entered exactly when the first
    answer is not a 200. *)
Theorem retry_branch_entered_iff_not_200 :
  forall (status_code : Z) (body : option json) (second : HttpResult),
    py_eq (PyInt status_code) (PyRange 500 599 1) = false /\
    (snd (getApiCall (Response status_code body, second)) = second_attempt
     <-> status_code <> 200) /\
    (snd (postApiCall (Response status_code body, second)) = second_attempt
     <-> status_code <> 200).
Proof.
  intros s body second. split; [reflexivity|]. split.
  - apply call_once_more_effects. intros _.
    rewrite retry_cond_or_400_value. reflexivity.
  - apply call_once_more_effects. intros Hs.
    rewrite retry_cond_or_range_truthy.
    apply Z.eqb_neq in Hs. rewrite Hs. reflexivity.
Qed.

(* ================================================================= *)
(** ** Schema dispatch *)



(* ================================================================= *)
(** ** Reasoning about the statements of the loop body *)

Lemma mbind_inv {A B : Type} (m : M A) (k : A -> M B) (g g' : Globals)
    (r : res B) :
  mbind m k g = (r, g') ->
  (exists a g1, m g = (Ok a, g1) /\ k a g1 = (r, g')) \/
  (exists e, m g = (Raise e, g') /\ r = Raise e).
Proof.
  unfold mbind. destruct (m g) as [[a | e] g1]; intros H.
  - left. eauto.
  - right. inversion H; subst. eauto.
Qed.

Lemma same_lists_refl (g : Globals) : same_lists g g.
Proof. repeat split. Qed.

Lemma same_lists_trans (g1 g2 g3 : Globals) :
  same_lists g1 g2 -> same_lists g2 g3 -> same_lists g1 g3.
Proof.
  unfold same_lists. intros (a1 & b1 & c1 & d1 & e1) (a2 & b2 & c2 & d2 & e2).
  repeat split; congruence.
Qed.

#[local] Hint Resolve same_lists_refl : core.

(** Break [H : m g = (r, g')] along the shape of the statement [m]. *)
Ltac split_pair H :=
  first [ discriminate H
        | injection H; intros; subst; clear H ].

Ltac run H :=
  lazymatch type of H with
  | mbind _ _ _ = _ =>
      let a := fresh "a" in
      let g1 := fresh "g" in
      let H1 := fresh "Hrun" in
      let e := fresh "e" in
      let Hr := fresh "Hr" in
      apply mbind_inv in H;
      destruct H as [(a & g1 & H1 & H) | (e & H & Hr)];
      [| first [discriminate Hr | subst | idtac]]
  | lift _ _ = _ => unfold lift in H; split_pair H
  | ret _ _ = _ => unfold ret in H; split_pair H
  | modify _ _ = _ => unfold modify in H; split_pair H
  | gets _ _ = _ => unfold gets in H; split_pair H
  end.

Ltac run_any :=
  match goal with
  | H : mbind _ _ _ = _ |- _ => run H
  | H : lift _ _ = _ |- _ => run H
  | H : ret _ _ = _ |- _ => run H
  | H : modify _ _ = _ |- _ => run H
  | H : gets _ _ = _ |- _ => run H
  | H : (_, _) = (_, _) |- _ => split_pair H
  | H : (if ?c then _ else _) _ = (_, _) |- _ => destruct c eqn:?
  | H : (match ?c with _ => _ end) _ = (_, _) |- _ => destruct c eqn:?
  | H : match ?c with _ => _ end = (_, _) |- _ => destruct c eqn:?
  | H : Raise _ = Ok _ |- _ => discriminate H
  | H : Ok _ = Raise _ |- _ => discriminate H
  end.

Ltac lists :=
  unfold same_lists in *; simpl in *; intuition (try congruence).

Lemma activity_rows_same_lists (well r : json) (present code details : string)
    (items : list json) :
  forall g x g',
    activity_rows well r present code details items g = (x, g') ->
    same_lists g g'.
Proof.
  induction items as [| rep rest IH]; intros g x g' H; simpl in H.
  - repeat run_any. lists.
  - repeat run_any;
      try match goal with
          | H : activity_rows _ _ _ _ _ _ _ = _ |- _ => apply IH in H
          end; lists.
Qed.

Lemma activity_rows_patterson_same_lists (well r : json) (items : list json) :
  forall g x g',
    activity_rows_patterson well r items g = (x, g') -> same_lists g g'.
Proof.
  induction items as [| rep rest IH]; intros g x g' H; simpl in H.
  - repeat run_any. lists.
  - repeat run_any;
      try match goal with
          | H : activity_rows_patterson _ _ _ _ = _ |- _ => apply IH in H
          end; lists.
Qed.

Lemma extract_same_lists (py_str : json -> string) (s : schema)
    (well r report : json) (lv : Locals) :
  forall g x g',
    extract py_str s well r report lv g = (x, g') -> same_lists g g'.
Proof.
  intros g x g' H. destruct s; unfold extract in H; repeat run_any;
    try match goal with
        | H : activity_rows _ _ _ _ _ _ _ = _ |- _ =>
            apply activity_rows_same_lists in H
        | H : activity_rows_patterson _ _ _ _ = _ |- _ =>
            apply activity_rows_patterson_same_lists in H
        end; lists.
Qed.

(* ================================================================= *)
(** ** The shape of a row *)

Ltac bind_cases H :=
  repeat match type of H with
         | bind ?m _ = Ok _ =>
             let E := fresh "E" in
             destruct m eqn:E; simpl in H; [| discriminate H]
         end.

Lemma make_holder_well_row (py_str : json -> string) (job : json)
    (lv : Locals) (holder : list cell) :
  make_holder py_str job lv = Ok holder -> well_row py_str holder.
Proof.
  unfold make_holder. intros H. bind_cases H.
  inversion H; subst; clear H.
  repeat split. do 5 eexists. reflexivity.
Qed.

Lemma append_row_run (py_str : json -> string) (well : json)
    (net : Responses) (lv : Locals) (g : Globals) :
  append_row py_str well net lv g =
  match make_holder py_str (JList (fst (getJobs_by_id net.(job_http)))) lv with
  | Ok holder => (Ok tt, RAEJobs_append holder (record_call (GetJob well) g))
  | Raise e => (Raise e, record_call (GetJob well) g)
  end.
Proof.
  unfold append_row, mbind, modify, lift.
  destruct (make_holder _ _ _); reflexivity.
Qed.

(** Unfold the loop body down to [extract], which is kept as a block. *)
Ltac run_job H :=
  unfold process_job, daily_report in H;
  repeat first
    [ run_any
    | match goal with
      | H' : append_row _ _ _ _ _ = _ |- _ => rewrite append_row_run in H'
      | H' : extract _ _ _ _ _ _ _ = _ |- _ =>
          apply extract_same_lists in H'
      end ].

(** An iteration appends one row when it ends at [Row_appended], and
    none otherwise; a row has the shape of the header. *)
Lemma process_job_rows (py_str : json -> string) (w : json)
    (net : Responses) (g g' : Globals) (r : res exit) :
  process_job py_str w net g = (r, g') ->
  match r with
  | Ok Row_appended =>
      exists holder,
        RAEJobs g' = (RAEJobs g ++ [holder])%list /\ well_row py_str holder
  | _ => RAEJobs g' = RAEJobs g
  end.
Proof.
  intros H. run_job H.
  all: try solve [lists].
  all: match goal with
       | Hh : make_holder _ _ _ = Ok ?h |- _ =>
           exists h; split; [lists | exact (make_holder_well_row _ _ _ _ Hh)]
       end.
Qed.

(** An iteration leaves [ZeroReportList] as it is or appends the id of
    its job, and it appends only an id that was not yet in the list. *)
Lemma process_job_ZeroReportList (py_str : json -> string) (w : json)
    (net : Responses) (g g' : Globals) (r : res exit) :
  process_job py_str w net g = (r, g') ->
  ZeroReportList g' = ZeroReportList g \/
  exists id, field w "id" = Ok id /\
             py_in id (ZeroReportList g) = false /\
             ZeroReportList g' = (ZeroReportList g ++ [id])%list.
Proof.
  intros H. run_job H.
  all: try solve [left; lists].
  all: right;
    match goal with
    | Hid : field _ "id" = Ok ?id |- _ => exists id
    end; lists.
Qed.

(** The two [continue]s that skip the append: at the first the job id
    is in [ZeroReportList]; at the second the job goes to
    [processedJobList] (the 'Jobs not found' sheet).  No other way
    through the body touches [processedJobList]. *)
Lemma process_job_skips (py_str : json -> string) (w : json)
    (net : Responses) (g g' : Globals) (r : res exit) :
  process_job py_str w net g = (r, g') ->
  match r with
  | Ok In_ZeroReportList =>
      (exists id, field w "id" = Ok id /\
                  py_in id (ZeroReportList g) = true) /\
      ZeroReportList g' = ZeroReportList g /\
      processedJobList g' = processedJobList g
  | Ok Schema_not_found =>
      exists id text,
        field w "id" = Ok id /\
        processedJobList g' = (processedJobList g ++ [(id, text)])%list
  | _ => processedJobList g' = processedJobList g
  end.
Proof.
  intros H. run_job H.
  all: try solve [lists].
  all: try solve
    [ split; [| lists];
      match goal with
      | Hid : field _ "id" = Ok ?id |- _ => exists id
      end; lists ].
  all: match goal with
       | Hid : field _ "id" = Ok ?id |- _ => exists id
       end; eexists; split; [assumption | lists].
Qed.

(* ================================================================= *)
(** ** The requests of an iteration *)

Ltac calls_shape :=
  unfold same_lists in *; simpl in *;
  repeat match goal with
         | H : _ /\ _ |- _ => destruct H
         end;
  repeat match goal with
         | H : calls _ = _ |- _ => rewrite H
         end;
  repeat rewrite <- app_assoc; simpl.

(** An iteration whose job has no ['id'] stops at once; any other one
    records the capabilities request first, and no second one. *)
Lemma process_job_calls (py_str : json -> string) (w : json)
    (net : Responses) (g g' : Globals) (r : res exit) :
  process_job py_str w net g = (r, g') ->
  match field w "id" with
  | Raise e => r = Raise e /\ g' = g
  | Ok id =>
      well g' = id /\
      exists cs, calls g' = (calls g ++ GetCapabilities id :: cs)%list /\
                 flat_map entered_by cs = []
  end.
Proof.
  intros H. run_job H.
  all: match goal with
       | Hid : field _ "id" = _ |- _ => rewrite Hid
       end.
  all: try solve [split; reflexivity].
  all: split; [lists |]; calls_shape; eexists; split; reflexivity.
Qed.

Lemma process_job_entered (py_str : json -> string) (w : json)
    (net : Responses) (g g' : Globals) (r : res exit) :
  process_job py_str w net g = (r, g') ->
  entered g' = (entered g ++ match field w "id" with
                             | Ok id => [id]
                             | Raise _ => []
                             end)%list.
Proof.
  intros H. apply process_job_calls in H.
  destruct (field w "id") as [id | e].
  - destruct H as (_ & cs & Hc & Hcs). unfold entered.
    rewrite Hc, flat_map_app. simpl. rewrite Hcs. reflexivity.
  - destruct H as (_ & ->). rewrite app_nil_r. reflexivity.
Qed.

(** Every branch of the schema chain starts with [report[0]]. *)
Lemma extract_empty (py_str : json -> string) (s : schema)
    (well r : json) (lv : Locals) (g : Globals) :
  s <> Unrecognized ->
  extract py_str s well r (JList []) lv g = (Raise IndexError, g).
Proof. destruct s; intros Hs; try reflexivity. contradiction. Qed.

(** When the content request of an iteration was made and the wrapper
    came back with the empty list, the iteration raises [IndexError]
    after it has put the job on [ZeroReportList], and appends no row. *)
Lemma process_job_empty_content (py_str : json -> string) (w : json)
    (net : Responses) (g g' : Globals) (r : res exit) :
  process_job py_str w net g = (r, g') ->
  forall cs id reportId,
    calls g' = (calls g ++ cs)%list ->
    In (GetReportContent id reportId) cs ->
    fst (getReports reportId net.(report_content_http)) = [] ->
    field w "id" = Ok id /\
    r = Raise IndexError /\
    RAEJobs g' = RAEJobs g /\
    ZeroReportList g' = (ZeroReportList g ++ [id])%list /\
    py_in id (ZeroReportList g) = false.
Proof.
  intros H cs id rid Hcalls Hin Hc.
  unfold process_job, daily_report in H.
  repeat first
    [ run_any
    | match goal with
      | H' : append_row _ _ _ _ _ = _ |- _ => rewrite append_row_run in H'
      | H' : extract _ _ _ _ _ _ ?g1 = (_, ?g2) |- _ =>
          lazymatch goal with
          | _ : same_lists g1 g2 |- _ => fail
          | _ => pose proof (extract_same_lists _ _ _ _ _ _ _ _ _ H')
          end
      end ].
  all: unfold same_lists in *; simpl in *.
  all: repeat match goal with
              | Hx : _ /\ _ |- _ => destruct Hx
              end.
  all: try match goal with
           | Hx : calls ?x = (_ ++ [_])%list |- _ => rewrite Hx in Hcalls
           end.
  all: repeat rewrite <- app_assoc in Hcalls; simpl in Hcalls.
  all: try match type of Hcalls with
           | ?l = (?l ++ _)%list =>
               rewrite <- (app_nil_r l) in Hcalls at 1
           end.
  all: apply app_inv_head in Hcalls; subst cs; simpl in Hin.
  all: repeat match type of Hin with
              | _ \/ _ => destruct Hin as [Hin | Hin]
              | False => contradiction
              | _ = _ => first [discriminate Hin | injection Hin as <- <-]
              end.
  all: rewrite Hc in *.
  all: repeat match goal with
              | Hx : extract _ _ _ _ (JList []) _ _ = _ |- _ =>
                  rewrite extract_empty in Hx by discriminate
              | Hx : first_report (JList []) = _ |- _ =>
                  unfold first_report in Hx; simpl in Hx
              | Hx : (_, _) = (_, _) |- _ =>
                  injection Hx; intros; subst; clear Hx
              | Hx : Ok _ = Ok _ |- _ => injection Hx; intros; subst; clear Hx
              | Hx : Raise _ = Ok _ |- _ => discriminate Hx
              | Hx : Raise _ = Raise _ |- _ =>
                  injection Hx; intros; subst; clear Hx
              end.
  all: simpl in *; try discriminate.
  all: repeat split; auto; congruence.
Qed.

(* ================================================================= *)
(** ** The loop over the jobs *)

Lemma for_each_job_cons (py_str : json -> string) (w : json)
    (rest : list json) (net : nat -> Responses) (i : nat) (g : Globals) :
  for_each_job py_str (w :: rest) net i g =
  match process_job py_str w (net i) g with
  | (Ok x, g') =>
      let '(xs, ex, g'') := for_each_job py_str rest net (S i) g' in
      (x :: xs, ex, g'')
  | (Raise ex, g') => ([], Some ex, g')
  end.
Proof. reflexivity. Qed.

(** Case analysis on the first iteration of a loop. *)
Ltac first_iteration H :=
  rewrite for_each_job_cons in H;
  let r := fresh "r" in
  let g1 := fresh "g" in
  let Hstep := fresh "Hstep" in
  let x := fresh "x" in
  let e := fresh "e" in
  match type of H with
  | context [process_job ?p ?w ?n ?g] =>
      destruct (process_job p w n g) as [r g1] eqn:Hstep;
      destruct r as [x | e];
      [ match type of H with
        | context [for_each_job ?p ?l ?nn ?ii ?gg] =>
            let ys := fresh "ys" in
            let ey := fresh "ey" in
            let g2 := fresh "g" in
            let Hrest := fresh "Hrest" in
            destruct (for_each_job p l nn ii gg) as [[ys ey] g2] eqn:Hrest;
            injection H; intros; subst; clear H
        end
      | injection H; intros; subst; clear H ]
  end.

Lemma for_each_job_rows (py_str : json -> string) (jobs : list json)
    (net : nat -> Responses) :
  forall i g xs ex g',
    for_each_job py_str jobs net i g = (xs, ex, g') ->
    exists per_job,
      Forall2 (rows_of_exit py_str) xs per_job /\
      RAEJobs g' = (RAEJobs g ++ List.concat per_job)%list.
Proof.
  induction jobs as [| w rest IH]; intros i g xs ex g' H.
  - simpl in H. injection H; intros; subst.
    exists []. split; [constructor | simpl; now rewrite app_nil_r].
  - first_iteration H.
    + apply IH in Hrest. destruct Hrest as (per_job & Hall & Hrows).
      apply process_job_rows in Hstep.
      destruct x.
      * destruct Hstep as (holder & Hg & Hwell).
        exists ([holder] :: per_job). split.
        -- constructor; [exists holder; auto | exact Hall].
        -- rewrite Hrows, Hg. simpl. now rewrite <- app_assoc.
      * exists ([] :: per_job). split; [constructor; simpl; auto |].
        rewrite Hrows, Hstep. reflexivity.
      * exists ([] :: per_job). split; [constructor; simpl; auto |].
        rewrite Hrows, Hstep. reflexivity.
    + apply process_job_rows in Hstep.
      exists []. split; [constructor | simpl; now rewrite app_nil_r].
Qed.

Lemma for_each_job_length (py_str : json -> string) (jobs : list json)
    (net : nat -> Responses) :
  forall i g xs ex g',
    for_each_job py_str jobs net i g = (xs, ex, g') ->
    (List.length xs <= List.length jobs)%nat /\
    (ex = None -> List.length xs = List.length jobs).
Proof.
  induction jobs as [| w rest IH]; intros i g xs ex g' H.
  - simpl in H. injection H; intros; subst. auto.
  - first_iteration H.
    + apply IH in Hrest. destruct Hrest as [Hle Heq]. simpl. split.
      * lia.
      * intros Hn. rewrite (Heq Hn). reflexivity.
    + simpl. split; [lia | discriminate].
Qed.

(** A loop that stops on an exception: the iterations before the
    failing job completed, the failing iteration appended no row, and
    nothing was done for the jobs after it. *)
Lemma for_each_job_raised (py_str : json -> string) (jobs : list json)
    (net : nat -> Responses) :
  forall i g xs e g',
    for_each_job py_str jobs net i g = (xs, Some e, g') ->
    exists before w after g1,
      jobs = (before ++ w :: after)%list /\
      List.length before = List.length xs /\
      for_each_job py_str before net i g = (xs, None, g1) /\
      process_job py_str w (net (i + List.length before)%nat) g1
        = (Raise e, g') /\
      RAEJobs g' = RAEJobs g1.
Proof.
  induction jobs as [| w rest IH]; intros i g xs e g' H.
  - simpl in H. discriminate.
  - first_iteration H.
    + apply IH in Hrest.
      destruct Hrest as (before & w' & after & g1 & Hj & Hl & Hb & Hw & Hr).
      exists (w :: before), w', after, g1. repeat split.
      * simpl. now rewrite Hj.
      * simpl. now rewrite Hl.
      * rewrite for_each_job_cons, Hstep, Hb. reflexivity.
      * simpl. rewrite <- Hw. f_equal. f_equal. lia.
      * exact Hr.
    + exists [], w, rest, g. repeat split.
      * simpl. rewrite Nat.add_0_r. exact Hstep.
      * apply process_job_rows in Hstep. exact Hstep.
Qed.

Lemma no_repeat_nil : no_repeat [].
Proof. intros i j x y _ H. destruct i; discriminate. Qed.

Lemma no_repeat_snoc (l : list json) (x : json) :
  no_repeat l -> py_in x l = false -> no_repeat (l ++ [x]).
Proof.
  intros Hl Hx i j a b Hij Ha Hb.
  assert (Hj : (j < List.length (l ++ [x]))%nat)
    by (apply nth_error_Some; congruence).
  rewrite length_app in Hj. simpl in Hj.
  assert (Hi : (i < List.length l)%nat) by lia.
  rewrite nth_error_app1 in Ha by exact Hi.
  destruct (Nat.eq_dec j (List.length l)) as [-> | Hne].
  - rewrite nth_error_app2, Nat.sub_diag in Hb by lia. simpl in Hb.
    injection Hb as <-.
    unfold py_in in Hx.
    destruct (json_eq x a) eqn:E; [| reflexivity].
    assert (existsb (json_eq x) l = true); [| congruence].
    apply existsb_exists. exists a. split; [| exact E].
    eapply nth_error_In; eassumption.
  - rewrite nth_error_app1 in Hb by lia. exact (Hl i j a b Hij Ha Hb).
Qed.

Lemma for_each_job_no_repeat (py_str : json -> string) (jobs : list json)
    (net : nat -> Responses) :
  forall i g xs ex g',
    for_each_job py_str jobs net i g = (xs, ex, g') ->
    no_repeat (ZeroReportList g) -> no_repeat (ZeroReportList g').
Proof.
  induction jobs as [| w rest IH]; intros i g xs ex g' H Hg.
  - simpl in H. injection H; intros; subst. exact Hg.
  - assert (Hone : forall r g1, process_job py_str w (net i) g = (r, g1) ->
                                no_repeat (ZeroReportList g1)).
    { intros r g1 Hs. apply process_job_ZeroReportList in Hs.
      destruct Hs as [-> | (id & _ & Hnew & ->)];
        [exact Hg | apply no_repeat_snoc; assumption]. }
    first_iteration H.
    + eapply IH; [exact Hrest | eapply Hone; reflexivity].
    + eapply Hone; reflexivity.
Qed.

(** The loop body is started for the jobs of the list, one after the
    other from the first, until the list ends or an iteration raises. *)
Lemma for_each_job_entered (py_str : json -> string) (jobs : list json)
    (net : nat -> Responses) :
  forall i g xs ex g',
    for_each_job py_str jobs net i g = (xs, ex, g') ->
    exists k ids,
      entered g' = (entered g ++ ids)%list /\
      Forall2 job_has_id (firstn k jobs) ids /\
      (List.length xs <= k <= List.length jobs)%nat /\
      (k <= S (List.length xs))%nat /\
      (ex = None -> k = List.length jobs).
Proof.
  induction jobs as [| w rest IH]; intros i g xs ex g' H.
  - simpl in H. injection H; intros; subst.
    exists 0%nat, []. rewrite app_nil_r. simpl.
    repeat split; auto; lia.
  - first_iteration H.
    + apply IH in Hrest.
      destruct Hrest as (k & ids & He & Hf & Hk & Hs & Hn).
      pose proof (process_job_entered _ _ _ _ _ _ Hstep) as Hent.
      pose proof (process_job_calls _ _ _ _ _ _ Hstep) as Hc.
      destruct (field w "id") as [id | e] eqn:Hid;
        [| destruct Hc as [Hc _]; discriminate Hc].
      exists (S k), (id :: ids). repeat split.
      * rewrite He, Hent. now rewrite <- app_assoc.
      * simpl. constructor; [exact Hid | exact Hf].
      * simpl. lia.
      * simpl. lia.
      * simpl. lia.
      * intros Hx. simpl. now rewrite (Hn Hx).
    + pose proof (process_job_entered _ _ _ _ _ _ Hstep) as Hent.
      destruct (field w "id") as [id | e'] eqn:Hid.
      * exists 1%nat, [id]. repeat split; simpl; try lia; try discriminate.
        -- exact Hent.
        -- constructor; [exact Hid | constructor].
      * exists 0%nat, []. repeat split; simpl; try lia; try discriminate.
        -- exact Hent.
        -- constructor.
Qed.


Lemma concat_rows_length (py_str : json -> string) (xs : list exit)
    (per_job : list (list (list cell))) :
  Forall2 (rows_of_exit py_str) xs per_job ->
  List.length (List.concat per_job) = List.length (filter is_Row_appended xs)
  /\ Forall (well_row py_str) (List.concat per_job).
Proof.
  induction 1 as [| x rows xs per_job Hx _ IH]; simpl.
  - split; [reflexivity | constructor].
  - destruct IH as [IHl IHf]. rewrite length_app.
    destruct x; simpl in Hx.
    + destruct Hx as (holder & -> & Hw). simpl. split.
      * now rewrite IHl.
      * constructor; assumption.
    + subst rows. simpl. auto.
    + subst rows. simpl. auto.
Qed.

(** What [main] returns, spelled out. *)
Lemma main_run (py_str : json -> string) (RAE_Rigs : list string)
    (jobs_http : HttpResult * HttpResult) (net : nat -> Responses)
    (run : Run) :
  main_loop py_str RAE_Rigs jobs_http net = Ok run ->
  tmpAllJobs run = fst (getJobs jobs_http) /\
  (exists lookup_table,
     build_lookup_table py_str (tmpAllJobs run) [] = Ok lookup_table /\
     tmpJobs run = select_jobs RAE_Rigs lookup_table) /\
  for_each_job py_str (tmpAllJobs run) net 0 initial_globals
    = (exits run, raised run, final run) /\
  sheet_Jobs_Processed run = tmpAllJobs run /\
  sheet_RAE_Report run = RAEJobs (final run) /\
  sheet_Jobs_not_found run = processedJobList (final run) /\
  sheet_No_Report_List run = ZeroReportList (final run).
Proof.
  unfold main_loop. intros H.
  destruct (build_lookup_table py_str (fst (getJobs jobs_http)) [])
    as [lookup_table | e] eqn:Hl; simpl in H; [| discriminate].
  destruct (for_each_job py_str (fst (getJobs jobs_http)) net 0
              initial_globals) as [[xs ex] g] eqn:Hf.
  injection H as <-. simpl. repeat split; eauto.
Qed.

(* ================================================================= *)
(** ** The cells of a row *)

Lemma make_holder_row_of (py_str : json -> string) (job : json)
    (lv : Locals) (holder : list cell) :
  make_holder py_str job lv = Ok holder ->
  row_of py_str job lv holder /\ map cell_kind holder = columns.
Proof.
  unfold make_holder, row_of. intros H.
  destruct (item job 0) as [job0 |]; [| discriminate H]. cbn [bind] in H |- *.
  destruct (field job0 "assetInfoList") as [a |]; [| discriminate H].
  cbn [bind] in H |- *.
  destruct (item a 0) as [asset |]; [| discriminate H]. cbn [bind] in H |- *.
  destruct (field asset "owner") as [owner |]; [| discriminate H].
  cbn [bind] in H.
  destruct (field asset "name") as [name |]; [| discriminate H].
  cbn [bind] in H.
  destruct (field job0 "siteInfoList") as [x |]; [| discriminate H].
  cbn [bind] in H |- *.
  destruct (item x 0) as [y |]; [| discriminate H]. cbn [bind] in H |- *.
  destruct (field y "owner") as [operator |]; [| discriminate H].
  cbn [bind] in H.
  destruct (field job0 "name") as [job_name |]; [| discriminate H].
  cbn [bind] in H. injection H as <-.
  split; [| reflexivity].
  exists owner, name, operator, job_name. repeat split.
Qed.

(** The row an iteration appends is built from the answer to its job
    lookup and from the variables of the branch it went through. *)
Lemma process_job_row_of (py_str : json -> string) (w : json)
    (net : Responses) (g g' : Globals) :
  process_job py_str w net g = (Ok Row_appended, g') ->
  exists holder lv,
    RAEJobs g' = (RAEJobs g ++ [holder])%list /\
    row_of py_str (JList (fst (getJobs_by_id net.(job_http)))) lv holder /\
    variables_of py_str w net lv /\
    map cell_kind holder = columns.
Proof.
  intros H. unfold process_job in H.
  repeat first
    [ run_any
    | match goal with
      | H' : append_row _ _ _ _ _ = _ |- _ => rewrite append_row_run in H'
      end ].
  all: try solve
    [ exfalso;
      match goal with
      | Hd : daily_report _ _ _ _ _ = (Ok (inl Row_appended), _) |- _ =>
          unfold daily_report in Hd;
          repeat first
            [ run_any
            | match goal with
              | H' : extract _ _ _ _ _ _ _ = _ |- _ =>
                  apply extract_same_lists in H'
              end ]
      end ].
  all: match goal with
       | Hh : make_holder _ _ ?lv = Ok ?h |- _ =>
           exists h, lv;
           destruct (make_holder_row_of _ _ _ _ Hh) as [Hrow Hkind];
           split; [| split; [exact Hrow | split; [| exact Hkind]]]
       end.
  all: try match goal with
           | Hd : daily_report _ _ _ _ ?g1 = (_, ?g2) |- RAEJobs _ = _ =>
               let Hs := fresh "Hs" in
               assert (Hs : RAEJobs g2 = RAEJobs g1);
               [ unfold daily_report in Hd;
                 repeat first
                   [ run_any
                   | match goal with
                     | H' : extract _ _ _ _ _ _ _ = _ |- _ =>
                         apply extract_same_lists in H'
                     end ]; lists
               | simpl; rewrite Hs; reflexivity ]
           end.
  all: try (simpl; reflexivity).
  all: unfold variables_of, selection, time_records, mapping.
  all: try (left; split; [reflexivity |]).
  all: try match goal with
           | Hl : (Datatypes.length ?l =? 0)%nat = true,
             Hsel : _ = Ok ?l |- _ \/ _ =>
               left; destruct l; [exact Hsel | discriminate Hl]
           end.
  all: try match goal with
           | Hl : (?n =? 0)%nat = true, Hn : _ = Ok ?n |- _ \/ _ =>
               right; apply Nat.eqb_eq in Hl; subst n; exact Hn
           end.
  all: right; repeat eexists; eassumption.
Qed.

Lemma for_each_job_rows_of (py_str : json -> string) (jobs : list json)
    (net : nat -> Responses) :
  forall i g xs ex g',
    for_each_job py_str jobs net i g = (xs, ex, g') ->
    exists rows,
      RAEJobs g' = (RAEJobs g ++ rows)%list /\
      Forall (row_of_an_iteration py_str jobs net i) rows.
Proof.
  induction jobs as [| w rest IH]; intros i g xs ex g' H.
  - simpl in H. injection H; intros; subst.
    exists []. rewrite app_nil_r. split; constructor.
  - assert (Hshift : forall rows,
               Forall (row_of_an_iteration py_str rest net (S i)) rows ->
               Forall (row_of_an_iteration py_str (w :: rest) net i) rows).
    { intros rows Hr. eapply Forall_impl; [| exact Hr].
      intros holder (k & w' & lv & Hk & Hrow & Hv & Hkind).
      exists (S k), w', lv. rewrite Nat.add_succ_r. auto. }
    first_iteration H.
    + apply IH in Hrest. destruct Hrest as (rows & Hrows & Hall).
      destruct x.
      * apply process_job_row_of in Hstep.
        destruct Hstep as (holder & lv & Hg & Hrow & Hv & Hkind).
        exists (holder :: rows). split.
        -- rewrite Hrows, Hg, <- app_assoc. reflexivity.
        -- constructor; [| apply Hshift, Hall].
           exists 0%nat, w, lv. rewrite Nat.add_0_r. auto.
      * apply process_job_rows in Hstep. exists rows. split.
        -- rewrite Hrows, Hstep. reflexivity.
        -- apply Hshift, Hall.
      * apply process_job_rows in Hstep. exists rows. split.
        -- rewrite Hrows, Hstep. reflexivity.
        -- apply Hshift, Hall.
    + apply process_job_rows in Hstep.
      exists []. rewrite app_nil_r. split; [exact Hstep | constructor].
Qed.

(** [main] returns when the loop part returns and both sorted frames
    have a column. *)
Lemma main_outcome (py_str : json -> string) (RAE_Rigs : list string)
    (jobs_http : HttpResult * HttpResult) (net : nat -> Responses) :
  main py_str RAE_Rigs jobs_http net =
  match main_loop py_str RAE_Rigs jobs_http net with
  | Ok run =>
      match first_column (sheet_RAE_Report run),
            first_column (sheet_Report_Comment run) with
      | Ok _, Ok _ => Ok run
      | Raise e, _ => Raise e
      | Ok _, Raise e => Raise e
      end
  | Raise e => Raise e
  end.
Proof.
  unfold main, write_sheets.
  destruct (main_loop py_str RAE_Rigs jobs_http net) as [run | e];
    [| reflexivity].
  cbn [bind].
  destruct (first_column (sheet_RAE_Report run)); [| reflexivity].
  cbn [bind].
  destruct (first_column (sheet_Report_Comment run)); reflexivity.
Qed.

(* ================================================================= *)
(** * The claims *)

(** ** C1: presence channels *)

Lemma positive_float_is_not_zero (m : positive) (e : Z) :
  float_is (S754_finite false m e) 0 = false.
Proof.
  unfold float_is. destruct (0 <=? e) eqn:E.
  - apply Z.eqb_neq. apply Z.leb_le in E.
    pose proof (Z.pow_pos_nonneg 2 e ltac:(lia) E). nia.
  - apply Z.eqb_neq. simpl. lia.
Qed.

(** The rule the twelve channels guarded by
    [isinstance(v, float) or isinstance(v, int)] follow, whatever the
    order of their two tests. *)
Lemma float_or_int_rule (v : json) :
  float_or_int_zero_first v emoji_x =
    (if (isinstance_float v || isinstance_int v) && gt_zero v then emoji_check
     else if (isinstance_float v || isinstance_int v) && eq_int v 0
          then emoji_exclamation
     else emoji_x) /\
  float_or_int_positive_first v emoji_x = float_or_int_zero_first v emoji_x.
Proof.
  unfold float_or_int_zero_first, float_or_int_positive_first.
  destruct v as [| b | z | f | s | l | d];
    cbn [isinstance_float isinstance_int orb andb gt_zero eq_int];
    try (split; reflexivity).
  - destruct b; split; reflexivity.
  - destruct (z =? 0) eqn:E0; destruct (0 <? z) eqn:E1; try (split; reflexivity).
    apply Z.eqb_eq in E0. apply Z.ltb_lt in E1. lia.
  - destruct f as [s | s | | s m e]; try destruct s; try (split; reflexivity).
    rewrite positive_float_is_not_zero. split; reflexivity.
Qed.

Lemma when_key_other {A : Type} (get : Locals -> A) (key name : string)
    (body : Locals -> Locals) (lv : Locals) :
  (forall lv', get (body lv') = get lv') ->
  get (when_key key name body lv) = get lv.
Proof. intros H. unfold when_key. destruct (String.eqb key name); auto. Qed.

Lemma when_key_false (key name : string) (body : Locals -> Locals)
    (lv : Locals) :
  String.eqb key name = false -> when_key key name body lv = lv.
Proof. intros H. unfold when_key. now rewrite H. Qed.

Lemma assoc_not_in (name : string) (m : list (string * json)) :
  ~ In name (map fst m) -> assoc name m = None.
Proof.
  induction m as [| [k v] m IH]; simpl; intros H; [reflexivity |].
  destruct (String.eqb name k) eqn:E.
  - apply String.eqb_eq in E. subst. exfalso. apply H. now left.
  - apply IH. intros Hin. apply H. now right.
Qed.

(** A variable written under one key only holds, after the loop over a
    dictionary, what the rule of that key makes of the value stored
    under it. *)
Lemma classify_channel {A : Type} (get : Locals -> A) (name : string)
    (rule : json -> A -> A) :
  (forall lv k v, String.eqb k name = false ->
                  get (classify_item lv (k, v)) = get lv) ->
  (forall lv v, get (classify_item lv (name, v)) = rule v (get lv)) ->
  forall m lv,
    NoDup (map fst m) ->
    get (classify m lv) = match assoc name m with
                          | Some v => rule v (get lv)
                          | None => get lv
                          end.
Proof.
  intros Hother Hname. unfold classify.
  induction m as [| [k v] m IH]; intros lv Hnd; [reflexivity |].
  simpl in Hnd. inversion Hnd as [| ? ? Hk Hm]; subst.
  cbn [fold_left assoc]. rewrite (IH _ Hm).
  destruct (String.eqb name k) eqn:E.
  - apply String.eqb_eq in E. subst k.
    rewrite (assoc_not_in _ _ Hk). apply Hname.
  - rewrite String.eqb_sym in E. rewrite (Hother _ _ _ E). reflexivity.
Qed.

(** The variable read by [get] is not written under another key. *)
Ltac other_keys :=
  intros ? ? ? ?; unfold classify_item; cbv zeta;
  repeat first
    [ rewrite when_key_false by assumption
    | rewrite when_key_other by (intros; reflexivity) ];
  reflexivity.

(** On these twelve channels the classifier does what the claim says,
    for every value found in the snapshot; on the rotary torque it does
    so for [int] and [bool] values only, and leaves any other value,
    [float] included, at MISSING. *)
Lemma twelve_channels_follow_the_rule (m : list (string * json)) :
  NoDup (map fst m) ->
  Forall (fun c => forall v, assoc (fst c) m = Some v ->
                             snd c (classify m fresh_locals) = presence v)
         float_or_int_channels /\
  (forall v, assoc "RotaryTorque" m = Some v ->
             RotaryTorquebool (classify m fresh_locals)
             = if isinstance_int v then presence v else emoji_x).
Proof.
  intros Hnd. split.
  - unfold float_or_int_channels.
    repeat (apply Forall_cons; [simpl; intros v Hv |]); [.. | apply Forall_nil].
    all: match goal with
         | Hn : assoc ?name _ = Some _
           |- ?get (classify ?mm fresh_locals) = _ =>
             first
               [ rewrite (classify_channel get name float_or_int_zero_first
                            ltac:(other_keys) ltac:(reflexivity) mm _ Hnd)
               | rewrite (classify_channel get name
                            float_or_int_positive_first
                            ltac:(other_keys) ltac:(reflexivity) mm _ Hnd) ]
         end.
    all: rewrite Hv; simpl.
    all: try rewrite (proj2 (float_or_int_rule v)).
    all: apply (proj1 (float_or_int_rule v)).
  - intros v Hv.
    rewrite (classify_channel RotaryTorquebool "RotaryTorque"
               int_positive_first
               ltac:(other_keys) ltac:(reflexivity) m _ Hnd).
    rewrite Hv. simpl.
    unfold int_positive_first, presence.
    destruct (isinstance_int v) eqn:Ei; [| reflexivity].
    rewrite orb_true_r. reflexivity.
Qed.

(** The dictionary built from the historical answer has no key twice. *)
Lemma dict_set_keys (k : string) (v : json) (d : list (string * json)) :
  NoDup (map fst d) ->
  NoDup (map fst (dict_set k v d)) /\
  (forall k', In k' (map fst (dict_set k v d)) ->
              k' = k \/ In k' (map fst d)).
Proof.
  induction d as [| [k0 v0] d IH]; simpl; intros Hnd.
  - split; [repeat constructor; auto | intros k' [<- | []]; auto].
  - inversion Hnd as [| ? ? Hk Hd]; subst.
    destruct (String.eqb k k0) eqn:E; simpl.
    + split; [exact Hnd | intros k' H; right; exact H].
    + destruct (IH Hd) as [IH1 IH2]. split.
      * constructor; [| exact IH1].
        intros Hin. apply IH2 in Hin. destruct Hin as [-> | Hin].
        -- rewrite String.eqb_refl in E. discriminate.
        -- contradiction.
      * intros k' [<- | Hin]; [right; now left |].
        apply IH2 in Hin. destruct Hin; [left | right; right]; assumption.
Qed.

Lemma map_attributes_keys (attributes : list json) (values : json) :
  forall i m m',
    NoDup (map fst m) ->
    map_attributes attributes values i m = Ok m' ->
    NoDup (map fst m').
Proof.
  induction attributes as [| a rest IH]; intros i m m' Hnd H; simpl in H.
  - injection H as <-. exact Hnd.
  - bind_cases H.
    apply IH in H; [exact H |].
    match goal with
    | Hs : mapping_store ?id _ _ = Ok _ |- _ =>
        destruct id; simpl in Hs; try discriminate Hs;
          injection Hs as <-; try exact Hnd
    end.
    apply dict_set_keys. exact Hnd.
Qed.

(** C1 (the code departs from the claim): a rotary torque of 5.0, a
    [float] greater than zero, is left at the code for MISSING, while the
    same value on the hook-load channel is classified OK, and so is the
    [int] 5 on the rotary torque; in the row of a run with both channels
    at 5.0 the cell under 'HookLoad' is 3 and the cell under
    'RotaryTorque' is 0. *)
Theorem RotaryTorque_float_left_missing :
  gt_zero (JFloat five) = true /\
  presence (JFloat five) = emoji_check /\
  RotaryTorquebool (classify [("RotaryTorque", JFloat five)] fresh_locals)
    = emoji_x /\
  HookLoadbool (classify [("HookLoad", JFloat five)] fresh_locals)
    = emoji_check /\
  RotaryTorquebool (classify [("RotaryTorque", JInt 5)] fresh_locals)
    = emoji_check /\
  main_loop str ["Rig 9"] (listing [job "net_1" "Acme" "Rig 9"])
    (fun _ => torque_job) = Ok run_torque /\
  map (fun row => (assoc_cell "HookLoad" row, assoc_cell "RotaryTorque" row))
      (sheet_RAE_Report run_torque)
    = [(Some (CInt emoji_check), Some (CInt emoji_x))].
Proof. repeat split; vm_compute; reflexivity. Qed.

(** No [float] at all is classified on the rotary-torque channel. *)
Lemma RotaryTorque_ignores_floats (f : spec_float) (old : Z) :
  int_positive_first (JFloat f) old = old.
Proof. reflexivity. Qed.

(** ** C2: the allow-list and the loop *)




(** ** C3: rows and iterations *)




(** ** C9: the shape of the rows *)

(** C9: every row appended to [RAEJobs], from whichever of the three
    appends, is the row of one of the iterations of the loop.  It has 26
    cells, as many as the header has titles, and under each title stands
    the value of that name: the owner, rig name, operator and well name
    read from the answer to the job lookup of the iteration, the three
    IADC values as text, the thirteen status codes as integers, the bit
    and slip status as text, then comment, next-24h comment, report id
    and report date.  The variables are those of the iteration: as reset
    at its top in the two branches without data, as the report stage
    returned them from the result of the classifier otherwise. *)
Theorem every_row_matches_the_header :
  forall (py_str : json -> string) (RAE_Rigs : list string)
         (jobs_http : HttpResult * HttpResult) (net : nat -> Responses)
         (run : Run),
    main_loop py_str RAE_Rigs jobs_http net = Ok run ->
    List.length header = 26%nat /\
    Forall (well_row py_str) (sheet_RAE_Report run) /\
    Forall (row_of_an_iteration py_str (tmpAllJobs run) net 0)
      (sheet_RAE_Report run).
Proof.
  intros py_str rigs http net run H. split; [reflexivity |].
  pose proof (main_run _ _ _ _ _ H) as (_ & _ & Hf & _ & Hs & _).
  split.
  - pose proof (for_each_job_rows _ _ _ _ _ _ _ _ Hf) as (per_job & Hp & Hr).
    pose proof (concat_rows_length _ _ _ Hp) as (_ & Hall).
    simpl in Hr. rewrite Hs, Hr. exact Hall.
  - pose proof (for_each_job_rows_of _ _ _ _ _ _ _ _ Hf) as (rows & Hr & Hall).
    simpl in Hr. rewrite Hs, Hr. exact Hall.
Qed.

Lemma every_row_matches_the_header_witness :
  List.length header = 26%nat /\
  Forall (well_row str) (sheet_RAE_Report run_iadc_and_idle) /\
  Forall (row_of_an_iteration str (tmpAllJobs run_iadc_and_idle)
            iadc_then_idle 0)
    (sheet_RAE_Report run_iadc_and_idle).
Proof.
  apply (every_row_matches_the_header str ["Rig"]
           (listing [job "net_1" "Acme" "Rig 9"; job "net_2" "Acme" "Rig 12"])
           iadc_then_idle run_iadc_and_idle).
  vm_compute. reflexivity.
Defined.

(** ** C7: jobs without report *)

(** C7 (as stated, refuted): the job "net_1" is listed twice and has no
    report; it is on [ZeroReportList] once, but its report listing is
    requested at both encounters. *)
Lemma remembered_job_is_queried_again :
  main_loop str ["Rig 9"]
    (listing [job "net_1" "Acme" "Rig 9"; job "net_1" "Acme" "Rig 9"])
    (fun _ => hookload_job "net_1" no_reports server_error)
    = Ok run_listed_twice /\
  sheet_No_Report_List run_listed_twice = [JStr "net_1"] /\
  filter is_GetReportList (calls (final run_listed_twice))
    = [GetReportList (JStr "net_1"); GetReportList (JStr "net_1")] /\
  exits run_listed_twice = [Row_appended; In_ZeroReportList].
Proof. repeat split; vm_compute; reflexivity. Qed.

(** C7 (amended): when the report listing of a job comes back empty, the
    comment becomes the 'no morning report' text and the job id is
    appended to [ZeroReportList], unless the id is already there: the
    iteration then ends without a row.  The listing is requested in both
    cases, as the membership test comes after the call.  At the end of a
    run no id stands twice in the list. *)
Theorem zero_report_job_listed_once :
  forall py_str : json -> string,
    (forall (well : json) (net : Responses) (lv : Locals) (g : Globals),
        fst (getReports JNone net.(report_list_http)) = [] ->
        daily_report py_str well net lv g =
        let g1 := MR_Report_Ids_append (well, [])
                    (record_call (GetReportList well) g) in
        if py_in well (ZeroReportList g)
        then (Ok (inl In_ZeroReportList), g1)
        else (Ok (inr (set_comment (JStr "no morning report") lv)),
              ZeroReportList_append well g1)) /\
    (forall (RAE_Rigs : list string) (jobs_http : HttpResult * HttpResult)
            (net : nat -> Responses) (run : Run),
        main_loop py_str RAE_Rigs jobs_http net = Ok run ->
        no_repeat (sheet_No_Report_List run)).
Proof.
  intros py_str. split.
  - intros well0 net lv g Hr. unfold daily_report. rewrite Hr.
    unfold mbind, modify, gets, ret. simpl.
    destruct (py_in well0 (ZeroReportList g)); reflexivity.
  - intros rigs http net run H.
    pose proof (main_run _ _ _ _ _ H) as (_ & _ & Hf & _ & _ & _ & Hz).
    rewrite Hz.
    apply (for_each_job_no_repeat _ _ _ _ _ _ _ _ Hf).
    exact no_repeat_nil.
Qed.

Lemma zero_report_job_listed_once_witness :
  no_repeat (sheet_No_Report_List run_listed_twice).
Proof.
  apply (proj2 (zero_report_job_listed_once str) ["Rig 9"]
           (listing [job "net_1" "Acme" "Rig 9"; job "net_1" "Acme" "Rig 9"])
           (fun _ => hookload_job "net_1" no_reports server_error)
           run_listed_twice).
  vm_compute. reflexivity.
Defined.

(** ** C8: the exception handler around the loop *)

(** When an iteration raises, the loop ends there: the iterations
    before it completed, nothing is started for the jobs after it, and
    the rows from which the frame of 'RAE Report' is made are the rows
    the completed iterations had appended, all of them. *)
Lemma rows_before_exception_reach_the_frame :
  forall (py_str : json -> string) (RAE_Rigs : list string)
         (jobs_http : HttpResult * HttpResult) (net : nat -> Responses)
         (run : Run) (e : exn),
    main_loop py_str RAE_Rigs jobs_http net = Ok run ->
    raised run = Some e ->
    exists before w after g1,
      tmpAllJobs run = (before ++ w :: after)%list /\
      for_each_job py_str before net 0 initial_globals
        = (exits run, None, g1) /\
      List.length (exits run) = List.length before /\
      process_job py_str w (net (List.length before)) g1
        = (Raise e, final run) /\
      (List.length (entered (final run)) <= S (List.length before))%nat /\
      sheet_RAE_Report run = RAEJobs g1 /\
      wellList run = [well (final run)].
Proof.
  intros py_str rigs http net run e H He.
  pose proof (main_run _ _ _ _ _ H) as (_ & _ & Hf & _ & Hs & _).
  assert (Hw : wellList run = [well (final run)]).
  { revert H He. unfold main_loop.
    destruct (build_lookup_table py_str (fst (getJobs http)) []);
      simpl; [| discriminate].
    destruct (for_each_job py_str (fst (getJobs http)) net 0 initial_globals)
      as [[xs ex] g].
    intros [= <-]. simpl. intros ->. reflexivity. }
  rewrite He in Hf.
  pose proof (for_each_job_entered _ _ _ _ _ _ _ _ Hf)
    as (k & ids & Hent & Hids & Hk & Hk' & _).
  apply for_each_job_raised in Hf.
  destruct Hf as (before & w & after & g1 & Hj & Hl & Hb & Hp & Hr).
  exists before, w, after, g1. repeat split; auto.
  - simpl in Hent. rewrite Hent.
    apply Forall2_length in Hids. rewrite <- Hids.
    rewrite length_firstn. lia.
  - rewrite Hs. exact Hr.
Qed.

(** The workbook is written exactly when the loop part returns and at
    least one row and one report comment were collected. *)
Lemma workbook_needs_a_row_and_a_comment :
  forall (py_str : json -> string) (RAE_Rigs : list string)
         (jobs_http : HttpResult * HttpResult) (net : nat -> Responses)
         (run : Run),
    main py_str RAE_Rigs jobs_http net = Ok run <->
    main_loop py_str RAE_Rigs jobs_http net = Ok run /\
    first_column (sheet_RAE_Report run) = Ok tt /\
    first_column (sheet_Report_Comment run) = Ok tt.
Proof.
  intros py_str rigs http net run. rewrite main_outcome.
  destruct (main_loop py_str rigs http net) as [run' | e].
  - destruct (first_column (sheet_RAE_Report run')) as [[] | e1] eqn:E1;
      [destruct (first_column (sheet_Report_Comment run')) as [[] | e2] eqn:E2
      |]; split.
    + intros [= <-]. auto.
    + intros ([= <-] & _). reflexivity.
    + discriminate.
    + intros ([= <-] & _ & H). congruence.
    + discriminate.
    + intros ([= <-] & H & _). congruence.
  - split; [discriminate | intros (H & _); discriminate H].
Qed.

(** C8 (the code departs from the claim): three jobs are listed; the
    first has no report and gets its row, the attribute request of the
    second is answered 500 twice and its iteration raises.  The handler
    ends the loop with the row of the first job in [RAEJobs], but no
    report comment was collected: after the handler, outside the [try],
    the frame of 'Report_Comment' has no column, [df.columns[0]] raises
    [IndexError], and the process dies before the workbook is closed and
    mailed.  The accumulated row is lost. *)
Theorem accumulated_row_is_lost :
  main_loop str ["Rig"] (listing three_jobs) attributes_down
    = Ok run_attributes_down /\
  raised run_attributes_down = Some IndexError /\
  exits run_attributes_down = [Row_appended] /\
  List.length (sheet_RAE_Report run_attributes_down) = 1%nat /\
  first_column (sheet_RAE_Report run_attributes_down) = Ok tt /\
  sheet_Report_Comment run_attributes_down = [] /\
  first_column (sheet_Report_Comment run_attributes_down)
    = Raise IndexError /\
  write_sheets run_attributes_down = Raise IndexError /\
  main str ["Rig"] (listing three_jobs) attributes_down = Raise IndexError.
Proof. repeat split; vm_compute; reflexivity. Qed.

(** ** C10: a listed report whose content comes back empty *)

(** C10: when the content of a listed report was requested in an
    iteration and the wrapper returned the empty list, the job is put on
    [ZeroReportList], the rendered content ['[]'] holds none of the five
    markers, the fallback branch evaluates [report[0]] and raises
    [IndexError]; no row is appended for the job and the exception ends
    the loop. *)
Theorem empty_report_content_raises :
  forall (py_str : json -> string) (w : json) (net : Responses)
         (g g' : Globals) (r : res exit) (cs : list call)
         (id reportId : json),
    py_str (JList []) = "[]" ->
    process_job py_str w net g = (r, g') ->
    calls g' = (calls g ++ cs)%list ->
    In (GetReportContent id reportId) cs ->
    fst (getReports reportId net.(report_content_http)) = [] ->
    field w "id" = Ok id /\
    dispatch (py_str (JList (fst (getReports reportId
                                    net.(report_content_http)))))
      = Unrecognized /\
    first_report (JList (fst (getReports reportId net.(report_content_http))))
      = Raise IndexError /\
    r = Raise IndexError /\
    RAEJobs g' = RAEJobs g /\
    ZeroReportList g' = (ZeroReportList g ++ [id])%list /\
    (forall rest i, for_each_job py_str (w :: rest) (fun _ => net) i g
                    = ([], Some IndexError, g')).
Proof.
  intros py_str w net g g' r cs id rid Hstr H Hcalls Hin Hc.
  pose proof (process_job_empty_content _ _ _ _ _ _ H _ _ _ Hcalls Hin Hc)
    as (Hid & Hr & Hrows & Hz & _).
  rewrite Hc, Hstr. repeat split; auto.
  intros rest i. rewrite for_each_job_cons, H, Hr. reflexivity.
Qed.

Lemma empty_report_content_raises_witness :
  field (job "net_1" "Acme" "Rig 9") "id" = Ok (JStr "net_1") /\
  dispatch (str (JList (fst (getReports (JInt 7) server_error))))
    = Unrecognized /\
  first_report (JList (fst (getReports (JInt 7) server_error)))
    = Raise IndexError /\
  Raise IndexError = Raise IndexError :> res exit /\
  RAEJobs (final run_content_down) = RAEJobs initial_globals /\
  ZeroReportList (final run_content_down)
    = (ZeroReportList initial_globals ++ [JStr "net_1"])%list /\
  (forall rest i,
      for_each_job str (job "net_1" "Acme" "Rig 9" :: rest)
        (fun _ => hookload_job "net_1" one_report server_error) i
        initial_globals
      = ([], Some IndexError, final run_content_down)).
Proof.
  apply (empty_report_content_raises str (job "net_1" "Acme" "Rig 9")
           (hookload_job "net_1" one_report server_error)
           initial_globals (final run_content_down) (Raise IndexError)
           (calls (final run_content_down)) (JStr "net_1") (JInt 7)).
  - reflexivity.
  - vm_compute. reflexivity.
  - reflexivity.
  - vm_compute. auto 10.
  - reflexivity.
Defined.

(** ** C4: a per-job request whose retries are exhausted *)

(** Two answers other than 200 leave the wrapper with the empty list. *)
Lemma getApiCall_exhausted (s1 s2 : Z) (b1 b2 : option json) :
  s1 <> 200 -> s2 <> 200 ->
  fst (getApiCall (Response s1 b1, Response s2 b2)) = [].
Proof.
  intros H1 H2. unfold getApiCall, call_once_more.
  apply Z.eqb_neq in H1. apply Z.eqb_neq in H2.
  rewrite H1, retry_cond_or_400_value, H2. reflexivity.
Qed.

(** C4 (the code departs from the claim): three jobs are listed and the
    attribute request of the second is answered 500 twice.  The wrapper
    returns the empty list, [q[0]] raises [IndexError], and the handler
    around the loop ends the run: the second job has no row, not even
    one with default values, and the third job is never started. *)
Theorem exhausted_attribute_request_ends_the_loop :
  main_loop str ["Rig"] (listing three_jobs) attributes_down
    = Ok run_attributes_down /\
  fst (getApiCall (attributes_http (attributes_down 1))) = [] /\
  raised run_attributes_down = Some IndexError /\
  wellList run_attributes_down = [JStr "net_2"] /\
  exits run_attributes_down = [Row_appended] /\
  List.length (sheet_RAE_Report run_attributes_down) = 1%nat /\
  entered (final run_attributes_down) = [JStr "net_1"; JStr "net_2"].
Proof. repeat split; vm_compute; reflexivity. Qed.

(** ** C6: a payload with one marker *)


(* ================================================================= *)
(** * Further properties of the code *)

(** ** The classifier on the dictionary of a snapshot *)

(** X1: on the dictionary built from a historical answer, each of the
    twelve channels guarded by [isinstance(v, float) or isinstance(v,
    int)] gets OK for a value above zero, WARN for a value equal to zero
    and MISSING for any other value, negative numbers, [NaN], strings
    and [None] included. *)
Theorem snapshot_channels_follow_the_rule :
  forall (attributes : list json) (values : json) (m : list (string * json)),
    map_attributes attributes values 0 [] = Ok m ->
    Forall (fun c => forall v, assoc (fst c) m = Some v ->
                               snd c (classify m fresh_locals) = presence v)
           float_or_int_channels.
Proof.
  intros attributes values m H.
  apply twelve_channels_follow_the_rule.
  eapply map_attributes_keys; [| exact H]. constructor.
Qed.

Lemma snapshot_channels_follow_the_rule_witness :
  Forall (fun c => forall v,
              assoc (fst c) [("HookLoad", JFloat five)] = Some v ->
              snd c (classify [("HookLoad", JFloat five)] fresh_locals)
              = presence v)
         float_or_int_channels.
Proof.
  apply (snapshot_channels_follow_the_rule
           [JDict [("id", JStr "HookLoad")]]
           (JList [JList [JStr "2024-01-10T06:06:17"; JFloat five]])).
  reflexivity.
Defined.

(** X2: the bit status and the slip status are compared with 0, 1 (and
    2) without any test of the type: whatever equals 0 gives 'On'
    (resp. 'Resetting'), whatever equals 1 gives 'Off' (resp. 'in'), 2
    gives 'out', and every other value gives the code 0. *)
Theorem bit_and_slip_status_rule :
  forall (attributes : list json) (values : json) (m : list (string * json))
         (v : json),
    map_attributes attributes values 0 [] = Ok m ->
    (assoc "BitStatus" m = Some v ->
     BitStatusbool (classify m fresh_locals) =
       if eq_int v 0 then JStr "On"
       else if eq_int v 1 then JStr "Off" else JInt 0) /\
    (assoc "SlipStatus" m = Some v ->
     SlipStatusbool (classify m fresh_locals) =
       if eq_int v 0 then JStr "Resetting"
       else if eq_int v 1 then JStr "in"
       else if eq_int v 2 then JStr "out" else JInt 0).
Proof.
  intros attributes values m v H.
  assert (Hnd : NoDup (map fst m))
    by (eapply map_attributes_keys; [| exact H]; constructor).
  split; intros Hv.
  - rewrite (classify_channel BitStatusbool "BitStatus"
               (fun v _ => bit_status v)
               ltac:(other_keys) ltac:(reflexivity) m _ Hnd).
    rewrite Hv. reflexivity.
  - rewrite (classify_channel SlipStatusbool "SlipStatus"
               (fun v _ => slip_status v)
               ltac:(other_keys) ltac:(reflexivity) m _ Hnd).
    rewrite Hv. reflexivity.
Qed.

Lemma bit_and_slip_status_rule_witness :
  (assoc "BitStatus" [("BitStatus", JBool true)] = Some (JBool true) ->
   BitStatusbool (classify [("BitStatus", JBool true)] fresh_locals) =
     if eq_int (JBool true) 0 then JStr "On"
     else if eq_int (JBool true) 1 then JStr "Off" else JInt 0) /\
  (assoc "SlipStatus" [("BitStatus", JBool true)] = Some (JBool true) ->
   SlipStatusbool (classify [("BitStatus", JBool true)] fresh_locals) =
     if eq_int (JBool true) 0 then JStr "Resetting"
     else if eq_int (JBool true) 1 then JStr "in"
     else if eq_int (JBool true) 2 then JStr "out" else JInt 0).
Proof.
  apply (bit_and_slip_status_rule
           [JDict [("id", JStr "BitStatus")]]
           (JList [JList [JStr "2024-01-10T06:06:17"; JBool true]])).
  reflexivity.
Defined.

(** X3: a channel whose key is not in the dictionary keeps the value
    its variable started from: the code 0 for the thirteen status
    variables, the bit status and the slip status, the empty string for
    the three IADC values. *)
Theorem absent_channels_keep_their_default :
  forall (attributes : list json) (values : json) (m : list (string * json)),
    map_attributes attributes values 0 [] = Ok m ->
    Forall (fun c => assoc (fst c) m = None ->
                     snd c (classify m fresh_locals) = emoji_x)
           status_channels /\
    Forall (fun c => assoc (fst (fst c)) m = None ->
                     snd (fst c) (classify m fresh_locals) = snd c)
           value_channels.
Proof.
  intros attributes values m H.
  assert (Hnd : NoDup (map fst m))
    by (eapply map_attributes_keys; [| exact H]; constructor).
  split.
  - unfold status_channels, float_or_int_channels.
    repeat (apply Forall_cons; [simpl; intros Hv |]); [.. | apply Forall_nil].
    all: match goal with
         | Hn : assoc ?name ?mm = None |- ?get (classify ?mm fresh_locals) = _ =>
             first
               [ rewrite (classify_channel get name float_or_int_zero_first
                            ltac:(other_keys) ltac:(reflexivity) mm _ Hnd)
               | rewrite (classify_channel get name
                            float_or_int_positive_first
                            ltac:(other_keys) ltac:(reflexivity) mm _ Hnd)
               | rewrite (classify_channel get name int_positive_first
                            ltac:(other_keys) ltac:(reflexivity) mm _ Hnd) ];
             rewrite Hn; reflexivity
         end.
  - unfold value_channels.
    repeat (apply Forall_cons; [simpl; intros Hv |]); [.. | apply Forall_nil].
    all: match goal with
         | Hn : assoc ?name ?mm = None |- ?get (classify ?mm fresh_locals) = _ =>
             first
               [ rewrite (classify_channel get name (fun v _ => bit_status v)
                            ltac:(other_keys) ltac:(reflexivity) mm _ Hnd)
               | rewrite (classify_channel get name (fun v _ => slip_status v)
                            ltac:(other_keys) ltac:(reflexivity) mm _ Hnd)
               | rewrite (classify_channel get name (fun v _ => v)
                            ltac:(other_keys) ltac:(reflexivity) mm _ Hnd) ];
             rewrite Hn; reflexivity
         end.
Qed.

Lemma absent_channels_keep_their_default_witness :
  Forall (fun c => assoc (fst c) [("HookLoad", JFloat five)] = None ->
                   snd c (classify [("HookLoad", JFloat five)] fresh_locals)
                   = emoji_x)
         status_channels /\
  Forall (fun c => assoc (fst (fst c)) [("HookLoad", JFloat five)] = None ->
                   snd (fst c) (classify [("HookLoad", JFloat five)]
                                  fresh_locals) = snd c)
         value_channels.
Proof.
  apply (absent_channels_keep_their_default
           [JDict [("id", JStr "HookLoad")]]
           (JList [JList [JStr "2024-01-10T06:06:17"; JFloat five]])).
  reflexivity.
Defined.

(** X4: the three IADC rig-activity values reach their variable as they
    are, whatever their type: no test and no conversion is applied. *)
Theorem iadc_values_pass_through :
  forall (attributes : list json) (values : json) (m : list (string * json)),
    map_attributes attributes values 0 [] = Ok m ->
    (forall v, assoc "IadcRigActivity" m = Some v ->
               Iadc_Rig_val (classify m fresh_locals) = v) /\
    (forall v, assoc "IadcRigActivity2" m = Some v ->
               Iadc2_Rig_val (classify m fresh_locals) = v) /\
    (forall v, assoc "RigActivity" m = Some v ->
               Iadc3_Rig_val (classify m fresh_locals) = v).
Proof.
  intros attributes values m H.
  assert (Hnd : NoDup (map fst m))
    by (eapply map_attributes_keys; [| exact H]; constructor).
  repeat split; intros v Hv.
  - rewrite (classify_channel Iadc_Rig_val "IadcRigActivity" (fun v _ => v)
               ltac:(other_keys) ltac:(reflexivity) m _ Hnd).
    now rewrite Hv.
  - rewrite (classify_channel Iadc2_Rig_val "IadcRigActivity2"
               (fun v _ => v)
               ltac:(other_keys) ltac:(reflexivity) m _ Hnd).
    now rewrite Hv.
  - rewrite (classify_channel Iadc3_Rig_val "RigActivity" (fun v _ => v)
               ltac:(other_keys) ltac:(reflexivity) m _ Hnd).
    now rewrite Hv.
Qed.

Lemma iadc_values_pass_through_witness :
  (forall v, assoc "IadcRigActivity" [("IadcRigActivity", JInt 2)] = Some v ->
             Iadc_Rig_val (classify [("IadcRigActivity", JInt 2)] fresh_locals)
             = v) /\
  (forall v, assoc "IadcRigActivity2" [("IadcRigActivity", JInt 2)] = Some v ->
             Iadc2_Rig_val (classify [("IadcRigActivity", JInt 2)] fresh_locals)
             = v) /\
  (forall v, assoc "RigActivity" [("IadcRigActivity", JInt 2)] = Some v ->
             Iadc3_Rig_val (classify [("IadcRigActivity", JInt 2)] fresh_locals)
             = v).
Proof.
  apply (iadc_values_pass_through
           [JDict [("id", JStr "IadcRigActivity")]]
           (JList [JList [JStr "2024-01-10T06:06:17"; JInt 2]])).
  reflexivity.
Defined.

(** ** Attribute selection and the dictionary of the snapshot *)



Lemma assoc_dict_set_same (k : string) (v : json) (d : list (string * json)) :
  assoc k (dict_set k v d) = Some v.
Proof.
  induction d as [| [k0 v0] d IH]; simpl.
  - now rewrite String.eqb_refl.
  - destruct (String.eqb k k0) eqn:E; simpl; rewrite E; auto.
Qed.

Lemma assoc_dict_set_other (k k' : string) (v : json)
    (d : list (string * json)) :
  k' <> k -> assoc k' (dict_set k v d) = assoc k' d.
Proof.
  intros Hne. induction d as [| [k0 v0] d IH]; simpl.
  - apply String.eqb_neq in Hne. now rewrite Hne.
  - destruct (String.eqb k k0) eqn:E; simpl.
    + apply String.eqb_eq in E. subst k0.
      apply String.eqb_neq in Hne. now rewrite Hne.
    + destruct (String.eqb k' k0); auto.
Qed.

Lemma map_attributes_other_key (k : string) (values : json) :
  forall attributes i m0 m,
    map_attributes attributes values i m0 = Ok m ->
    (forall a, In a attributes -> field a "id" <> Ok (JStr k)) ->
    assoc k m = assoc k m0.
Proof.
  induction attributes as [| a rest IH]; intros i m0 m H Hno; simpl in H.
  - now injection H as <-.
  - bind_cases H.
    apply IH in H; [| intros a' Ha'; apply Hno; now right].
    rewrite H.
    match goal with
    | Hs : mapping_store ?id _ _ = Ok _, Hi : field a "id" = Ok ?id |- _ =>
        destruct id; simpl in Hs; try discriminate Hs;
          injection Hs as <-; try reflexivity;
          apply assoc_dict_set_other; intros ->;
          apply (Hno a); [now left | exact Hi]
    end.
Qed.

(** X6: the dictionary pairs the i-th attribute of the answer with the
    second component of the i-th value of the first time record: under
    an attribute id it holds the value at the last position where that id
    occurs.  The loop completes only if there are at least as many values
    as attributes. *)
Theorem snapshot_is_positional :
  forall (attributes vs : list json) (m : list (string * json)),
    map_attributes attributes (JList vs) 0 [] = Ok m ->
    (List.length attributes <= List.length vs)%nat /\
    (forall (i : nat) (a : json) (k : string),
        nth_error attributes i = Some a ->
        field a "id" = Ok (JStr k) ->
        (forall j a', (i < j)%nat -> nth_error attributes j = Some a' ->
                      field a' "id" <> Ok (JStr k)) ->
        exists pair v,
          nth_error vs i = Some pair /\ item pair 1 = Ok v /\
          assoc k m = Some v).
Proof.
  intros attributes vs.
  assert (G : forall attributes i0 m0 m,
             map_attributes attributes (JList vs) i0 m0 = Ok m ->
             (attributes = [] \/
              i0 + List.length attributes <= List.length vs)%nat /\
             (forall (i : nat) (a : json) (k : string),
                 nth_error attributes i = Some a ->
                 field a "id" = Ok (JStr k) ->
                 (forall j a', (i < j)%nat ->
                               nth_error attributes j = Some a' ->
                               field a' "id" <> Ok (JStr k)) ->
                 exists pair v,
                   nth_error vs (i0 + i) = Some pair /\ item pair 1 = Ok v /\
                   assoc k m = Some v)).
  { clear attributes.
    induction attributes as [| a rest IH]; intros i0 m0 m H.
    - split; [now left |]. intros [| i] ? ? Hn; discriminate Hn.
    - cbn [map_attributes] in H.
      destruct (field a "id") as [attribute_id |] eqn:Hid;
        [| discriminate H]. simpl in H.
      destruct (nth_error vs i0) as [pair |] eqn:Hp; [| discriminate H].
      simpl in H.
      destruct (item pair 1) as [value |] eqn:Hv; [| discriminate H].
      simpl in H.
      destruct (mapping_store attribute_id value m0) as [m1 |] eqn:Hs;
        [| discriminate H]. simpl in H.
      pose proof (IH _ _ _ H) as [Hlen Hpos]. split.
      + right. simpl.
        assert (i0 < List.length vs)%nat
          by (apply nth_error_Some; congruence).
        destruct Hlen as [-> | Hlen]; simpl; lia.
      + intros [| i] a' k Hn Hk Hlast.
        * injection Hn as <-. rewrite Hid in Hk. injection Hk as ->.
          simpl in Hs. injection Hs as <-.
          exists pair, value. rewrite Nat.add_0_r. repeat split; auto.
          rewrite (map_attributes_other_key k _ _ _ _ _ H).
          -- apply assoc_dict_set_same.
          -- intros a' Ha'. apply In_nth_error in Ha'.
             destruct Ha' as [j Hj].
             apply (Hlast (S j)); [lia | exact Hj].
        * simpl in Hn.
          destruct (Hpos i a' k Hn Hk) as (p & v & H1 & H2 & H3).
          -- intros j a'' Hij Hj. apply (Hlast (S j)); [lia | exact Hj].
          -- exists p, v. replace (i0 + S i)%nat with (S i0 + i)%nat by lia.
             auto. }
  intros m H. destruct (G attributes 0%nat [] m H) as [Hlen Hpos].
  split; [destruct Hlen as [-> | Hlen]; simpl; lia | exact Hpos].
Qed.

Lemma snapshot_is_positional_witness :
  (List.length [JDict [("id", JStr "HookLoad")];
                JDict [("id", JStr "PumpSpm")]]
   <= List.length [JList [JStr "06:06:17"; JFloat five];
                   JList [JStr "06:06:17"; JInt 0]])%nat /\
  (forall (i : nat) (a : json) (k : string),
      nth_error [JDict [("id", JStr "HookLoad")];
                 JDict [("id", JStr "PumpSpm")]] i = Some a ->
      field a "id" = Ok (JStr k) ->
      (forall j a', (i < j)%nat ->
                    nth_error [JDict [("id", JStr "HookLoad")];
                               JDict [("id", JStr "PumpSpm")]] j = Some a' ->
                    field a' "id" <> Ok (JStr k)) ->
      exists pair v,
        nth_error [JList [JStr "06:06:17"; JFloat five];
                   JList [JStr "06:06:17"; JInt 0]] i = Some pair /\
        item pair 1 = Ok v /\
        assoc k [("HookLoad", JFloat five); ("PumpSpm", JInt 0)] = Some v).
Proof.
  apply (snapshot_is_positional
           [JDict [("id", JStr "HookLoad")]; JDict [("id", JStr "PumpSpm")]]
           [JList [JStr "06:06:17"; JFloat five];
            JList [JStr "06:06:17"; JInt 0]]).
  reflexivity.
Defined.

(** ** Iterations that end early *)

(** The calls an iteration added, once its state is known. *)
Ltac new_calls Hcalls :=
  unfold same_lists in *; simpl in *;
  repeat match goal with
         | Hx : _ /\ _ |- _ => destruct Hx
         end;
  try match goal with
      | Hx : calls ?x = (_ ++ [_])%list |- _ => rewrite Hx in Hcalls
      end;
  repeat rewrite <- app_assoc in Hcalls; simpl in Hcalls;
  try match type of Hcalls with
      | ?l = (?l ++ _)%list => rewrite <- (app_nil_r l) in Hcalls at 1
      end;
  apply app_inv_head in Hcalls.

Ltac in_calls Hin :=
  simpl in Hin;
  repeat match type of Hin with
         | _ \/ _ => destruct Hin as [Hin | Hin]
         | False => contradiction
         | _ = _ => first [discriminate Hin | injection Hin; intros; subst]
         end.

(** X7: when the selection of an iteration is empty, or the historical
    answer holds no time record, the iteration asks for the job and
    appends its row with the variables as they were reset at the top of
    the iteration (every status 0, comments 'NA', no report id or date),
    each under its title; it makes no report request, and with an empty
    selection no historical request either. *)
Theorem no_data_gives_the_default_row :
  forall (py_str : json -> string) (w : json) (net : Responses)
         (g g' : Globals) (r : res exit) (cs : list call) (id : json),
    process_job py_str w net g = (r, g') ->
    calls g' = (calls g ++ cs)%list ->
    In (GetAttributes id) cs ->
    selection py_str net = Ok [] \/
    (exists atts, selection py_str net = Ok atts /\ atts <> [] /\
                  time_records net = Ok 0%nat) ->
    (forall c, In c cs -> is_GetReportList c = false) /\
    (selection py_str net = Ok [] ->
     cs = [GetCapabilities id; GetAttributes id; GetJob id]) /\
    match make_holder py_str (JList (fst (getJobs_by_id net.(job_http))))
            fresh_locals with
    | Ok holder =>
        r = Ok Row_appended /\ RAEJobs g' = (RAEJobs g ++ [holder])%list /\
        row_of py_str (JList (fst (getJobs_by_id net.(job_http))))
          fresh_locals holder
    | Raise e => r = Raise e /\ RAEJobs g' = RAEJobs g
    end.
Proof.
  intros py_str w net g g' r cs id H Hcalls Hin Hcase.
  assert (Hold :
    (forall c, In c cs -> is_GetReportList c = false) /\
    (selection py_str net = Ok [] ->
     cs = [GetCapabilities id; GetAttributes id; GetJob id]) /\
    match make_holder py_str (JList (fst (getJobs_by_id net.(job_http))))
            fresh_locals with
    | Ok holder =>
        r = Ok Row_appended /\ RAEJobs g' = (RAEJobs g ++ [holder])%list
    | Raise e => r = Raise e /\ RAEJobs g' = RAEJobs g
    end).
  { unfold selection, time_records in Hcase.
    run_job H; new_calls Hcalls; subst cs; in_calls Hin.
    all: destruct Hcase as [Hsel | (atts & Hsel & Hne & Htime)].
    all: try congruence.
    all: try match goal with
             | Ha : ?x = Ok ?l, Hb : ?x = Ok [] |- _ =>
                 rewrite Ha in Hb; injection Hb; intros; subst
             end.
    all: try match goal with
             | Ha : ?x = Ok ?l, Hb : ?x = Ok ?l', Hc : ?l' <> [] |- _ =>
                 rewrite Ha in Hb; injection Hb; intros; subst
             end.
    all: simpl in *; try discriminate; try congruence.
    all: try match goal with
             | Ha : ?x = Ok (S _), Hb : ?x = Ok 0%nat |- _ =>
                 rewrite Ha in Hb; discriminate Hb
             | Ha : ?x = Ok ?n, Hb : ?x = Ok 0%nat,
               Hc : (?n =? 0)%nat = false |- _ =>
                 rewrite Ha in Hb; injection Hb; intros; subst;
                 discriminate Hc
             end.
    all: try match goal with
             | Hn : ?l <> [], Hl : (Datatypes.length ?l =? 0)%nat = true
               |- _ =>
                 destruct l; [contradiction | discriminate Hl]
             end.
    all: repeat split; auto.
    all: try (intros c Hc;
              repeat (destruct Hc as [Hc | Hc]; [subst c; reflexivity |]);
              contradiction).
    all: intros Hs; unfold selection in Hs; simpl in Hs; congruence. }
  destruct Hold as (Hno & Hcs & Hrow).
  split; [exact Hno | split; [exact Hcs |]].
  destruct (make_holder py_str (JList (fst (getJobs_by_id (job_http net))))
              fresh_locals) as [holder | e] eqn:Hh; [| exact Hrow].
  destruct Hrow as [Hr Hrows]. repeat split; auto.
  apply make_holder_row_of, Hh.
Qed.

Lemma no_data_gives_the_default_row_witness :
  (forall c, In c (calls (snd iteration_idle)) -> is_GetReportList c = false) /\
  (selection str (idle_job "net_1") = Ok [] ->
   calls (snd iteration_idle)
   = [GetCapabilities (JStr "net_1"); GetAttributes (JStr "net_1");
      GetJob (JStr "net_1")]) /\
  match make_holder str
          (JList (fst (getJobs_by_id (job_http (idle_job "net_1")))))
          fresh_locals with
  | Ok holder =>
      fst iteration_idle = Ok Row_appended /\
      RAEJobs (snd iteration_idle)
      = (RAEJobs initial_globals ++ [holder])%list /\
      row_of str (JList (fst (getJobs_by_id (job_http (idle_job "net_1")))))
        fresh_locals holder
  | Raise e =>
      fst iteration_idle = Raise e /\
      RAEJobs (snd iteration_idle) = RAEJobs initial_globals
  end.
Proof.
  apply (no_data_gives_the_default_row str (job "net_1" "Acme" "Rig 9")
           (idle_job "net_1") initial_globals (snd iteration_idle)
           (fst iteration_idle) (calls (snd iteration_idle)) (JStr "net_1")).
  - vm_compute. reflexivity.
  - reflexivity.
  - vm_compute. auto.
  - left. vm_compute. reflexivity.
Defined.

(** X8: the row of a job is built from a fresh lookup of the job; when
    that lookup comes back empty, [job[0]] raises [IndexError], and the
    iteration ends without a row whatever the channels and the report
    gave. *)
Theorem failed_job_lookup_loses_the_row :
  forall (py_str : json -> string) (w : json) (net : Responses)
         (g g' : Globals) (r : res exit) (cs : list call) (id : json),
    process_job py_str w net g = (r, g') ->
    calls g' = (calls g ++ cs)%list ->
    In (GetJob id) cs ->
    fst (getJobs_by_id net.(job_http)) = [] ->
    r = Raise IndexError /\ RAEJobs g' = RAEJobs g /\
    (forall rest i, for_each_job py_str (w :: rest) (fun _ => net) i g
                    = ([], Some IndexError, g')).
Proof.
  intros py_str w net g g' r cs id H Hcalls Hin Hjob.
  assert (Hr : r = Raise IndexError /\ RAEJobs g' = RAEJobs g).
  { pose proof H as H'.
    run_job H'; new_calls Hcalls; subst cs.
    all: try (exfalso; in_calls Hin; fail).
    all: match goal with
         | Hh : make_holder _ _ _ = _ |- _ =>
             rewrite Hjob in Hh; unfold make_holder in Hh; simpl in Hh;
             split_pair Hh
         end.
    all: split; [reflexivity | try reflexivity; congruence]. }
  destruct Hr as [-> Hrows]. repeat split; auto.
  intros rest i. rewrite for_each_job_cons, H. reflexivity.
Qed.

Lemma failed_job_lookup_loses_the_row_witness :
  fst iteration_lookup_down = Raise IndexError /\
  RAEJobs (snd iteration_lookup_down) = RAEJobs initial_globals /\
  (forall rest i,
      for_each_job str (job "net_1" "Acme" "Rig 9" :: rest)
        (fun _ => lookup_down) i initial_globals
      = ([], Some IndexError, snd iteration_lookup_down)).
Proof.
  apply (failed_job_lookup_loses_the_row str (job "net_1" "Acme" "Rig 9")
           lookup_down initial_globals (snd iteration_lookup_down)
           (fst iteration_lookup_down)
           (calls (snd iteration_lookup_down)) (JStr "net_1")).
  - vm_compute. reflexivity.
  - reflexivity.
  - vm_compute. auto.
  - vm_compute. reflexivity.
Defined.

(** ** The historical-data call *)

(** X9: [historical_data_time] returns the decoded body of the first of
    its attempts, among the first [budget] ones, whose request and
    decoding do not raise, whatever the status code of that answer; it
    returns [None] when there is none. *)
Theorem historical_data_time_first_decoded :
  forall (attempts : list HttpResult) (budget : nat),
    historical_data_time attempts budget =
    match find decoded (firstn budget attempts) with
    | Some (Response _ (Some values)) => values
    | _ => JNone
    end.
Proof.
  induction attempts as [| a rest IH]; intros budget.
  - destruct budget; reflexivity.
  - destruct budget as [| n]; [reflexivity |].
    destruct a as [s [v |] |]; simpl; try reflexivity; apply IH.
Qed.

Lemma historical_data_time_none (attempts : list HttpResult) (budget : nat) :
  forallb (fun a => negb (decoded a)) (firstn budget attempts) = true ->
  historical_data_time attempts budget = JNone.
Proof.
  revert budget. induction attempts as [| a rest IH]; intros budget H.
  - destruct budget; reflexivity.
  - destruct budget as [| n]; [reflexivity |].
    simpl in H. apply andb_prop in H. destruct H as [Ha Hrest].
    destruct a as [s [v |] |]; simpl in *; try discriminate; apply IH, Hrest.
Qed.

(** X10: when none of the first three attempts of the historical
    request of an iteration yields a value, the iteration has no snapshot
    to read: [hist['timeRecords']] raises [TypeError] on [None], no row is
    appended, the pair of the job and [None] is left on the time-based
    list, and the loop ends there. *)
Theorem missing_snapshot_ends_the_loop :
  forall (py_str : json -> string) (w : json) (net : Responses)
         (g g' : Globals) (r : res exit) (cs : list call)
         (id : json) (atts : list json),
    process_job py_str w net g = (r, g') ->
    calls g' = (calls g ++ cs)%list ->
    In (PostHistorical id atts) cs ->
    forallb (fun a => negb (decoded a)) (firstn 3 net.(historical_http))
      = true ->
    r = Raise TypeError /\ RAEJobs g' = RAEJobs g /\
    jobsTimeBased g' = (jobsTimeBased g ++ [(id, JNone)])%list /\
    (forall rest i, for_each_job py_str (w :: rest) (fun _ => net) i g
                    = ([], Some TypeError, g')).
Proof.
  intros py_str w net g g' r cs id atts H Hcalls Hin Hnone.
  apply historical_data_time_none in Hnone.
  assert (Hr : r = Raise TypeError /\ RAEJobs g' = RAEJobs g /\
               jobsTimeBased g' = (jobsTimeBased g ++ [(id, JNone)])%list).
  { pose proof H as H'.
    run_job H'; new_calls Hcalls; subst cs.
    all: try (exfalso; in_calls Hin; fail).
    all: in_calls Hin.
    all: rewrite Hnone in *; simpl in *; try discriminate.
    all: repeat match goal with
                | Hx : Raise _ = Raise _ |- _ =>
                    injection Hx; intros; subst; clear Hx
                end.
    all: repeat split; congruence. }
  destruct Hr as (-> & Hrows & Ht). repeat split; auto.
  intros rest i. rewrite for_each_job_cons, H. reflexivity.
Qed.

Lemma missing_snapshot_ends_the_loop_witness :
  fst iteration_snapshot_down = Raise TypeError /\
  RAEJobs (snd iteration_snapshot_down) = RAEJobs initial_globals /\
  jobsTimeBased (snd iteration_snapshot_down)
  = (jobsTimeBased initial_globals ++ [(JStr "net_1", JNone)])%list /\
  (forall rest i,
      for_each_job str (job "net_1" "Acme" "Rig 9" :: rest)
        (fun _ => snapshot_down) i initial_globals
      = ([], Some TypeError, snd iteration_snapshot_down)).
Proof.
  apply (missing_snapshot_ends_the_loop str (job "net_1" "Acme" "Rig 9")
           snapshot_down initial_globals (snd iteration_snapshot_down)
           (fst iteration_snapshot_down)
           (calls (snd iteration_snapshot_down)) (JStr "net_1")
           [JStr "HookLoad"]).
  - vm_compute. reflexivity.
  - reflexivity.
  - vm_compute. auto.
  - reflexivity.
Defined.

(** ** The row of a job with a report *)

Lemma same_channels_refl (a : Locals) : same_channels a a.
Proof. split; reflexivity. Qed.

Lemma same_channels_trans (a b c : Locals) :
  same_channels a b -> same_channels b c -> same_channels a c.
Proof.
  intros [H1 H2] [H3 H4]. split; intros x Hx.
  - rewrite (H1 x Hx). apply H3, Hx.
  - rewrite (H2 x Hx). apply H4, Hx.
Qed.

Ltac channel_by_channel :=
  split; intros c Hc; simpl in Hc;
  repeat (destruct Hc as [<- | Hc]; [reflexivity |]); contradiction.

Lemma set_comment_channels (x : json) (lv : Locals) :
  same_channels (set_comment x lv) lv.
Proof. channel_by_channel. Qed.

(** The branch of a schema writes the report fields only. *)
Lemma extract_channels (py_str : json -> string) (s : schema)
    (well r report : json) (lv lv' : Locals) (g g' : Globals) :
  extract py_str s well r report lv g = (Ok lv', g') ->
  same_channels lv' lv.
Proof.
  intros H. destruct s; unfold extract in H; repeat run_any.
  all: channel_by_channel.
Qed.

(** The variables of a row and the classifier's result on the snapshot
    dictionary, for a job whose report stage was reached. *)
Lemma report_stage_keeps_the_channels :
  forall (py_str : json -> string) (w : json) (net : Responses)
         (g g' : Globals) (cs : list call) (id : json),
    process_job py_str w net g = (Ok Row_appended, g') ->
    calls g' = (calls g ++ cs)%list ->
    In (GetReportList id) cs ->
    exists m lv holder,
      mapping net = Ok m /\
      same_channels lv (classify m fresh_locals) /\
      make_holder py_str (JList (fst (getJobs_by_id net.(job_http)))) lv
        = Ok holder /\
      RAEJobs g' = (RAEJobs g ++ [holder])%list.
Proof.
  intros py_str w net g g' cs id H Hcalls Hin.
  unfold mapping.
  unfold process_job, daily_report in H.
  repeat first
    [ run_any
    | match goal with
      | H' : append_row _ _ _ _ _ = _ |- _ => rewrite append_row_run in H'
      | H' : extract _ _ _ _ _ ?l ?g1 = (Ok ?l', ?g2) |- _ =>
          lazymatch goal with
          | _ : same_channels l' l |- _ => fail
          | _ => pose proof (extract_channels _ _ _ _ _ _ _ _ _ H')
          end
      | H' : extract _ _ _ _ _ _ _ = _ |- _ =>
          apply extract_same_lists in H'
      end ].
  all: new_calls Hcalls; subst cs.
  all: try (exfalso; in_calls Hin; fail).
  all: match goal with
       | Hm : _ = Ok ?m, Hh : make_holder _ _ ?lv = Ok ?h |- _ =>
           match type of Hm with
           | context [map_attributes] =>
               exists m, lv, h; split; [exact Hm | split; [| split]]
           end
       end.
  all: try exact Hh.
  all: try congruence.
  all: try apply set_comment_channels.
  all: try apply same_channels_refl.
  all: try assumption.
  all: try (eapply same_channels_trans;
            [eassumption | apply set_comment_channels]).
Qed.

(** X11: in the row of a job whose report stage was reached, the cell
    under each of the thirteen status titles is the status code the
    classifier computed from the snapshot dictionary, and the cell under
    each of the three IADC titles and under 'BitStatus' and 'SlipStatus'
    is the text of the value the classifier left: the report stage
    changes the comment, report id and report date only. *)
Theorem row_channels_come_from_the_snapshot :
  forall (py_str : json -> string) (w : json) (net : Responses)
         (g g' : Globals) (cs : list call) (id : json),
    process_job py_str w net g = (Ok Row_appended, g') ->
    calls g' = (calls g ++ cs)%list ->
    In (GetReportList id) cs ->
    exists m holder,
      mapping net = Ok m /\
      RAEJobs g' = (RAEJobs g ++ [holder])%list /\
      Forall (fun c => assoc_cell (fst c) holder
                       = Some (CInt (snd c (classify m fresh_locals))))
        status_columns /\
      Forall (fun c => assoc_cell (fst c) holder
                       = Some (CStr (py_str (snd c (classify m fresh_locals)))))
        text_columns.
Proof.
  intros py_str w net g g' cs id H Hcalls Hin.
  destruct (report_stage_keeps_the_channels _ _ _ _ _ _ _ H Hcalls Hin)
    as (m & lv & holder & Hm & [Hs Hv] & Hh & Hrows).
  exists m, holder. split; [exact Hm | split; [exact Hrows |]].
  destruct (make_holder_row_of _ _ _ _ Hh)
    as [(owner & name & operator & job_name & _ & _ & _ & _ & _ & Hc) _].
  unfold assoc_cell. rewrite Hc. split.
  - repeat (apply Forall_cons;
            [ cbn; do 2 f_equal;
              match goal with
              | |- ?p _ = ?p _ => refine (Hs (_, p) _)
              end;
              simpl; repeat first [left; reflexivity | right] |]).
    apply Forall_nil.
  - repeat (apply Forall_cons;
            [ cbn; do 3 f_equal;
              match goal with
              | |- ?p _ = ?p _ => refine (Hv (_, p, _) _)
              end;
              simpl; repeat first [left; reflexivity | right] |]).
    apply Forall_nil.
Qed.

Lemma row_channels_come_from_the_snapshot_witness :
  exists m holder,
    mapping iadc_job = Ok m /\
    RAEJobs (snd iteration_iadc) = (RAEJobs initial_globals ++ [holder])%list
    /\
    Forall (fun c => assoc_cell (fst c) holder
                     = Some (CInt (snd c (classify m fresh_locals))))
      status_columns /\
    Forall (fun c => assoc_cell (fst c) holder
                     = Some (CStr (str (snd c (classify m fresh_locals)))))
      text_columns.
Proof.
  apply (row_channels_come_from_the_snapshot str (job "net_1" "Acme" "Rig 9")
           iadc_job initial_globals (snd iteration_iadc)
           (calls (snd iteration_iadc)) (JStr "net_1")).
  - vm_compute. reflexivity.
  - reflexivity.
  - vm_compute. auto.
Defined.

(** ** The lists of a run *)

Lemma for_each_job_listed (py_str : json -> string) (jobs : list json)
    (net : nat -> Responses) :
  forall i g xs ex g',
    for_each_job py_str jobs net i g = (xs, ex, g') ->
    (forall id, In id (ZeroReportList g') ->
                In id (ZeroReportList g) \/
                exists w, In w jobs /\ field w "id" = Ok id) /\
    (forall id text, In (id, text) (processedJobList g') ->
                     In (id, text) (processedJobList g) \/
                     exists w, In w jobs /\ field w "id" = Ok id).
Proof.
  induction jobs as [| w rest IH]; intros i g xs ex g' H.
  - simpl in H. injection H; intros; subst. auto.
  - assert (Hone : forall r g1,
               process_job py_str w (net i) g = (r, g1) ->
               (forall id, In id (ZeroReportList g1) ->
                           In id (ZeroReportList g) \/ field w "id" = Ok id) /\
               (forall id text, In (id, text) (processedJobList g1) ->
                                In (id, text) (processedJobList g) \/
                                field w "id" = Ok id)).
    { intros r g1 Hs. split.
      - apply process_job_ZeroReportList in Hs.
        destruct Hs as [-> | (id' & Hid & _ & ->)]; [auto |].
        intros id Hin. apply in_app_or in Hin.
        destruct Hin as [Hin | [<- | []]]; auto.
      - apply process_job_skips in Hs.
        destruct r as [[| |] | e]; try (rewrite Hs; auto).
        + destruct Hs as (_ & _ & ->). auto.
        + destruct Hs as (id' & text' & Hid & ->).
          intros id text Hin. apply in_app_or in Hin.
          destruct Hin as [Hin | [Heq | []]]; [auto |].
          injection Heq as <- <-. auto. }
    first_iteration H.
    + apply IH in Hrest. destruct Hrest as [Hz Hp].
      destruct (Hone _ _ eq_refl) as [Hz1 Hp1]. split.
      * intros id Hin. destruct (Hz id Hin) as [Hg | (w' & Hw' & Hid)].
        -- destruct (Hz1 id Hg) as [Hg0 | Hid]; [auto |].
           right. exists w. simpl. auto.
        -- right. exists w'. simpl. auto.
      * intros id text Hin.
        destruct (Hp id text Hin) as [Hg | (w' & Hw' & Hid)].
        -- destruct (Hp1 id text Hg) as [Hg0 | Hid]; [auto |].
           right. exists w. simpl. auto.
        -- right. exists w'. simpl. auto.
    + destruct (Hone _ _ eq_refl) as [Hz1 Hp1]. split.
      * intros id Hin. destruct (Hz1 id Hin) as [Hg0 | Hid]; [auto |].
        right. exists w. simpl. auto.
      * intros id text Hin.
        destruct (Hp1 id text Hin) as [Hg0 | Hid]; [auto |].
        right. exists w. simpl. auto.
Qed.

(** X12: every id on the 'No Report List' sheet and every id on the
    'Jobs not found' sheet of a run is the id of a job of the listing. *)
Theorem side_sheets_hold_listed_jobs :
  forall (py_str : json -> string) (RAE_Rigs : list string)
         (jobs_http : HttpResult * HttpResult) (net : nat -> Responses)
         (run : Run),
    main_loop py_str RAE_Rigs jobs_http net = Ok run ->
    (forall id, In id (sheet_No_Report_List run) ->
                exists w, In w (tmpAllJobs run) /\ field w "id" = Ok id) /\
    (forall id text, In (id, text) (sheet_Jobs_not_found run) ->
                     exists w, In w (tmpAllJobs run) /\ field w "id" = Ok id).
Proof.
  intros py_str RAE_Rigs jobs_http net run H.
  apply main_run in H.
  destruct H as (_ & _ & Hloop & _ & _ & Hp & Hz).
  apply for_each_job_listed in Hloop. destruct Hloop as [Hz' Hp'].
  rewrite Hz, Hp. split.
  - intros id Hin. destruct (Hz' id Hin) as [[] | Hw]. exact Hw.
  - intros id text Hin. destruct (Hp' id text Hin) as [[] | Hw]. exact Hw.
Qed.

Lemma side_sheets_hold_listed_jobs_witness :
  (forall id, In id (sheet_No_Report_List run_content_down) ->
              exists w, In w (tmpAllJobs run_content_down) /\
                        field w "id" = Ok id) /\
  (forall id text, In (id, text) (sheet_Jobs_not_found run_content_down) ->
                   exists w, In w (tmpAllJobs run_content_down) /\
                             field w "id" = Ok id).
Proof.
  apply (side_sheets_hold_listed_jobs str ["Rig 9"]
           (listing [job "net_1" "Acme" "Rig 9"])
           (fun _ => hookload_job "net_1" one_report server_error)
           run_content_down).
  vm_compute. reflexivity.
Defined.

(** Every job that went into the lookup table has a key and an ['id']. *)
Lemma build_lookup_table_ids (py_str : json -> string) (jobs : list json) :
  forall t t',
    build_lookup_table py_str jobs t = Ok t' ->
    Forall (fun w => (exists k, lookup_key py_str w = Ok k) /\
                     (exists id, field w "id" = Ok id)) jobs.
Proof.
  induction jobs as [| w rest IH]; intros t t' H; [constructor |].
  simpl in H.
  destruct (a <- field w "assetInfoList" ;; a0 <- item a 0 ;;
            field a0 "owner") as [owner | e] eqn:Ho; [| discriminate H].
  destruct (a <- field w "assetInfoList" ;; a0 <- item a 0 ;;
            field a0 "name") as [name | e] eqn:Hn; [| discriminate H].
  destruct (field w "id") as [id | e] eqn:Hid; [| discriminate H].
  simpl in H. constructor; [| eapply IH; exact H].
  split; [| eauto]. unfold lookup_key. rewrite Ho, Hn. simpl. eauto.
Qed.

(** X13: when the loop of a run is stopped by an exception, [wellList]
    holds exactly the id of the job whose iteration raised, which is the
    job that follows the completed iterations in the listing; a run
    without an exception leaves [wellList] empty and completes one
    iteration per listed job. *)
Theorem wellList_names_the_failing_job :
  forall (py_str : json -> string) (RAE_Rigs : list string)
         (jobs_http : HttpResult * HttpResult) (net : nat -> Responses)
         (run : Run),
    main_loop py_str RAE_Rigs jobs_http net = Ok run ->
    match raised run with
    | None =>
        wellList run = [] /\
        List.length (exits run) = List.length (tmpAllJobs run)
    | Some _ =>
        exists w id,
          nth_error (tmpAllJobs run) (List.length (exits run)) = Some w /\
          field w "id" = Ok id /\
          wellList run = [id]
    end.
Proof.
  intros py_str RAE_Rigs jobs_http net run H.
  unfold main_loop in H.
  destruct (build_lookup_table py_str (fst (getJobs jobs_http)) [])
    as [lookup_table | e] eqn:Hl; simpl in H; [| discriminate].
  apply build_lookup_table_ids in Hl.
  destruct (for_each_job py_str (fst (getJobs jobs_http)) net 0
              initial_globals) as [[xs ex] g] eqn:Hf.
  injection H as <-. simpl.
  destruct ex as [e |].
  - apply for_each_job_raised in Hf.
    destruct Hf as (before & w & after & g1 & Hj & Hlen & _ & Hw & _).
    rewrite Hj in Hl. apply Forall_app in Hl. destruct Hl as [_ Hl].
    inversion Hl as [| ? ? (_ & id & Hid) _]; subst.
    exists w, id. repeat split.
    + rewrite Hj, <- Hlen, nth_error_app2, Nat.sub_diag by lia. reflexivity.
    + exact Hid.
    + apply process_job_calls in Hw. rewrite Hid in Hw.
      destruct Hw as [-> _]. reflexivity.
  - apply for_each_job_length in Hf. destruct Hf as [_ Hf].
    split; [reflexivity | apply Hf; reflexivity].
Qed.

Lemma wellList_names_the_failing_job_witness :
  match raised run_attributes_down with
  | None =>
      wellList run_attributes_down = [] /\
      List.length (exits run_attributes_down)
      = List.length (tmpAllJobs run_attributes_down)
  | Some _ =>
      exists w id,
        nth_error (tmpAllJobs run_attributes_down)
          (List.length (exits run_attributes_down)) = Some w /\
        field w "id" = Ok id /\
        wellList run_attributes_down = [id]
  end.
Proof.
  apply (wellList_names_the_failing_job str ["Rig"] (listing three_jobs)
           attributes_down run_attributes_down).
  vm_compute. reflexivity.
Defined.

(** ** Before the loop *)

(** X14: the lookup table is built outside the [try]: when a job of
    the listing lacks its ['id'] or the owner or name of its first asset,
    [main] ends with an uncaught exception before the first per-job
    request, and no workbook is written. *)
Theorem malformed_listed_job_stops_main :
  forall (py_str : json -> string) (RAE_Rigs : list string)
         (jobs_http : HttpResult * HttpResult) (net : nat -> Responses)
         (w : json) (e : exn),
    In w (fst (getJobs jobs_http)) ->
    lookup_key py_str w = Raise e \/ field w "id" = Raise e ->
    exists e', main_loop py_str RAE_Rigs jobs_http net = Raise e' /\
               main py_str RAE_Rigs jobs_http net = Raise e'.
Proof.
  intros py_str RAE_Rigs jobs_http net w e Hin Hbad.
  rewrite main_outcome. unfold main_loop.
  destruct (build_lookup_table py_str (fst (getJobs jobs_http)) [])
    as [lookup_table | e'] eqn:Hl; simpl; [| eauto].
  apply build_lookup_table_ids in Hl.
  rewrite Forall_forall in Hl.
  destruct (Hl w Hin) as [(k & Hk) (id & Hid)].
  destruct Hbad; congruence.
Qed.

Lemma malformed_listed_job_stops_main_witness :
  exists e', main_loop str ["Rig 9"] listing_without_id
               (fun _ => hookload_job "net_1" no_reports server_error)
             = Raise e' /\
             main str ["Rig 9"] listing_without_id
               (fun _ => hookload_job "net_1" no_reports server_error)
             = Raise e'.
Proof.
  apply (malformed_listed_job_stops_main str ["Rig 9"] listing_without_id
           (fun _ => hookload_job "net_1" no_reports server_error)
           (JDict [("name", JStr "Well of net_2");
                   ("assetInfoList",
                    JList [JDict [("owner", JStr "Acme");
                                  ("name", JStr "Rig 5")]])])
           (KeyError (JStr "id"))).
  - vm_compute. auto.
  - right. reflexivity.
Defined.

Lemma select_jobs_nil (RAE_Rigs : list string) : select_jobs RAE_Rigs [] = [].
Proof. induction RAE_Rigs as [| w rest IH]; simpl; auto. Qed.

(** X15: when the listing comes back empty (the request failed on both
    attempts, raised, or the answer had no job), the loop body never
    runs and no per-job request is made; after the handler the frame of
    'RAE Report' has no column, [df.columns[0]] raises [IndexError]
    outside the [try], and [main] dies without a workbook or a mail. *)
Theorem empty_listing_ends_in_IndexError :
  forall (py_str : json -> string) (RAE_Rigs : list string)
         (jobs_http : HttpResult * HttpResult) (net : nat -> Responses),
    fst (getJobs jobs_http) = [] ->
    main_loop py_str RAE_Rigs jobs_http net = Ok empty_run /\
    calls (final empty_run) = [] /\
    main py_str RAE_Rigs jobs_http net = Raise IndexError.
Proof.
  intros py_str RAE_Rigs jobs_http net H.
  assert (Hl : main_loop py_str RAE_Rigs jobs_http net = Ok empty_run).
  { unfold main_loop. rewrite H. simpl. rewrite select_jobs_nil.
    reflexivity. }
  split; [exact Hl | split; [reflexivity |]].
  rewrite main_outcome, Hl. reflexivity.
Qed.

Lemma empty_listing_ends_in_IndexError_witness :
  main_loop str ["Rig 9"] server_error
    (fun _ => hookload_job "net_1" no_reports server_error)
  = Ok empty_run /\
  calls (final empty_run) = [] /\
  main str ["Rig 9"] server_error
    (fun _ => hookload_job "net_1" no_reports server_error)
  = Raise IndexError.
Proof.
  apply (empty_listing_ends_in_IndexError str ["Rig 9"] server_error
           (fun _ => hookload_job "net_1" no_reports server_error)).
  vm_compute. reflexivity.
Defined.

Lemma build_lookup_table_assoc (py_str : json -> string) (jobs : list json) :
  forall t0 t k,
    build_lookup_table py_str jobs t0 = Ok t ->
    ((forall w, In w jobs -> lookup_key py_str w <> Ok k) ->
     assoc k t = assoc k t0) /\
    (forall before w after id,
        jobs = (before ++ w :: after)%list ->
        lookup_key py_str w = Ok k ->
        field w "id" = Ok id ->
        (forall w', In w' after -> lookup_key py_str w' <> Ok k) ->
        assoc k t = Some id).
Proof.
  induction jobs as [| w0 rest IH]; intros t0 t k H.
  - simpl in H. injection H as <-. split; [reflexivity |].
    intros before w after id Hj. destruct before; discriminate Hj.
  - simpl in H.
    assert (Hkey : lookup_key py_str w0 =
                   (owner <- (a <- field w0 "assetInfoList" ;;
                              a0 <- item a 0 ;; field a0 "owner") ;;
                    name <- (a <- field w0 "assetInfoList" ;;
                             a0 <- item a 0 ;; field a0 "name") ;;
                    Ok (py_str owner ++ " " ++ py_str name)))
      by reflexivity.
    destruct (a <- field w0 "assetInfoList" ;; a0 <- item a 0 ;;
              field a0 "owner") as [owner | e]; [| discriminate H].
    destruct (a <- field w0 "assetInfoList" ;; a0 <- item a 0 ;;
              field a0 "name") as [name | e]; [| discriminate H].
    destruct (field w0 "id") as [id0 | e] eqn:Hid0; [| discriminate H].
    simpl in H, Hkey.
    destruct (IH _ _ k H) as [IH1 IH2]. split.
    + intros Hno. rewrite IH1 by (intros w Hw; apply Hno; right; exact Hw).
      apply assoc_dict_set_other.
      intros Heq. apply (Hno w0); [left; reflexivity |].
      rewrite Hkey, Heq. reflexivity.
    + intros before w after id Hj Hk Hid Hafter.
      destruct before as [| b before'].
      * simpl in Hj. injection Hj as <- <-.
        rewrite IH1 by exact Hafter.
        rewrite Hkey in Hk. injection Hk as <-.
        rewrite Hid0 in Hid. injection Hid as <-.
        apply assoc_dict_set_same.
      * simpl in Hj. injection Hj as <- ->.
        eapply IH2; eauto.
Qed.

Lemma build_lookup_table_NoDup (py_str : json -> string) (jobs : list json) :
  forall t0 t,
    build_lookup_table py_str jobs t0 = Ok t ->
    NoDup (map fst t0) -> NoDup (map fst t).
Proof.
  induction jobs as [| w0 rest IH]; intros t0 t H Hnd.
  - simpl in H. injection H as <-. exact Hnd.
  - simpl in H.
    destruct (a <- field w0 "assetInfoList" ;; a0 <- item a 0 ;;
              field a0 "owner") as [owner | e]; [| discriminate H].
    destruct (a <- field w0 "assetInfoList" ;; a0 <- item a 0 ;;
              field a0 "name") as [name | e]; [| discriminate H].
    destruct (field w0 "id") as [id0 | e]; [| discriminate H].
    simpl in H. eapply IH; [exact H |].
    apply dict_set_keys, Hnd.
Qed.

(** X16: the lookup table has one entry per key "{owner} {name}".  A
    key that no listed job has is absent, and under the key of a job the
    table holds the id of the last listed job with that key: of two jobs
    on the same rig the earlier one is overwritten. *)
Theorem lookup_table_keeps_the_last_job_of_a_rig :
  forall (py_str : json -> string) (jobs : list json)
         (t : list (string * json)) (k : string),
    build_lookup_table py_str jobs [] = Ok t ->
    NoDup (map fst t) /\
    ((forall w, In w jobs -> lookup_key py_str w <> Ok k) ->
     assoc k t = None) /\
    (forall before w after id,
        jobs = (before ++ w :: after)%list ->
        lookup_key py_str w = Ok k ->
        field w "id" = Ok id ->
        (forall w', In w' after -> lookup_key py_str w' <> Ok k) ->
        assoc k t = Some id).
Proof.
  intros py_str jobs t k H. split.
  - eapply build_lookup_table_NoDup; [exact H | constructor].
  - apply (build_lookup_table_assoc py_str jobs [] t k H).
Qed.

Lemma lookup_table_keeps_the_last_job_of_a_rig_witness :
  NoDup (map fst [("Acme Rig 9", JStr "net_3"); ("Apex Rig 5", JStr "net_2")])
  /\
  ((forall w, In w same_rig_twice -> lookup_key str w <> Ok "Acme Rig 9") ->
   assoc "Acme Rig 9"
     [("Acme Rig 9", JStr "net_3"); ("Apex Rig 5", JStr "net_2")] = None) /\
  (forall before w after id,
      same_rig_twice = (before ++ w :: after)%list ->
      lookup_key str w = Ok "Acme Rig 9" ->
      field w "id" = Ok id ->
      (forall w', In w' after -> lookup_key str w' <> Ok "Acme Rig 9") ->
      assoc "Acme Rig 9"
        [("Acme Rig 9", JStr "net_3"); ("Apex Rig 5", JStr "net_2")]
      = Some id).
Proof.
  apply (lookup_table_keeps_the_last_job_of_a_rig str same_rig_twice
           [("Acme Rig 9", JStr "net_3"); ("Apex Rig 5", JStr "net_2")]
           "Acme Rig 9").
  vm_compute. reflexivity.
Defined.

(** ** The activity rows of a report *)

(** X17: the activity loop of a report appends to the report comments
    one row per item that has the code key, in the order of the items and
    after the rows that were there; items without the key are skipped.
    Each row holds the job id, the id and date of the listed report, and
    the code and details of the item. *)
Theorem activity_rows_follow_the_items :
  forall (well r : json) (present details : string) (items : list json)
         (g g' : Globals),
    activity_rows well r present present details items g = (Ok tt, g') ->
    exists rows,
      MR_Report_Comments g' = (MR_Report_Comments g ++ rows)%list /\
      Forall2 (activity_row well r present details)
        (filter (holds present) items) rows.
Proof.
  intros well r present details items.
  induction items as [| rep rest IH]; intros g g' H; simpl in H.
  - repeat run_any. exists []. rewrite app_nil_r. split; constructor.
  - cbn [filter].
    repeat run_any;
      match goal with
      | Hr : activity_rows _ _ _ _ _ _ _ = _ |- _ =>
          apply IH in Hr; destruct Hr as (rows & Hrows & Hall)
      end;
      match goal with
      | Hp : has _ _ = Ok _ |- _ => unfold holds at 1; rewrite Hp
      end.
    + match goal with
      | Hrow : _ = Ok ?row |- _ =>
          match type of Hrow with
          | context [item r 0] =>
              exists (row :: rows); split;
              [ rewrite Hrows; simpl; rewrite <- app_assoc; reflexivity
              | constructor; [| exact Hall] ];
              unfold activity_row;
              destruct (item r 0) as [r0 |] eqn:?; simpl in Hrow;
              [| discriminate Hrow];
              destruct (field r0 "id") as [id |] eqn:?; simpl in Hrow;
              [| discriminate Hrow];
              destruct (field r0 "date") as [date |] eqn:?; simpl in Hrow;
              [| discriminate Hrow];
              destruct (field rep present) as [c |] eqn:?; simpl in Hrow;
              [| discriminate Hrow];
              destruct (field rep details) as [d |] eqn:?; simpl in Hrow;
              [| discriminate Hrow];
              injection Hrow as <-;
              exists id, date, c, d; simpl; repeat split; assumption
          end
      end.
    + exists rows. split; [exact Hrows | exact Hall].
Qed.

Lemma activity_rows_follow_the_items_witness :
  exists rows,
    MR_Report_Comments
      (snd (activity_rows (JStr "net_1") listed_report "ActCode" "ActCode"
              "DescriptionOfWork" three_items initial_globals))
    = (MR_Report_Comments initial_globals ++ rows)%list /\
    Forall2 (activity_row (JStr "net_1") listed_report "ActCode"
               "DescriptionOfWork")
      (filter (holds "ActCode") three_items) rows.
Proof.
  apply (activity_rows_follow_the_items (JStr "net_1") listed_report
           "ActCode" "DescriptionOfWork" three_items initial_globals).
  vm_compute. reflexivity.
Defined.

(** ** The wrappers *)

(** X18: [getApiCall] returns at most one value, and a value it
    returns is the decoded body of an answer with status 200: of the
    first request, or of the second one that follows a first answer with
    another status.  It makes at most two requests.  An exception at the
    first request, or at the decoding of its 200 answer, is not followed
    by a second request: the handler sleeps one second and the empty list
    is returned. *)
Theorem getApiCall_outcomes :
  forall (first second : HttpResult),
    (List.length (fst (getApiCall (first, second))) <= 1)%nat /\
    (forall v, In v (fst (getApiCall (first, second))) ->
               first = Response 200 (Some v) \/
               exists s b, first = Response s b /\ s <> 200 /\
                           second = Response 200 (Some v)) /\
    (List.length (filter is_Request (snd (getApiCall (first, second)))) <= 2)%nat
    /\
    (first = ConnectionError \/ first = Response 200 None ->
     getApiCall (first, second) = ([], [Request; Sleep 1])).
Proof.
  intros first second. unfold getApiCall, call_once_more.
  destruct first as [s b |].
  - destruct (s =? 200) eqn:E.
    + apply Z.eqb_eq in E. subst s.
      destruct b as [v |]; simpl; (split; [| split; [| split]]); auto.
      * intros v' [<- | []]. left. reflexivity.
      * intros [H | H]; discriminate H.
      * intros v' [].
    + rewrite retry_cond_or_400_value. simpl.
      apply Z.eqb_neq in E.
      assert (Hfirst : Response s b = ConnectionError \/
                       Response s b = Response 200 None ->
                       False).
      { intros [H | H]; [discriminate H | injection H; intros; auto]. }
      destruct second as [s2 b2 |]; simpl.
      * destruct (s2 =? 200) eqn:E2; simpl.
        -- apply Z.eqb_eq in E2. subst s2.
           destruct b2 as [v2 |]; simpl; (split; [| split; [| split]]);
             auto; try (intros v' []; fail);
             try (intros H; elim (Hfirst H)).
           intros v' [<- | []]. right. exists s, b. auto.
        -- (split; [| split; [| split]]); auto;
             try (intros v' []; fail); try (intros H; elim (Hfirst H)).
      * (split; [| split; [| split]]); auto;
          try (intros v' []; fail); try (intros H; elim (Hfirst H)).
  - simpl. (split; [| split; [| split]]); auto. intros v' [].
Qed.

(** ** The token *)

(** X19: [getToken] never tries again after an answer whose status is
    not 200: when such an answer is reached within the attempts allowed,
    all earlier attempts having raised, the process is ended with exit
    code 1.  A value it returns is the ['token'] field of a 200 answer to
    one of these attempts, or [None] when every attempt raised. *)
Theorem getToken_outcomes :
  forall (attempts : list HttpResult) (budget : nat),
    match getToken attempts budget with
    | Exited code =>
        code = 1 /\
        exists before s b after,
          attempts = (before ++ Response s b :: after)%list /\
          (List.length before < budget)%nat /\
          forallb token_attempt_raises before = true /\ s <> 200
    | Returned token =>
        (forallb token_attempt_raises (firstn budget attempts) = true /\
         token = JNone) \/
        exists before values after,
          attempts = (before ++ Response 200 (Some values) :: after)%list /\
          (List.length before < budget)%nat /\
          forallb token_attempt_raises before = true /\
          field values "token" = Ok token
    end.
Proof.
  induction attempts as [| a rest IH]; intros budget.
  - destruct budget; simpl; left; auto.
  - destruct budget as [| n]; [simpl; left; auto |].
    assert (Hnext :
      token_attempt_raises a = true ->
      match getToken rest n with
      | Exited code =>
          code = 1 /\
          exists before s b after,
            a :: rest = (before ++ Response s b :: after)%list /\
            (List.length before < S n)%nat /\
            forallb token_attempt_raises before = true /\ s <> 200
      | Returned token =>
          (forallb token_attempt_raises (firstn (S n) (a :: rest)) = true /\
           token = JNone) \/
          exists before values after,
            a :: rest
            = (before ++ Response 200 (Some values) :: after)%list /\
            (List.length before < S n)%nat /\
            forallb token_attempt_raises before = true /\
            field values "token" = Ok token
      end).
    { intros Ha. specialize (IH n).
      destruct (getToken rest n) as [token | code].
      - destruct IH as [[Hall ->] | (before & values & after & -> & Hl & Hb & Ht)].
        + left. simpl. rewrite Ha, Hall. auto.
        + right. exists (a :: before), values, after. simpl.
          rewrite Ha, Hb. repeat split; auto. lia.
      - destruct IH as (-> & before & s & b & after & -> & Hl & Hb & Hs).
        split; [reflexivity |].
        exists (a :: before), s, b, after. simpl.
        rewrite Ha, Hb. repeat split; auto. lia. }
    destruct a as [s [values |] |]; simpl getToken.
    + destruct (s =? 200) eqn:E; simpl negb; cbv iota.
      * apply Z.eqb_eq in E. subst s.
        destruct (field values "token") as [token | e] eqn:Ht.
        -- right. exists [], values, rest. simpl. repeat split; auto. lia.
        -- apply Hnext. simpl. rewrite Ht. reflexivity.
      * apply Z.eqb_neq in E. split; [reflexivity |].
        exists [], s, (Some values), rest. simpl. repeat split; auto. lia.
    + destruct (s =? 200) eqn:E; simpl negb; cbv iota.
      * apply Hnext. simpl. exact E.
      * apply Z.eqb_neq in E. split; [reflexivity |].
        exists [], s, None, rest. simpl. repeat split; auto. lia.
    + apply Hnext. reflexivity.
Qed.

(** ** The job of a well name *)

Lemma find_snoc {A : Type} (p : A -> bool) (l : list A) (x : A) :
  find p (l ++ [x]) =
  match find p l with
  | Some y => Some y
  | None => if p x then Some x else None
  end.
Proof.
  induction l as [| y l IH]; simpl; [reflexivity |].
  destruct (p y); [reflexivity | exact IH].
Qed.

Lemma last_named_result (wellname : string) (jobs : list json) :
  forall jobid r,
    last_named wellname jobs jobid = Ok r ->
    match find (named wellname) (rev jobs) with
    | Some w => field w "id" = Ok r
    | None => r = jobid
    end.
Proof.
  induction jobs as [| w rest IH]; intros jobid r H; simpl in H.
  - injection H as <-. reflexivity.
  - simpl rev. rewrite find_snoc. unfold named at 2.
    destruct (field w "name") as [name | e]; simpl in H; [| discriminate H].
    destruct (eq_str name wellname).
    + destruct (field w "id") as [id | e] eqn:Hid; simpl in H;
        [| discriminate H].
      apply IH in H.
      destruct (find (named wellname) (rev rest)); [exact H |].
      subst r. exact Hid.
    + apply IH in H.
      destruct (find (named wellname) (rev rest)); exact H.
Qed.

(** X20: [getJobsbyWellName] makes one request.  On a 200 answer it
    returns the id of the last job of the answer whose name equals the
    given one, and the empty string when no job has the name; on any
    other status it returns the empty string.  When the request, the
    decoding or a job of the answer raises, the exception handler itself
    fails on an unbound name, and the function raises [NameError]. *)
Theorem getJobsbyWellName_outcomes :
  forall (wellname : string) (attempt : HttpResult),
    match getJobsbyWellName wellname attempt with
    | Job_id jobid =>
        (exists s b, attempt = Response s b /\ s <> 200 /\ jobid = JStr "")
        \/
        (exists values jobs,
            attempt = Response 200 (Some values) /\
            (x <- field values "jobs" ;; iter x) = Ok jobs /\
            id_of_the_last_named wellname jobs jobid)
    | NameError =>
        attempt = ConnectionError \/
        attempt = Response 200 None \/
        exists values,
          attempt = Response 200 (Some values) /\
          (forall jobs, (x <- field values "jobs" ;; iter x) = Ok jobs ->
                        exists e, last_named wellname jobs (JStr "") = Raise e)
    end.
Proof.
  intros wellname attempt. unfold getJobsbyWellName.
  destruct attempt as [s [values |] |]; [| | left; reflexivity].
  - destruct (s =? 200) eqn:E.
    + apply Z.eqb_eq in E. subst s.
      destruct (field values "jobs") as [x | e] eqn:Hf; simpl.
      * destruct (iter x) as [jobs | e] eqn:Hi; simpl.
        -- destruct (last_named wellname jobs (JStr "")) as [jobid | e] eqn:Hl.
           ++ right. exists values, jobs.
              split; [reflexivity | split; [rewrite Hf; exact Hi |]].
              apply last_named_result in Hl. exact Hl.
           ++ right. right. exists values. split; [reflexivity |].
              intros jobs' Hj. rewrite Hf in Hj. simpl in Hj.
              rewrite Hi in Hj. injection Hj as <-. eauto.
        -- right. right. exists values. split; [reflexivity |].
           intros jobs' Hj. rewrite Hf in Hj. simpl in Hj.
           rewrite Hi in Hj. discriminate Hj.
      * right. right. exists values. split; [reflexivity |].
        intros jobs' Hj. rewrite Hf in Hj. discriminate Hj.
    + apply Z.eqb_neq in E. left. exists s, (Some values). auto.
  - destruct (s =? 200) eqn:E.
    + apply Z.eqb_eq in E. subst s. right. left. reflexivity.
    + apply Z.eqb_neq in E. left. exists s, None. auto.
Qed.

(** ** The listing with its filters *)

Lemma append_jobs_unfiltered (f : JobFilter) (jobs : list json) :
  (forall w, job_passes f w = Ok true) ->
  forall wells, append_jobs f jobs wells = ((wells ++ jobs)%list, false).
Proof.
  intros Hf. induction jobs as [| w rest IH]; intros wells; simpl.
  - rewrite app_nil_r. reflexivity.
  - rewrite Hf, IH, <- app_assoc. reflexivity.
Qed.

Lemma getJobs_page_unfiltered (f : JobFilter) :
  (forall w, job_passes f w = Ok true) ->
  forall attempts wells retries,
    getJobs_page f attempts wells retries
    = getJobs_page no_filter attempts wells retries.
Proof.
  intros Hf attempts wells retries.
  assert (Hr : forall body, read_jobs f body wells
                            = read_jobs no_filter body wells).
  { intros [values |]; [| reflexivity]. unfold read_jobs.
    destruct (jobs <- field values "jobs" ;; iter jobs); [| reflexivity].
    rewrite !append_jobs_unfiltered by (auto; reflexivity). reflexivity. }
  unfold getJobs_page. destruct attempts as [first second].
  destruct first as [s b |]; [| reflexivity].
  rewrite Hr. destruct second as [s2 b2 |]; [| reflexivity].
  rewrite Hr. reflexivity.
Qed.

Lemma getJobs_pages_unfiltered (f : JobFilter) :
  (forall w, job_passes f w = Ok true) ->
  forall take pages currTake wells retries,
    getJobs_pages f take pages currTake wells retries
    = getJobs_pages no_filter take pages currTake wells retries.
Proof.
  intros Hf take pages.
  induction pages as [| p rest IH]; intros currTake wells retries;
    [reflexivity |].
  cbn [getJobs_pages]. rewrite getJobs_page_unfiltered by exact Hf.
  destruct (currTake <=? take); [| reflexivity].
  destruct (getJobs_page no_filter p wells retries) as [[w' r'] eff].
  rewrite IH. reflexivity.
Qed.

(** X21: the listing loop of [getJobs] runs once when [take] is at
    least 1 and not at all otherwise: the answers to further pages are
    never asked for.  Without a filter keyword its result and its
    requests are those of the listing call of [main]. *)
Theorem getJobs_listing_asks_for_one_page :
  forall (f : JobFilter) (take : Z) (first : HttpResult * HttpResult)
         (rest : list (HttpResult * HttpResult)),
    getJobs_listing f take (first :: rest)
    = (if 1 <=? take then getJobs_listing f take [first] else ([], [])) /\
    getJobs_listing no_filter take (first :: rest)
    = (if 1 <=? take then getJobs first else ([], [])).
Proof.
  intros f take first rest. unfold getJobs_listing.
  destruct (1 <=? take) eqn:E.
  - apply Z.leb_le in E.
    assert (Hone : forall f', getJobs_pages f' take (first :: rest) 1 [] 0
                   = let '(wells, _, effects) := getJobs_page f' first [] 0 in
                     (wells, effects)).
    { intros f'. cbn [getJobs_pages]. destruct (1 <=? take) eqn:E1;
        [| apply Z.leb_gt in E1; lia].
      destruct (getJobs_page f' first [] 0) as [[wells retries] effects].
      assert (Hstop : forall ps, getJobs_pages f' take ps (1 + take) wells
                                   retries = (wells, [])).
      { intros [| p ps]; [reflexivity |]. cbn [getJobs_pages].
        destruct (1 + take <=? take) eqn:E2; [| reflexivity].
        apply Z.leb_le in E2. lia. }
      rewrite Hstop. rewrite app_nil_r. reflexivity. }
    split.
    + rewrite Hone. cbn [getJobs_pages]. destruct (1 <=? take) eqn:E1;
        [| apply Z.leb_gt in E1; lia].
      destruct (getJobs_page f first [] 0) as [[wells retries] effects].
      rewrite app_nil_r. reflexivity.
    + rewrite Hone. unfold getJobs_page, getJobs, call_once_more.
      assert (Hr : forall body,
                 read_jobs no_filter body [] =
                 match body with
                 | Some values =>
                     match (jobs <- field values "jobs" ;; iter jobs) with
                     | Ok ws => (ws, false)
                     | Raise _ => ([], true)
                     end
                 | None => ([], true)
                 end).
      { intros [values |]; [| reflexivity]. unfold read_jobs.
        destruct (jobs <- field values "jobs" ;; iter jobs); [| reflexivity].
        apply append_jobs_unfiltered. reflexivity. }
      destruct first as [a second]. destruct a as [s b |]; [| reflexivity].
      rewrite Hr.
      destruct (s =? 200).
      * destruct b as [values |]; [| reflexivity].
        destruct (jobs <- field values "jobs" ;; iter jobs); reflexivity.
      * destruct (truthy (retry_cond_or_400 500 599 s)); [| reflexivity].
        destruct second as [s2 b2 |]; [| reflexivity].
        rewrite Hr.
        destruct (s2 =? 200); [| reflexivity].
        destruct b2 as [values |]; [| reflexivity].
        destruct (jobs <- field values "jobs" ;; iter jobs); reflexivity.
  - cbn [getJobs_pages]. rewrite E. split; reflexivity.
Qed.

(** X22: when both the [contractor] and the [operator] keyword are
    passed to [getJobs], neither is compared with anything: every job of
    the answer is returned, as if no filter had been given. *)
Theorem contractor_and_operator_filter_nothing :
  forall (c o : json) (r : option json) (take : Z)
         (pages : list (HttpResult * HttpResult)),
    getJobs_listing (mkJobFilter (Some c) (Some o) r) take pages
    = getJobs_listing no_filter take pages.
Proof.
  intros c o r take pages. unfold getJobs_listing.
  apply getJobs_pages_unfiltered. reflexivity.
Qed.

Lemma append_jobs_app (f : JobFilter) (before : list json) :
  Forall (fun w => exists b, job_passes f w = Ok b) before ->
  forall rest wells,
    append_jobs f (before ++ rest) wells
    = append_jobs f rest (wells ++ filter (passes f) before).
Proof.
  induction 1 as [| w before (b & Hb) _ IH]; intros rest wells; simpl.
  - rewrite app_nil_r. reflexivity.
  - unfold passes at 1. rewrite Hb.
    destruct b; rewrite IH; [rewrite <- app_assoc |]; reflexivity.
Qed.

(** X23: with a filter keyword, [getJobs] keeps the jobs of the answer
    that pass the comparison, in their order, as long as the compared
    field can be read; at the first job where it cannot, the collection
    stops: the jobs kept so far are returned, and no later job is, even
    one that would pass. *)
Theorem malformed_job_cuts_the_listing :
  forall (f : JobFilter) (before after : list json) (w : json) (e : exn),
    Forall (fun w => exists b, job_passes f w = Ok b) before ->
    job_passes f w = Raise e ->
    append_jobs f before [] = (filter (passes f) before, false) /\
    append_jobs f (before ++ w :: after) []
    = (filter (passes f) before, true).
Proof.
  intros f before after w e Hb Hw. split.
  - rewrite <- (app_nil_r before) at 1.
    rewrite append_jobs_app by exact Hb. reflexivity.
  - rewrite append_jobs_app by exact Hb. simpl. rewrite Hw. reflexivity.
Qed.

Lemma malformed_job_cuts_the_listing_witness :
  append_jobs (mkJobFilter (Some (JStr "Acme")) None None)
    [job "net_1" "Acme" "Rig 9"; job "net_2" "Apex" "Rig 5"] []
  = (filter (passes (mkJobFilter (Some (JStr "Acme")) None None))
       [job "net_1" "Acme" "Rig 9"; job "net_2" "Apex" "Rig 5"], false) /\
  append_jobs (mkJobFilter (Some (JStr "Acme")) None None)
    ([job "net_1" "Acme" "Rig 9"; job "net_2" "Apex" "Rig 5"]
       ++ JDict [("id", JStr "net_3"); ("assetInfoList", JList [])]
       :: [job "net_4" "Acme" "Rig 12"]) []
  = (filter (passes (mkJobFilter (Some (JStr "Acme")) None None))
       [job "net_1" "Acme" "Rig 9"; job "net_2" "Apex" "Rig 5"], true).
Proof.
  apply (malformed_job_cuts_the_listing
           (mkJobFilter (Some (JStr "Acme")) None None)
           [job "net_1" "Acme" "Rig 9"; job "net_2" "Apex" "Rig 5"]
           [job "net_4" "Acme" "Rig 12"]
           (JDict [("id", JStr "net_3"); ("assetInfoList", JList [])])
           IndexError).
  - repeat constructor; eexists; vm_compute; reflexivity.
  - reflexivity.
Defined.

(** ** The capabilities request *)

(** X24: the capabilities answer of a job reaches no column of the
    row, but it can end the loop.  When its text does not contain
    'realTime' (as for an empty answer), the iteration goes on with the
    attribute request; when the text contains 'realTime' and
    [rTime[0]['realTime']] cannot be read, the iteration raises right
    there: no further request is made for the job and no row is
    appended. *)
Theorem capabilities_answer_can_end_the_loop :
  forall (py_str : json -> string) (w : json) (net : Responses)
         (g g' : Globals) (r : res exit) (id : json),
    process_job py_str w net g = (r, g') ->
    field w "id" = Ok id ->
    (str_in "realTime"
       (py_str (JList (fst (getApiCall net.(capabilities_http))))) = false ->
     exists cs,
       calls g' = (calls g ++ GetCapabilities id :: GetAttributes id :: cs)%list)
    /\
    (forall e,
        str_in "realTime"
          (py_str (JList (fst (getApiCall net.(capabilities_http))))) = true ->
        (x <- item (JList (fst (getApiCall net.(capabilities_http)))) 0 ;;
         field x "realTime") = Raise e ->
        r = Raise e /\
        calls g' = (calls g ++ [GetCapabilities id])%list /\
        RAEJobs g' = RAEJobs g).
Proof.
  intros py_str w net g g' r id H Hid. split.
  - intros Hno. run_job H.
    all: try congruence.
    all: match goal with
         | Ha : field _ "id" = Ok ?a, Hb : field _ "id" = Ok ?b |- _ =>
             rewrite Ha in Hb; injection Hb; intros; subst
         end.
    all: calls_shape; eexists; reflexivity.
  - intros e Hyes Hraise. run_job H.
    all: try congruence.
    all: match goal with
         | Ha : field _ "id" = Ok ?a, Hb : field _ "id" = Ok ?b |- _ =>
             rewrite Ha in Hb; injection Hb; intros; subst
         end.
    all: try match goal with
             | Ha : ?m = Raise ?e1, Hb : ?m = Raise ?e2 |- _ =>
                 rewrite Ha in Hb; injection Hb; intros; subst
             end.
    all: try (simpl in *; congruence).
    all: simpl in *; repeat split; congruence.
Qed.

Lemma capabilities_answer_can_end_the_loop_witness :
  (str_in "realTime"
     (str (JList (fst (getApiCall (capabilities_http nested_capabilities)))))
   = false ->
   exists cs,
     calls (snd iteration_nested_capabilities)
     = (calls initial_globals
          ++ GetCapabilities (JStr "net_1") :: GetAttributes (JStr "net_1")
          :: cs)%list)
  /\
  (forall e,
      str_in "realTime"
        (str (JList (fst (getApiCall (capabilities_http nested_capabilities)))))
      = true ->
      (x <- item (JList (fst (getApiCall
                                (capabilities_http nested_capabilities)))) 0 ;;
       field x "realTime") = Raise e ->
      fst iteration_nested_capabilities = Raise e /\
      calls (snd iteration_nested_capabilities)
      = (calls initial_globals ++ [GetCapabilities (JStr "net_1")])%list /\
      RAEJobs (snd iteration_nested_capabilities) = RAEJobs initial_globals).
Proof.
  apply (capabilities_answer_can_end_the_loop str
           (job "net_1" "Acme" "Rig 9") nested_capabilities initial_globals
           (snd iteration_nested_capabilities)
           (fst iteration_nested_capabilities) (JStr "net_1")).
  - vm_compute. reflexivity.
  - reflexivity.
Defined.
